(** * TrackVault: risk classification, activity logging and signal queue

    A shallow embedding of the monitoring pipeline of TrackVault
    (monitor_service.py, file_monitor.py), of the dashboard's consumer side
    (web_interface.py) and of the alert endpoints of the older dashboard
    (app.py), with the properties its specification states about them.

    A Python string is the [string] of its characters.  [str.lower] is
    modelled on the ASCII letters, and the statements on the classifier,
    the ingestion gate and the alert description are made for strings of
    ASCII characters, on which it is Python's.  A SQLite database file is a
    record of tables (lists of rows in insertion order) together with the
    state of the connections that the code opens on it. *)

From Stdlib Require Import String Ascii List Bool Arith Lia.
From Stdlib Require Import Sorting.Sorted Sorting.Permutation.
Import ListNotations.
Open Scope string_scope.

(* ================================================================== *)
(** ** Python string operations used by the code *)
(* ================================================================== *)

Module PyStr.

(** [c.lower()] for one character: the 26 ASCII capitals are shifted. *)
Definition lower_ascii (c : ascii) : ascii :=
  let n := nat_of_ascii c in
  if Nat.leb 65 n && Nat.leb n 90 then ascii_of_nat (n + 32) else c.

(** [s.lower()] *)
Fixpoint lower (s : string) : string :=
  match s with
  | EmptyString => EmptyString
  | String c t => String (lower_ascii c) (lower t)
  end.

(** [sub in s] on two strings: [sub] occurs in [s] as a contiguous run. *)
Fixpoint contains (sub s : string) : bool :=
  String.prefix sub s ||
  match s with
  | EmptyString => false
  | String _ t => contains sub t
  end.

(** [x in xs] on a list of strings. *)
Definition mem (x : string) (xs : list string) : bool :=
  existsb (String.eqb x) xs.

(** [any(p in s for p in ps)] *)
Definition any_in (ps : list string) (s : string) : bool :=
  existsb (fun p => contains p s) ps.

(** The path functions are those of [ntpath], which is [os.path] on the
    platform the monitor runs on (the module imports the win32 API); both
    [\] and [/] separate the components of a path. *)
Definition is_sep (c : ascii) : bool :=
  Ascii.eqb c "/"%char || Ascii.eqb c "\"%char.

Fixpoint has_sep (p : string) : bool :=
  match p with
  | EmptyString => false
  | String c t => is_sep c || has_sep t
  end.

(** [p[:n]] and [p[n:]] *)
Fixpoint take (n : nat) (p : string) : string :=
  match n, p with
  | S k, String c t => String c (take k t)
  | _, _ => EmptyString
  end.

Fixpoint drop (n : nat) (p : string) : string :=
  match n, p with
  | S k, String _ t => drop k t
  | _, _ => p
  end.

(** [normp.find(sep, start)], where [normp] is the path with [\] in the
    place of every [/]: the index of the first separator at or after
    [start]. *)
Fixpoint find_sep (start : nat) (p : string) : option nat :=
  match p with
  | EmptyString => None
  | String c t =>
      match start with
      | O => if is_sep c then Some 0 else option_map S (find_sep 0 t)
      | S k => option_map S (find_sep k t)
      end
  end.

(** [normp[:8].upper() == '\\?\UNC\'] *)
Definition has_unc_prefix (p : string) : bool :=
  match p with
  | String c0 (String c1 (String c2 (String c3 (String c4 (String c5
      (String c6 (String c7 _))))))) =>
      is_sep c0 && is_sep c1 && Ascii.eqb c2 "?"%char && is_sep c3
      && Ascii.eqb (lower_ascii c4) "u"%char
      && Ascii.eqb (lower_ascii c5) "n"%char
      && Ascii.eqb (lower_ascii c6) "c"%char
      && is_sep c7
  | _ => false
  end.

(** [ntpath.splitdrive(p)]: a drive letter with its colon, or the server
    and share of a UNC path, and what follows. *)
Definition splitdrive (p : string) : string * string :=
  match p with
  | String c0 (String c1 _) =>
      if is_sep c0 && is_sep c1 then
        let start := if has_unc_prefix p then 8 else 2 in
        match find_sep start p with
        | None => (p, EmptyString)
        | Some index =>
            match find_sep (S index) p with
            | None => (p, EmptyString)
            | Some index2 => (take index2 p, drop index2 p)
            end
        end
      else if Ascii.eqb c1 ":"%char then (take 2 p, drop 2 p)
      else (EmptyString, p)
  | _ => (EmptyString, p)
  end.

(** What follows the last separator of [p]. *)
Fixpoint last_component (p : string) : string :=
  match p with
  | EmptyString => EmptyString
  | String c t =>
      if has_sep t then last_component t
      else if is_sep c then t else String c t
  end.

(** [os.path.basename(p)], that is [ntpath.split(p)[1]]: the last
    component of what follows the drive. *)
Definition basename (p : string) : string :=
  last_component (snd (splitdrive p)).

End PyStr.

Import PyStr.

(* ================================================================== *)
(** ** Configuration and risk levels *)
(* ================================================================== *)

Inductive RiskLevel : Type := Low | Medium | High.

(** The text stored in a [risk_level] column. *)
Definition risk_text (r : RiskLevel) : string :=
  match r with Low => "Low" | Medium => "Medium" | High => "High" end.

Definition RiskLevel_eqb (a b : RiskLevel) : bool :=
  match a, b with
  | Low, Low | Medium, Medium | High, High => true
  | _, _ => false
  end.

(** [config['risk_settings']] *)
Record RiskSettings : Type := mkRiskSettings {
  high_risk_extensions : list string;
  high_risk_actions : list string;
  sensitive_paths : list string
}.

(** The dictionary [load_config] returns. *)
Record Config : Type := mkConfig {
  watch_paths : list string;
  excluded_extensions : list string;
  excluded_paths : list string;
  risk_settings : RiskSettings;
  sync_interval : nat;
  max_buffer_size : nat
}.

(** [default_config] of [MonitorService.load_config]. *)
Definition default_config : Config := {|
  watch_paths := ["C:\Users\Chandan Deshmukh\Desktop";
                  "C:\Users\Chandan Deshmukh\Documents"];
  excluded_extensions := [".tmp"; ".log"; ".pyc"];
  excluded_paths := ["__pycache__"; "node_modules"; ".git"];
  risk_settings := {|
    high_risk_extensions := [".exe"; ".dll"; ".sys"; ".bat"; ".cmd"; ".ps1"];
    high_risk_actions := ["DELETE"; "MOVE"];
    sensitive_paths := ["system32"; "windows"; "program files"] |};
  sync_interval := 5;
  max_buffer_size := 100
|}.

(** The fields of a [MonitorService] object that its methods read. *)
Record Service : Type := mkService {
  db_path : string;
  config : Config
}.

(* ================================================================== *)
(** ** A SQLite database file and the connections opened on it *)
(* ================================================================== *)

(** The exceptions the modelled calls raise: the two
    [sqlite3.OperationalError]s of a statement that cannot take the write
    lock and of a statement with more [?] parameters than SQLite accepts,
    and the [OverflowError] of an integer parameter outside SQLite's 64-bit
    range. *)
Inductive Exn : Type :=
| OperationalError_locked
| OperationalError_too_many_variables
| OverflowError.

(** [str(e)] *)
Definition exn_text (e : Exn) : string :=
  match e with
  | OperationalError_locked => "database is locked"
  | OperationalError_too_many_variables => "too many SQL variables"
  | OverflowError => "Python int too large to convert to SQLite INTEGER"
  end.

Inductive Result (A : Type) : Type :=
| Ok (a : A)
| Raise (e : Exn).
Arguments Ok {A} a.
Arguments Raise {A} e.

(** What the processes that share one database file see and change.

    - [committed] is the content of the file.
    - [writer] is the connection of this process that has an open write
      transaction, with the content as that connection sees it.  Python's
      sqlite3 module opens a transaction before the first INSERT, UPDATE,
      DELETE or REPLACE of a connection and keeps it open until [commit]
      (or until the connection is closed, which rolls it back); SQLite
      grants the write lock to one connection at a time.
    - [busy] tells, for the coming attempts of this process to take the
      write lock, which ones find it held by another process ([true]): the
      transient contention of section 4.3.  An attempt is one [execute]
      call, the wait of the connection's default timeout included; past
      the end of the list the lock is free.
    - [db_file] tells whether the file exists; [clock] is the current
      time; [process] is what psutil reports about the current process
      ([None] when the lookup fails). *)
Record World (D : Type) : Type := mkWorld {
  committed : D;
  writer : option (nat * D);
  next_conn : nat;
  busy : list bool;
  db_file : bool;
  clock : nat;
  process : option (string * string * nat)
}.
Arguments mkWorld {D}.
Arguments committed {D}.
Arguments writer {D}.
Arguments next_conn {D}.
Arguments busy {D}.
Arguments db_file {D}.
Arguments clock {D}.
Arguments process {D}.

(** Code that runs against a database: it returns or raises, and changes
    the world. *)
Definition M (D A : Type) : Type := World D -> Result A * World D.

Definition ret {D A} (a : A) : M D A := fun w => (Ok a, w).

Definition raise {D A} (e : Exn) : M D A := fun w => (Raise e, w).

Definition bind {D A B} (m : M D A) (k : A -> M D B) : M D B :=
  fun w =>
    match m w with
    | (Ok a, w') => k a w'
    | (Raise e, w') => (Raise e, w')
    end.

Notation "x <- m ;; k" := (bind m (fun x => k))
  (at level 61, m at next level, right associativity).
Notation "m ;;; k" := (bind m (fun _ => k))
  (at level 61, right associativity).

(** [try: body except Exception as e: handler(e)] *)
Definition try_except {D A} (body : M D A) (handler : Exn -> M D A) : M D A :=
  fun w =>
    match body w with
    | (Ok a, w') => (Ok a, w')
    | (Raise e, w') => handler e w'
    end.

(** [try: body finally: fin] *)
Definition try_finally {D A} (body : M D A) (fin : M D unit) : M D A :=
  fun w =>
    match body w with
    | (Ok a, w') =>
        match fin w' with
        | (Ok _, w'') => (Ok a, w'')
        | (Raise e, w'') => (Raise e, w'')
        end
    | (Raise e, w') =>
        match fin w' with
        | (Ok _, w'') => (Raise e, w'')
        | (Raise e', w'') => (Raise e', w'')
        end
    end.

(** [sqlite3.connect(path)]: a new connection; the file exists afterwards. *)
Definition connect {D} : M D nat :=
  fun w =>
    (Ok (next_conn w),
     mkWorld (committed w) (writer w) (S (next_conn w)) (busy w) true
             (clock w) (process w)).

(** The content of the database as connection [c] sees it. *)
Definition view {D} (c : nat) (w : World D) : D :=
  match writer w with
  | Some (c', d) => if Nat.eqb c' c then d else committed w
  | None => committed w
  end.

(** [cursor.execute] of a SELECT on connection [c].  A read sees what is
    committed, and the connection's own writes when it has a transaction
    open; the write lock of another connection does not hold it up. *)
Definition query {D A} (c : nat) (q : D -> A) : M D A :=
  fun w => (Ok (q (view c w)), w).

(** [cursor.execute] of a statement that writes, on connection [c].  The
    statement [stmt] maps the content the connection sees to a result (the
    [lastrowid]) and the new content.  A connection that has the write lock
    keeps writing; one that has not must take it, and the call raises when
    another connection of this process or another process holds it. *)
Definition execute {D A} (c : nat) (stmt : D -> A * D) : M D A :=
  fun w =>
    match writer w with
    | Some (c', d) =>
        if Nat.eqb c' c then
          let (a, d') := stmt d in
          (Ok a, mkWorld (committed w) (Some (c, d')) (next_conn w) (busy w)
                         (db_file w) (clock w) (process w))
        else (Raise OperationalError_locked, w)
    | None =>
        match busy w with
        | true :: rest =>
            (Raise OperationalError_locked,
             mkWorld (committed w) None (next_conn w) rest
                     (db_file w) (clock w) (process w))
        | _ =>
            let (a, d') := stmt (committed w) in
            (Ok a, mkWorld (committed w) (Some (c, d')) (next_conn w)
                           (tl (busy w)) (db_file w) (clock w) (process w))
        end
    end.

(** [conn.commit()] *)
Definition commit {D} (c : nat) : M D unit :=
  fun w =>
    match writer w with
    | Some (c', d) =>
        if Nat.eqb c' c then
          (Ok tt, mkWorld d None (next_conn w) (busy w)
                          (db_file w) (clock w) (process w))
        else (Ok tt, w)
    | None => (Ok tt, w)
    end.

(** [conn.close()]: an open transaction is rolled back. *)
Definition close {D} (c : nat) : M D unit :=
  fun w =>
    match writer w with
    | Some (c', d) =>
        if Nat.eqb c' c then
          (Ok tt, mkWorld (committed w) None (next_conn w) (busy w)
                          (db_file w) (clock w) (process w))
        else (Ok tt, w)
    | None => (Ok tt, w)
    end.

(** A function body whose local variable [conn] holds a connection.  When
    an exception leaves the body the variable goes away with the frame,
    and the connection, which nothing else refers to, is closed. *)
Definition with_conn {D A} (body : nat -> M D A) : M D A :=
  c <- connect ;;
  try_except (body c) (fun e => close c ;;; raise e).

(** [datetime.now()] and [CURRENT_TIMESTAMP] *)
Definition now {D} : M D nat := fun w => (Ok (clock w), w).

(** The psutil lookup of the current process, with the fallback of its
    [except] branch. *)
Definition current_process_info {D} : M D (string * string * nat) :=
  fun w =>
    (Ok match process w with
        | Some p => p
        | None => ("Unknown", "Unknown", 0)
        end, w).

(** The row id an AUTOINCREMENT table gives to a new row: one more than
    the largest id the table holds or has ever given. *)
Definition next_rowid (seq : nat) (ids : list nat) : nat :=
  S (Nat.max seq (list_max ids)).

(* ================================================================== *)
(** ** monitor_data.db: the tables of [MonitorService.init_database] *)
(* ================================================================== *)

(** A value of a signal's payload dictionary. *)
Inductive JVal : Type :=
| JStr (s : string)
| JNum (n : nat).

Definition JObj : Type := list (string * JVal).

(** A row of [file_activities]. *)
Record Activity : Type := mkActivity {
  act_id : nat;
  act_timestamp : nat;
  act_username : string;
  act_process_name : string;
  act_process_id : nat;
  act_action : string;
  act_file_path : string;
  act_file_size : nat;
  act_risk_level : RiskLevel;
  act_status : string;
  act_created_at : nat
}.

(** A row of [alerts]. *)
Record Alert : Type := mkAlert {
  al_id : nat;
  al_timestamp : nat;
  al_username : string;
  al_description : string;
  al_file_path : string;
  al_risk_level : RiskLevel;
  al_status : string;
  al_created_at : nat
}.

(** A row of [live_signals].  The [data] column holds the JSON text of the
    payload; it is kept here as the payload itself. *)
Record Signal : Type := mkSignal {
  sig_id : nat;
  sig_type : string;
  sig_data : option JObj;
  sig_timestamp : nat;
  sig_processed : bool
}.

(** A row of [service_status]. *)
Record StatusRow : Type := mkStatusRow {
  ss_id : nat;
  ss_status : string;
  ss_last_update : nat;
  ss_monitored_paths : list string;
  ss_total_activities : nat;
  ss_alerts_count : nat
}.

(** The content of monitor_data.db.  The [seq_] fields are the largest row
    id each AUTOINCREMENT table has given so far. *)
Record DB : Type := mkDB {
  file_activities : list Activity;
  alerts : list Alert;
  live_signals : list Signal;
  service_status : list StatusRow;
  seq_file_activities : nat;
  seq_alerts : nat;
  seq_live_signals : nat
}.

(** The database right after [init_database] created its tables. *)
Definition empty_db : DB := mkDB [] [] [] [] 0 0 0.

(** [SELECT COUNT( * ) FROM alerts WHERE status = 'New'] *)
Definition count_new_alerts (d : DB) : nat :=
  length (filter (fun a => String.eqb (al_status a) "New") (alerts d)).

(** [INSERT INTO file_activities (timestamp, username, process_name,
    process_id, action, file_path, file_size, risk_level) VALUES ...];
    [status] and [created_at] take their defaults.  The result is
    [cursor.lastrowid]. *)
Definition insert_activity (ts : nat) (user pname : string) (pid : nat)
    (action path : string) (size : nat) (risk : RiskLevel) (created : nat)
    (d : DB) : nat * DB :=
  let i := next_rowid (seq_file_activities d) (map act_id (file_activities d)) in
  (i, mkDB (file_activities d ++
              [mkActivity i ts user pname pid action path size risk "New" created])
           (alerts d) (live_signals d) (service_status d)
           i (seq_alerts d) (seq_live_signals d)).

(** [INSERT INTO alerts (timestamp, username, description, file_path,
    risk_level) VALUES ...]; [status] takes its default ['New']. *)
Definition insert_alert (ts : nat) (user description path : string)
    (risk : RiskLevel) (created : nat) (d : DB) : nat * DB :=
  let i := next_rowid (seq_alerts d) (map al_id (alerts d)) in
  (i, mkDB (file_activities d)
           (alerts d ++ [mkAlert i ts user description path risk "New" created])
           (live_signals d) (service_status d)
           (seq_file_activities d) i (seq_live_signals d)).

(** [INSERT INTO live_signals (signal_type, data) VALUES (?, ?)];
    [timestamp] and [processed] take their defaults. *)
Definition insert_signal (ty : string) (data : option JObj) (ts : nat)
    (d : DB) : nat * DB :=
  let i := next_rowid (seq_live_signals d) (map sig_id (live_signals d)) in
  (i, mkDB (file_activities d) (alerts d)
           (live_signals d ++ [mkSignal i ty data ts false])
           (service_status d)
           (seq_file_activities d) (seq_alerts d) i).

(** [INSERT OR REPLACE INTO service_status (id, ...) VALUES (1, ?, ?, ?,
    (SELECT COUNT( * ) FROM file_activities),
    (SELECT COUNT( * ) FROM alerts WHERE status = 'New'))]: a row with the
    same primary key is removed before the new one is put in. *)
Definition replace_status (status : string) (ts : nat) (paths : list string)
    (d : DB) : unit * DB :=
  (tt, mkDB (file_activities d) (alerts d) (live_signals d)
            (filter (fun r => negb (Nat.eqb (ss_id r) 1)) (service_status d)
             ++ [mkStatusRow 1 status ts paths
                   (length (file_activities d)) (count_new_alerts d)])
            (seq_file_activities d) (seq_alerts d) (seq_live_signals d)).

(** [UPDATE alerts SET status = ? WHERE id = ?]; a NULL id matches no row. *)
Definition set_alert_status (new_status : string) (alert_id : option nat)
    (a : Alert) : Alert :=
  match alert_id with
  | Some i =>
      if Nat.eqb (al_id a) i
      then mkAlert (al_id a) (al_timestamp a) (al_username a)
                   (al_description a) (al_file_path a) (al_risk_level a)
                   new_status (al_created_at a)
      else a
  | None => a
  end.

Definition update_alert_status (new_status : string) (alert_id : option nat)
    (d : DB) : unit * DB :=
  (tt, mkDB (file_activities d)
            (map (set_alert_status new_status alert_id) (alerts d))
            (live_signals d) (service_status d)
            (seq_file_activities d) (seq_alerts d) (seq_live_signals d)).

(** Insertion of a signal into a list that is sorted by timestamp, after
    the rows that are not later than it. *)
Fixpoint insert_by_timestamp (s : Signal) (l : list Signal) : list Signal :=
  match l with
  | [] => [s]
  | x :: t =>
      if Nat.leb (sig_timestamp x) (sig_timestamp s)
      then x :: insert_by_timestamp s t
      else s :: x :: t
  end.

(** [ORDER BY timestamp ASC]; rows of one timestamp stay in table order. *)
Definition order_by_timestamp (l : list Signal) : list Signal :=
  fold_left (fun acc s => insert_by_timestamp s acc) l [].

(** [SELECT * FROM live_signals WHERE processed = FALSE
    ORDER BY timestamp ASC] *)
Definition select_unprocessed (d : DB) : list Signal :=
  order_by_timestamp (filter (fun s => negb (sig_processed s)) (live_signals d)).

Definition mark_processed (ids : list nat) (s : Signal) : Signal :=
  if existsb (Nat.eqb (sig_id s)) ids
  then mkSignal (sig_id s) (sig_type s) (sig_data s) (sig_timestamp s) true
  else s.

(** [UPDATE live_signals SET processed = TRUE WHERE id IN (...)] *)
Definition update_processed (ids : list nat) (d : DB) : unit * DB :=
  (tt, mkDB (file_activities d) (alerts d)
            (map (mark_processed ids) (live_signals d))
            (service_status d)
            (seq_file_activities d) (seq_alerts d) (seq_live_signals d)).

(* ================================================================== *)
(** ** monitor_service.py: class MonitorService *)
(* ================================================================== *)

Module MonitorService.

(** [update_service_status(self, status)] *)
Definition update_service_status (self : Service) (status : string)
    : M DB unit :=
  with_conn (fun conn =>
    ts <- now ;;
    execute conn (replace_status status ts (watch_paths (config self))) ;;;
    commit conn ;;;
    close conn).

(** [json.dumps(data) if data else None]: an absent or empty payload is
    stored as NULL. *)
Definition dumps_if (data : option JObj) : option JObj :=
  match data with
  | Some (kv :: rest) => Some (kv :: rest)
  | _ => None
  end.

(** [send_signal(self, signal_type, data=None)] *)
Definition send_signal (self : Service) (signal_type : string)
    (data : option JObj) : M DB unit :=
  with_conn (fun conn =>
    ts <- now ;;
    execute conn (insert_signal signal_type (dumps_if data) ts) ;;;
    commit conn ;;;
    close conn).

(** [assess_risk_level(self, file_path, action)] *)
Definition assess_risk_level (self : Service) (file_path action : string)
    : RiskLevel :=
  let file_path_lower := lower file_path in
  let rs := risk_settings (config self) in
  if mem action (high_risk_actions rs) then High
  else if any_in (high_risk_extensions rs) file_path_lower then High
  else if any_in (sensitive_paths rs) file_path_lower then High
  else if contains "documents" file_path_lower
          || contains "desktop" file_path_lower then Medium
  else Low.

(** [should_ignore_file(self, file_path)] *)
Definition should_ignore_file (self : Service) (file_path : string) : bool :=
  let file_path_lower := lower file_path in
  if any_in (excluded_extensions (config self)) file_path_lower then true
  else if any_in (excluded_paths (config self)) file_path_lower then true
  else if contains (db_path self) file_path then true
  else false.

(** The description of the alert that [log_activity] creates. *)
Definition alert_description (action : string) : string :=
  "High-risk " ++ lower action ++ " operation detected".

(** What [log_activity] does once it has opened [conn]: from the INSERT
    of the activity row to the signal of the activity. *)
Definition log_activity_on (self : Service) (action file_path : string)
    (file_size : nat) (username process_name : string) (process_id : nat)
    (timestamp : nat) (risk_level : RiskLevel) (conn : nat) : M DB unit :=
  created <- now ;;
  activity_id <-
    execute conn (insert_activity timestamp username process_name process_id
                    action file_path file_size risk_level created) ;;
  (if RiskLevel_eqb risk_level High then
     let description := alert_description action in
     execute conn (insert_alert timestamp username description file_path
                     High created) ;;;
     send_signal self "new_alert"
       (Some [("description", JStr description);
              ("file_path", JStr file_path);
              ("risk_level", JStr "High");
              ("timestamp", JNum timestamp)])
   else ret tt) ;;;
  commit conn ;;;
  close conn ;;;
  send_signal self "new_activity"
    (Some [("id", JNum activity_id);
           ("action", JStr action);
           ("file_path", JStr (basename file_path));
           ("risk_level", JStr (risk_text risk_level));
           ("timestamp", JNum timestamp)]).

(** [log_activity(self, action, file_path, file_size=0)] *)
Definition log_activity (self : Service) (action file_path : string)
    (file_size : nat) : M DB unit :=
  info <- current_process_info ;;
  let '(username, process_name, process_id) := info in
  timestamp <- now ;;
  let risk_level := assess_risk_level self file_path action in
  with_conn
    (log_activity_on self action file_path file_size username process_name
       process_id timestamp risk_level).

End MonitorService.

(* ================================================================== *)
(** ** file_monitor.py: class FileActivityMonitor *)
(* ================================================================== *)

Module FileActivityMonitor.

(** A row of [file_activities] of file_activity.db; [ip_address] is never
    given a value and [status] takes its default ['Detected']. *)
Record Activity : Type := mkActivity {
  act_id : nat;
  act_timestamp : nat;
  act_username : string;
  act_process_name : string;
  act_process_id : nat;
  act_action : string;
  act_file_path : string;
  act_file_size : nat;
  act_ip_address : option string;
  act_status : string;
  act_risk_level : RiskLevel
}.

(** A row of [alerts] of file_activity.db. *)
Record Alert : Type := mkAlert {
  al_id : nat;
  al_timestamp : nat;
  al_username : string;
  al_description : string;
  al_file_path : string;
  al_risk_level : RiskLevel;
  al_status : string
}.

(** The content of file_activity.db. *)
Record DB : Type := mkDB {
  file_activities : list Activity;
  alerts : list Alert;
  seq_file_activities : nat;
  seq_alerts : nat
}.

Definition empty_db : DB := mkDB [] [] 0 0.

Definition insert_activity (ts : nat) (user pname : string) (pid : nat)
    (action path : string) (size : nat) (risk : RiskLevel) (d : DB)
    : unit * DB :=
  let i := next_rowid (seq_file_activities d) (map act_id (file_activities d)) in
  (tt, mkDB (file_activities d ++
               [mkActivity i ts user pname pid action path size None
                           "Detected" risk])
            (alerts d) i (seq_alerts d)).

Definition insert_alert (ts : nat) (user description path : string)
    (risk : RiskLevel) (d : DB) : unit * DB :=
  let i := next_rowid (seq_alerts d) (map al_id (alerts d)) in
  (tt, mkDB (file_activities d)
            (alerts d ++ [mkAlert i ts user description path risk "New"])
            (seq_file_activities d) i).

(** [get_process_info(self)] *)
Definition get_process_info : M DB (string * string * nat) :=
  current_process_info.

(** [assess_risk_level(self, file_path, action)] *)
Definition assess_risk_level (file_path action : string) : RiskLevel :=
  let high_risk_paths :=
    ["system32"; "windows"; "program files"; "programdata";
     "users\all users"; "boot"; "config"] in
  let sensitive_extensions :=
    [".exe"; ".dll"; ".sys"; ".bat"; ".cmd"; ".ps1"; ".reg"] in
  let file_path_lower := lower file_path in
  if any_in high_risk_paths file_path_lower then High
  else if any_in sensitive_extensions file_path_lower then High
  else if mem action ["DELETE"; "MOVE"] then High
  else if contains "documents" file_path_lower
          || contains "desktop" file_path_lower then Medium
  else Low.

(** [should_ignore_file(self, file_path)] *)
Definition should_ignore_file (file_path : string) : bool :=
  let ignore_patterns :=
    ["file_activity.db"; "file_activity.db-journal"; "file_activity.db-wal";
     ".tmp"; ".log"; "__pycache__"; ".pyc"] in
  let file_path_lower := lower file_path in
  any_in ignore_patterns file_path_lower.

(** The description of the alert that [log_activity] creates. *)
Definition alert_description (action file_path : string) : string :=
  "High-risk " ++ lower action ++ " operation detected on "
  ++ basename file_path.

(** [log_activity(self, action, file_path, file_size=0)] *)
Definition log_activity (action file_path : string) (file_size : nat)
    : M DB unit :=
  if should_ignore_file file_path then ret tt
  else
    info <- get_process_info ;;
    let '(username, process_name, process_id) := info in
    timestamp <- now ;;
    let risk_level := assess_risk_level file_path action in
    with_conn (fun conn =>
      execute conn (insert_activity timestamp username process_name process_id
                      action file_path file_size risk_level) ;;;
      (if RiskLevel_eqb risk_level High then
         let description := alert_description action file_path in
         execute conn (insert_alert timestamp username description file_path
                         High)
       else ret tt) ;;;
      commit conn ;;;
      close conn).

(** A watchdog event, with the outcome of [os.path.getsize(src_path)]
    ([None] when the call raises). *)
Record Event : Type := mkEvent {
  is_directory : bool;
  src_path : string;
  dest_path : string;
  getsize : option nat
}.

(** The two methods the event callbacks reach through [self].
    [MonitorService.start_monitoring] replaces both on the handler object
    by its own. *)
Record Methods (D : Type) : Type := mkMethods {
  self_should_ignore_file : string -> bool;
  self_log_activity : string -> string -> nat -> M D unit
}.
Arguments self_should_ignore_file {D}.
Arguments self_log_activity {D}.

(** The methods of the class itself. *)
Definition own_methods : Methods DB :=
  mkMethods DB should_ignore_file log_activity.

Definition file_size_of (event : Event) : nat :=
  match getsize event with Some n => n | None => 0 end.

(** [on_created(self, event)] *)
Definition on_created {D} (self : Methods D) (event : Event) : M D unit :=
  if negb (is_directory event)
     && negb (self_should_ignore_file self (src_path event))
  then self_log_activity self "CREATE" (src_path event) (file_size_of event)
  else ret tt.

(** [on_modified(self, event)] *)
Definition on_modified {D} (self : Methods D) (event : Event) : M D unit :=
  if negb (is_directory event)
     && negb (self_should_ignore_file self (src_path event))
  then self_log_activity self "MODIFY" (src_path event) (file_size_of event)
  else ret tt.

(** [on_deleted(self, event)] *)
Definition on_deleted {D} (self : Methods D) (event : Event) : M D unit :=
  if negb (is_directory event)
     && negb (self_should_ignore_file self (src_path event))
  then self_log_activity self "DELETE" (src_path event) 0
  else ret tt.

(** [on_moved(self, event)] *)
Definition on_moved {D} (self : Methods D) (event : Event) : M D unit :=
  if negb (is_directory event)
     && negb (self_should_ignore_file self (src_path event))
  then self_log_activity self "MOVE"
         (src_path event ++ " -> " ++ dest_path event) 0
  else ret tt.

(** The kind of change watchdog reports, and the callback it selects. *)
Inductive EventKind : Type := Created | Modified | Deleted | Moved.

Definition dispatch {D} (self : Methods D) (k : EventKind) (event : Event)
    : M D unit :=
  match k with
  | Created => on_created self event
  | Modified => on_modified self event
  | Deleted => on_deleted self event
  | Moved => on_moved self event
  end.

End FileActivityMonitor.

(** The handler object after [MonitorService.start_monitoring] has put the
    service's own [log_activity] and [should_ignore_file] on it. *)
Definition service_methods (self : Service) : FileActivityMonitor.Methods DB :=
  FileActivityMonitor.mkMethods DB
    (MonitorService.should_ignore_file self)
    (MonitorService.log_activity self).

(** The policy that [FileActivityMonitor.assess_risk_level] has built in. *)
Definition builtin_policy : Config := {|
  watch_paths := [];
  excluded_extensions := [];
  excluded_paths := [];
  risk_settings := {|
    high_risk_extensions :=
      [".exe"; ".dll"; ".sys"; ".bat"; ".cmd"; ".ps1"; ".reg"];
    high_risk_actions := ["DELETE"; "MOVE"];
    sensitive_paths :=
      ["system32"; "windows"; "program files"; "programdata";
       "users\all users"; "boot"; "config"] |};
  sync_interval := 0;
  max_buffer_size := 0
|}.

(* ================================================================== *)
(** ** web_interface.py: the dashboard's reads and the alert actions *)
(* ================================================================== *)

Module WebInterface.

(** One element of the list [get_live_signals] returns. *)
Record SignalDict : Type := mkSignalDict {
  sd_id : nat;
  sd_signal_type : string;
  sd_data : option JObj;
  sd_timestamp : nat
}.

Definition signal_dict (row : Signal) : SignalDict :=
  mkSignalDict (sig_id row) (sig_type row) (sig_data row) (sig_timestamp row).

(** [get_db_connection(self)]: [None] when the file does not exist. *)
Definition get_db_connection : M DB (option nat) :=
  fun w =>
    if db_file w then
      match connect w with
      | (Ok c, w') => (Ok (Some c), w')
      | (Raise e, w') => (Raise e, w')
      end
    else (Ok None, w).

(** [cursor.execute] of a statement whose text has one [?] for each
    element of [params].  SQLite compiles a statement with at most
    [max_variables] parameters (its SQLITE_MAX_VARIABLE_NUMBER: 999, 32766
    or 250000 in the builds in use); with more, the call raises before
    the statement takes any lock. *)
Definition execute_with {A} (max_variables : nat) (conn : nat)
    (params : list nat) (stmt : DB -> A * DB) : M DB A :=
  if Nat.leb (length params) max_variables then execute conn stmt
  else raise OperationalError_too_many_variables.

(** [get_live_signals(self)], in a process whose SQLite library accepts
    [max_variables] parameters in a statement. *)
Definition get_live_signals (max_variables : nat) : M DB (list SignalDict) :=
  oc <- get_db_connection ;;
  match oc with
  | None => ret []
  | Some conn =>
      try_finally
        (try_except
           (rows <- query conn select_unprocessed ;;
            let signals := map signal_dict rows in
            let signal_ids := map sig_id rows in
            (match signal_ids with
             | [] => ret tt
             | _ :: _ =>
                 execute_with max_variables conn signal_ids
                   (update_processed signal_ids) ;;;
                 commit conn
             end) ;;;
            ret signals)
           (fun e => ret []))
        (close conn)
  end.

(** The JSON body of a POST to /api/alert-action as the endpoint reads it:
    [data.get('alert_id')] and [data.get('action')].  The id is an integer
    that SQLite can store, below 2^63, as the ids of the alerts are. *)
Record ActionRequest : Type := mkActionRequest {
  req_alert_id : option nat;
  req_action : option string
}.

(** The JSON object the endpoint answers with. *)
Record ActionResponse : Type := mkActionResponse {
  resp_success : bool;
  resp_message : string;
  resp_new_status : option string
}.

(** [status_map.get(action, 'New')] *)
Definition status_map_get (action : option string) : string :=
  match action with
  | Some a =>
      if String.eqb a "acknowledge" then "Acknowledged"
      else if String.eqb a "resolve" then "Resolved"
      else if String.eqb a "dismiss" then "Dismissed"
      else if String.eqb a "investigate" then "Under Investigation"
      else "New"
  | None => "New"
  end.

(** [f'{action}'] *)
Definition format_action (action : option string) : string :=
  match action with Some a => a | None => "None" end.

(** [api_alert_action()] *)
Definition api_alert_action (data : ActionRequest) : M DB ActionResponse :=
  let alert_id := req_alert_id data in
  let action := req_action data in
  oc <- get_db_connection ;;
  match oc with
  | None => ret (mkActionResponse false "Monitor service not available" None)
  | Some conn =>
      try_finally
        (try_except
           (let new_status := status_map_get action in
            execute conn (update_alert_status new_status alert_id) ;;;
            commit conn ;;;
            ret (mkActionResponse true
                   ("Alert " ++ format_action action ++ "d successfully")
                   (Some new_status)))
           (fun e => ret (mkActionResponse false (exn_text e) None)))
        (close conn)
  end.

End WebInterface.

(* ================================================================== *)
(** ** app.py: the alert endpoints of the older dashboard *)
(* ================================================================== *)

Module App.

Import FileActivityMonitor.

(** The JSON object an endpoint answers with. *)
Record Response : Type := mkResponse {
  success : bool;
  error : option string
}.

(** [UPDATE alerts SET status = ? WHERE id = ?] *)
Definition update_status (new_status : string) (alert_id : nat) (d : DB)
    : unit * DB :=
  (tt, mkDB (file_activities d)
            (map (fun a =>
                    if Nat.eqb (al_id a) alert_id
                    then mkAlert (al_id a) (al_timestamp a) (al_username a)
                                 (al_description a) (al_file_path a)
                                 (al_risk_level a) new_status
                    else a) (alerts d))
            (seq_file_activities d) (seq_alerts d)).

(** [DELETE FROM alerts WHERE id = ?] *)
Definition delete_alert (alert_id : nat) (d : DB) : unit * DB :=
  (tt, mkDB (file_activities d)
            (filter (fun a => negb (Nat.eqb (al_id a) alert_id)) (alerts d))
            (seq_file_activities d) (seq_alerts d)).

(** The body the three endpoints share: one statement in a transaction,
    any exception turned into a failure answer. *)
Definition run_statement (stmt : DB -> unit * DB) : M DB Response :=
  try_except
    (with_conn (fun conn =>
       execute conn stmt ;;;
       commit conn ;;;
       close conn ;;;
       ret (mkResponse true None)))
    (fun e => ret (mkResponse false (Some (exn_text e)))).

(** [acknowledge_alert(alert_id)] *)
Definition acknowledge_alert (alert_id : nat) : M DB Response :=
  run_statement (update_status "Acknowledged" alert_id).

(** [resolve_alert(alert_id)] *)
Definition resolve_alert (alert_id : nat) : M DB Response :=
  run_statement (update_status "Resolved" alert_id).

(** [dismiss_alert(alert_id)] *)
Definition dismiss_alert (alert_id : nat) : M DB Response :=
  run_statement (delete_alert alert_id).

End App.

(* ================================================================== *)
(** ** Runs: the operations of both processes on monitor_data.db *)
(* ================================================================== *)

(** One step of the system around monitor_data.db: a call of the monitoring
    process, a request served by the dashboard (the read of the queue with
    the parameter limit of the dashboard's SQLite library), or a change of
    what lies outside both (time, other processes taking the lock,
    psutil). *)
Inductive Op : Type :=
| OpUpdateStatus (status : string)
| OpSendSignal (signal_type : string) (data : option JObj)
| OpLogActivity (action file_path : string) (file_size : nat)
| OpEvent (k : FileActivityMonitor.EventKind) (e : FileActivityMonitor.Event)
| OpGetLiveSignals (max_variables : nat)
| OpAlertAction (req : WebInterface.ActionRequest)
| OpClock (t : nat)
| OpContention (b : list bool)
| OpProcess (p : option (string * string * nat)).

(** The world after one step.  An exception that leaves a call ends that
    call; the world is as the call left it. *)
Definition step (self : Service) (op : Op) (w : World DB) : World DB :=
  match op with
  | OpUpdateStatus status =>
      snd (MonitorService.update_service_status self status w)
  | OpSendSignal ty data => snd (MonitorService.send_signal self ty data w)
  | OpLogActivity a p n => snd (MonitorService.log_activity self a p n w)
  | OpEvent k e =>
      snd (FileActivityMonitor.dispatch (service_methods self) k e w)
  | OpGetLiveSignals n => snd (WebInterface.get_live_signals n w)
  | OpAlertAction req => snd (WebInterface.api_alert_action req w)
  | OpClock t =>
      mkWorld (committed w) (writer w) (next_conn w) (busy w) (db_file w)
              t (process w)
  | OpContention b =>
      mkWorld (committed w) (writer w) (next_conn w) b (db_file w)
              (clock w) (process w)
  | OpProcess p =>
      mkWorld (committed w) (writer w) (next_conn w) (busy w) (db_file w)
              (clock w) p
  end.

(** The signals a step hands to the dashboard: what [get_live_signals]
    returns, nothing for any other step. *)
Definition delivered (op : Op) (w : World DB)
    : list WebInterface.SignalDict :=
  match op with
  | OpGetLiveSignals n =>
      match fst (WebInterface.get_live_signals n w) with
      | Ok l => l
      | Raise _ => []
      end
  | _ => []
  end.

Fixpoint run (self : Service) (ops : list Op) (w : World DB) : World DB :=
  match ops with
  | [] => w
  | op :: rest => run self rest (step self op w)
  end.

(** Every signal handed out along a run, in order. *)
Fixpoint deliveries (self : Service) (ops : list Op) (w : World DB)
    : list WebInterface.SignalDict :=
  match ops with
  | [] => []
  | op :: rest => delivered op w ++ deliveries self rest (step self op w)
  end.

(** The world when [MonitorService.__init__] has created the tables of a
    new database file and nothing else has happened. *)
Definition init_world : World DB :=
  mkWorld empty_db None 0 [] true 0 None.

(** No connection of this process holds the write lock. *)
Definition quiet {D} (w : World D) : Prop := writer w = None.

(** Nobody holds or is about to take the write lock. *)
Definition idle {D} (w : World D) : Prop := writer w = None /\ busy w = [].

(* ================================================================== *)
(** ** The wording of the specification, for comparison with the code *)
(* ================================================================== *)

(** [sub] occurs in [s] as a contiguous run of characters. *)
Definition occurs (sub s : string) : Prop :=
  exists a b : string, s = a ++ sub ++ b.

Definition capital_letters : string := "ABCDEFGHIJKLMNOPQRSTUVWXYZ".
Definition small_letters : string := "abcdefghijklmnopqrstuvwxyz".

(** The letter of [smalls] at the place [c] has in [caps]; [c] itself when
    it is not there. *)
Fixpoint letter_of (caps smalls : string) (c : ascii) : ascii :=
  match caps, smalls with
  | String u caps', String l smalls' =>
      if Ascii.eqb c u then l else letter_of caps' smalls' c
  | _, _ => c
  end.

(** The string with a small letter in the place of every capital. *)
Fixpoint lowercase (s : string) : string :=
  match s with
  | EmptyString => EmptyString
  | String c t =>
      String (letter_of capital_letters small_letters c) (lowercase t)
  end.

(** Every character of the string is an ASCII character. *)
Definition ascii_only (s : string) : Prop :=
  forallb (fun c => Nat.ltb (nat_of_ascii c) 128) (list_ascii_of_string s)
  = true.

(** The lowercased path contains one of the entries, as it is written. *)
Definition matches_any (entries : list string) (path : string) : Prop :=
  exists entry : string, In entry entries /\ occurs entry (lowercase path).


(** The exclusion rule of section 4.1, a substring match with the case of
    both sides ignored: the path matches an excluded extension or an
    excluded path entry of the policy. *)
Definition excluded_nocase (P : Config) (path : string) : Prop :=
  exists entry : string,
    In entry (excluded_extensions P ++ excluded_paths P)%list
    /\ occurs (lowercase entry) (lowercase path).

(** The alert description of section 4.4:
    ["High-risk <action> operation detected on <path>"], with the action
    in lower case as the scenario of section 8 has it. *)
Definition spec_description (action path : string) : string :=
  "High-risk " ++ lower action ++ " operation detected on " ++ path.

(** Section 4.3 on a write that finds the lock taken: the writer tries
    again, up to [max_attempts] attempts in all, so that a write succeeds
    whenever the lock comes free before the attempts are used up. *)
Definition write_retried (max_attempts : nat) : Prop :=
  forall (self : Service) (ty : string) (data : option JObj) (w : World DB)
         (k : nat),
    quiet w -> busy w = repeat true k -> k < max_attempts ->
    fst (MonitorService.send_signal self ty data w) = Ok tt.

(** Section 4.4 and the status list of section 3: the status an alert
    action asks for. *)
Definition spec_status_of (action : string) : option string :=
  if String.eqb action "acknowledge" then Some "Acknowledged"
  else if String.eqb action "resolve" then Some "Resolved"
  else if String.eqb action "dismiss" then Some "Dismissed"
  else if String.eqb action "investigate" then Some "Under Investigation"
  else None.

(* ================================================================== *)
(** ** Notions the statements use *)
(* ================================================================== *)

(** What psutil, or the fallback, reports. *)
Definition process_or_unknown {D} (w : World D) : string * string * nat :=
  match process w with
  | Some p => p
  | None => ("Unknown", "Unknown", 0)
  end.

(** Every entry of the two exclusion lists is written in lower case, as
    the entries of the default configuration are. *)
Definition lowercase_exclusions (P : Config) : Prop :=
  Forall (fun e => lowercase e = e)
         (excluded_extensions P ++ excluded_paths P)%list.

(** The number of rows of [live_signals] that are not processed. *)
Definition unprocessed_count (d : DB) : nat :=
  length (filter (fun s => negb (sig_processed s)) (live_signals d)).

(** The dictionary [d] has the four columns of the row [s]. *)
Definition dict_of_row (s : Signal) (d : WebInterface.SignalDict) : Prop :=
  WebInterface.sd_id d = sig_id s
  /\ WebInterface.sd_signal_type d = sig_type s
  /\ WebInterface.sd_data d = sig_data s
  /\ WebInterface.sd_timestamp d = sig_timestamp s.

(** Ascending order of timestamp. *)
Definition ts_le (a b : Signal) : Prop := sig_timestamp a <= sig_timestamp b.

(** The row [s] with [processed] set. *)
Definition set_processed (s : Signal) : Signal :=
  mkSignal (sig_id s) (sig_type s) (sig_data s) (sig_timestamp s) true.

(** Two alert rows that agree on every column but [status]. *)
Definition same_but_status (a a' : Alert) : Prop :=
  al_id a' = al_id a /\ al_timestamp a' = al_timestamp a
  /\ al_username a' = al_username a /\ al_description a' = al_description a
  /\ al_file_path a' = al_file_path a /\ al_risk_level a' = al_risk_level a
  /\ al_created_at a' = al_created_at a.


(** One SQL statement of the code that writes, on the database [d]. *)
Inductive sql (d : DB) : DB -> Prop :=
| sql_insert_activity ts user pname pid action path size risk created :
    sql d (snd (insert_activity ts user pname pid action path size risk
                  created d))
| sql_insert_alert ts user description path risk created :
    sql d (snd (insert_alert ts user description path risk created d))
| sql_insert_signal ty data ts :
    sql d (snd (insert_signal ty data ts d))
| sql_replace_status status ts paths :
    sql d (snd (replace_status status ts paths d))
| sql_update_alert_status new_status alert_id :
    sql d (snd (update_alert_status new_status alert_id d))
| sql_update_processed ids :
    sql d (snd (update_processed ids d)).

(** The database [d'] comes from [d] by committed statements of the code. *)
Inductive evolves (d : DB) : DB -> Prop :=
| evolves_refl : evolves d d
| evolves_step d1 d2 : evolves d d1 -> sql d1 d2 -> evolves d d2.

(** The primary key of [live_signals] holds, and the table has the
    processed row [r]. *)
Definition keeps_processed (r : Signal) (d : DB) : Prop :=
  NoDup (map sig_id (live_signals d)) /\ In r (live_signals d).


(* ================================================================== *)
(** ** Queries that order and limit *)
(* ================================================================== *)

From Stdlib Require Import ZArith DecimalString.

(** Insertion of a row into a list that is in descending order of [key],
    after the rows that are not smaller than it. *)
Fixpoint insert_desc {A} (key : A -> nat) (x : A) (l : list A) : list A :=
  match l with
  | [] => [x]
  | y :: t =>
      if Nat.leb (key x) (key y)
      then y :: insert_desc key x t
      else x :: y :: t
  end.

(** [ORDER BY key DESC]; rows of one key stay in table order. *)
Definition order_by_desc {A} (key : A -> nat) (l : list A) : list A :=
  fold_left (fun acc x => insert_desc key x acc) l [].

(** [LIMIT n] for an integer of SQLite: a negative limit is no limit. *)
Definition sql_limit {A} (limit : Z) (l : list A) : list A :=
  if Z.ltb limit 0 then l else firstn (Z.to_nat limit) l.

(** The integers of SQLite: 64 bits with a sign. *)
Definition int64 (n : Z) : bool :=
  Z.leb (- 2 ^ 63) n && Z.ltb n (2 ^ 63).

(** A Python [int] given for a [?] of a statement: outside the integers of
    SQLite the call of [execute] raises before the statement runs. *)
Definition bind_int {D} (n : Z) : M D unit :=
  if int64 n then ret tt else raise OverflowError.

(* ================================================================== *)
(** ** monitor_service.py: loading the configuration *)
(* ================================================================== *)

Local Unset Elimination Schemes.

(** What [json.load] yields.  Numbers are the natural numbers the
    configuration uses. *)
Inductive Json : Type :=
| JsNull
| JsBool (b : bool)
| JsNumber (n : nat)
| JsString (s : string)
| JsArray (l : list Json)
| JsObject (items : list (string * Json)).

Local Set Elimination Schemes.

(** A Python dictionary with string keys: its items in insertion order. *)
Definition Dict : Type := list (string * Json).

(** [d.get(key)] *)
Fixpoint dict_get (key : string) (d : Dict) : option Json :=
  match d with
  | [] => None
  | (k, v) :: t => if String.eqb k key then Some v else dict_get key t
  end.

(** [key in d] *)
Definition dict_has (key : string) (d : Dict) : bool :=
  match dict_get key d with Some _ => true | None => false end.

Module ConfigLoader.

(** [default_config] of [load_config], as the dictionary it is. *)
Definition default_items : Dict :=
  [("watch_paths",
     JsArray [JsString "C:\Users\Chandan Deshmukh\Desktop";
              JsString "C:\Users\Chandan Deshmukh\Documents"]);
   ("excluded_extensions",
     JsArray [JsString ".tmp"; JsString ".log"; JsString ".pyc"]);
   ("excluded_paths",
     JsArray [JsString "__pycache__"; JsString "node_modules";
              JsString ".git"]);
   ("risk_settings",
     JsObject
       [("high_risk_extensions",
          JsArray [JsString ".exe"; JsString ".dll"; JsString ".sys";
                   JsString ".bat"; JsString ".cmd"; JsString ".ps1"]);
        ("high_risk_actions", JsArray [JsString "DELETE"; JsString "MOVE"]);
        ("sensitive_paths",
          JsArray [JsString "system32"; JsString "windows";
                   JsString "program files"])]);
   ("sync_interval", JsNumber 5);
   ("max_buffer_size", JsNumber 100)].

Definition default_json : Json := JsObject default_items.

(** [key not in config], for whatever [json.load] returned: a dictionary
    is asked for the key, a list for an element equal to it, a string for
    the substring; on anything else the test raises ([None]). *)
Definition key_missing (key : string) (config : Json) : option bool :=
  match config with
  | JsObject d => Some (negb (dict_has key d))
  | JsArray l =>
      Some (negb (existsb (fun x => match x with
                                    | JsString s => String.eqb s key
                                    | _ => false
                                    end) l))
  | JsString s => Some (negb (contains key s))
  | _ => None
  end.

(** [config[key] = value] for a key the test found missing: a dictionary
    takes the new item at its end; anything else raises ([None]). *)
Definition assign_missing (key : string) (value : Json) (config : Json)
    : option Json :=
  match config with
  | JsObject d => Some (JsObject (d ++ [(key, value)]))
  | _ => None
  end.

(** [for key, value in default_config.items():
       if key not in config: config[key] = value];
    [None] when a step raises. *)
Fixpoint merge_defaults (defaults : Dict) (config : Json) : option Json :=
  match defaults with
  | [] => Some config
  | (key, value) :: rest =>
      match key_missing key config with
      | None => None
      | Some true =>
          match assign_missing key value config with
          | None => None
          | Some config' => merge_defaults rest config'
          end
      | Some false => merge_defaults rest config
      end
  end.

(** The configuration file as the service finds it: not there (and the
    directory writable or not), there but not to be opened or parsed, or
    there with the value [json.load] returns. *)
Inductive ConfigFile : Type :=
| FileAbsent (writable : bool)
| FileUnreadable
| FileParsed (j : Json).

(** [load_config(self)]: the configuration, and the file afterwards.  What
    [json.dump] writes is read back by [json.load] as the same value. *)
Definition load_config (file : ConfigFile) : Json * ConfigFile :=
  match file with
  | FileParsed config =>
      match merge_defaults default_items config with
      | Some merged => (merged, file)
      | None => (default_json, file)
      end
  | FileAbsent true => (default_json, FileParsed default_json)
  | FileAbsent false => (default_json, file)
  | FileUnreadable => (default_json, file)
  end.

(** A list of strings, as the methods expect under the list keys. *)
Fixpoint strings_of (l : list Json) : option (list string) :=
  match l with
  | [] => Some []
  | JsString s :: t =>
      match strings_of t with
      | Some r => Some (s :: r)
      | None => None
      end
  | _ :: _ => None
  end.

Definition get_strings (key : string) (d : Dict) : option (list string) :=
  match dict_get key d with
  | Some (JsArray l) => strings_of l
  | _ => None
  end.

Definition get_number (key : string) (d : Dict) : option nat :=
  match dict_get key d with
  | Some (JsNumber n) => Some n
  | _ => None
  end.

(** A configuration dictionary of the shape of [default_config], read as
    the record of its values: the lists of strings under [watch_paths],
    [excluded_extensions], [excluded_paths] and the three keys of
    [risk_settings], and the number under [sync_interval].  It is [None]
    for a dictionary of any other shape; this says nothing on what the
    methods of the service do with such a dictionary. *)
Definition config_of_json (j : Json) : option Config :=
  match j with
  | JsObject d =>
      match get_strings "watch_paths" d, get_strings "excluded_extensions" d,
            get_strings "excluded_paths" d, dict_get "risk_settings" d,
            get_number "sync_interval" d with
      | Some wp, Some ee, Some ep, Some (JsObject rs), Some si =>
          match get_strings "high_risk_extensions" rs,
                get_strings "high_risk_actions" rs,
                get_strings "sensitive_paths" rs with
          | Some he, Some ha, Some sp =>
              Some (mkConfig wp ee ep (mkRiskSettings he ha sp) si
                      match get_number "max_buffer_size" d with
                      | Some n => n
                      | None => 0
                      end)
          | _, _, _ => None
          end
      | _, _, _, _, _ => None
      end
  | _ => None
  end.

End ConfigLoader.

(* ================================================================== *)
(** ** monitor_service.py: the status loop *)
(* ================================================================== *)

(** [time.sleep(seconds)] *)
Definition sleep {D} (seconds : nat) : M D unit :=
  fun w =>
    (Ok tt, mkWorld (committed w) (writer w) (next_conn w) (busy w)
                    (db_file w) (clock w + seconds) (process w)).

Module StatusLoop.

(** [status_update_loop(self)], for the [iterations] times the loop finds
    [self.running] set. *)
Fixpoint status_update_loop (self : Service) (iterations : nat)
    : M DB unit :=
  match iterations with
  | O => ret tt
  | S k =>
      try_except
        (MonitorService.update_service_status self "Running" ;;;
         sleep (sync_interval (config self)))
        (fun e => sleep 5) ;;;
      status_update_loop self k
  end.

End StatusLoop.

(* ================================================================== *)
(** ** web_interface.py: the other reads of the dashboard *)
(* ================================================================== *)

Module WebReads.

(** What [get_service_status] returns: the status row as a dictionary, or
    a status word with a message. *)
Inductive StatusAnswer : Type :=
| StatusInfo (status : string) (last_update : nat)
    (monitored_paths : list string) (total_activities alerts_count : nat)
| StatusMessage (status message : string).

(** [SELECT * FROM service_status WHERE id = 1] and [fetchone()] *)
Definition select_status (d : DB) : option StatusRow :=
  find (fun r => Nat.eqb (ss_id r) 1) (service_status d).

(** [get_service_status(self)] *)
Definition get_service_status : M DB StatusAnswer :=
  oc <- WebInterface.get_db_connection ;;
  match oc with
  | None => ret (StatusMessage "Disconnected" "Monitor service not running")
  | Some conn =>
      try_finally
        (try_except
           (row <- query conn select_status ;;
            match row with
            | Some r =>
                ret (StatusInfo (ss_status r) (ss_last_update r)
                       (ss_monitored_paths r) (ss_total_activities r)
                       (ss_alerts_count r))
            | None =>
                ret (StatusMessage "Unknown" "No status data available")
            end)
           (fun e => ret (StatusMessage "Error" (exn_text e))))
        (close conn)
  end.

(** [get_recent_activities(self, limit=50)]; each element of the result
    is the dictionary of the eleven columns of a row, kept here as the
    row. *)
Definition get_recent_activities (limit : Z) : M DB (list Activity) :=
  oc <- WebInterface.get_db_connection ;;
  match oc with
  | None => ret []
  | Some conn =>
      try_finally
        (try_except
           (bind_int limit ;;;
            query conn (fun d =>
              sql_limit limit
                (order_by_desc act_created_at (file_activities d))))
           (fun e => ret []))
        (close conn)
  end.

(** [if status_filter:] *)
Definition truthy_filter (status_filter : option string) : option string :=
  match status_filter with
  | Some EmptyString => None
  | other => other
  end.

(** [get_alerts(self, status_filter=None)]; each element of the result is
    the dictionary of the eight columns of a row, kept here as the row. *)
Definition get_alerts (status_filter : option string) : M DB (list Alert) :=
  oc <- WebInterface.get_db_connection ;;
  match oc with
  | None => ret []
  | Some conn =>
      try_finally
        (try_except
           (match truthy_filter status_filter with
            | Some s =>
                query conn (fun d =>
                  order_by_desc al_created_at
                    (filter (fun a => String.eqb (al_status a) s) (alerts d)))
            | None =>
                query conn (fun d => order_by_desc al_created_at (alerts d))
            end)
           (fun e => ret []))
        (close conn)
  end.

(** [api_activities()]: [request.args.get('limit', 50, type=int)] is the
    integer of the query string, or 50 without one that parses. *)
Definition api_activities (limit_arg : option Z) : M DB (list Activity) :=
  get_recent_activities
    match limit_arg with Some n => n | None => 50%Z end.

End WebReads.

(* ================================================================== *)
(** ** file_monitor.py: class FileMonitorService, the reads *)
(* ================================================================== *)

Module FileMonitorService.

(** [get_recent_activities(self, limit=50)].  Nothing in the method
    catches the exception of a limit SQLite cannot take. *)
Definition get_recent_activities (limit : Z)
    : M FileActivityMonitor.DB (list FileActivityMonitor.Activity) :=
  conn <- connect ;;
  bind_int limit ;;;
  activities <- query conn (fun d =>
    sql_limit limit
      (order_by_desc FileActivityMonitor.act_timestamp
         (FileActivityMonitor.file_activities d))) ;;
  close conn ;;;
  ret activities.

(** [get_recent_alerts(self, limit=20)] *)
Definition get_recent_alerts (limit : Z)
    : M FileActivityMonitor.DB (list FileActivityMonitor.Alert) :=
  conn <- connect ;;
  bind_int limit ;;;
  alerts <- query conn (fun d =>
    sql_limit limit
      (order_by_desc FileActivityMonitor.al_timestamp
         (FileActivityMonitor.alerts d))) ;;
  close conn ;;;
  ret alerts.

End FileMonitorService.

(* ================================================================== *)
(** ** app.py: users, pages and statistics of the older dashboard *)
(* ================================================================== *)

Module AppRoutes.

Import FileActivityMonitor.

(** An element of [SAMPLE_USERS]. *)
Record User : Type := mkUser {
  u_id : nat;
  u_username : string;
  u_password : string;
  u_role : string;
  u_name : string;
  u_email : string;
  u_institute : string
}.

Definition SAMPLE_USERS : list User :=
  [mkUser 1 "admin" "admin123" "Admin" "Administrator" "admin@company.com"
          "System";
   mkUser 2 "john.doe" "password" "Staff" "John Doe" "john.doe@company.com"
          "IT Department";
   mkUser 3 "jane.smith" "password" "Researcher" "Jane Smith"
          "jane.smith@company.com" "Research Lab"].

(** The four keys [login] and [signup] put in the session. *)
Record SessionData : Type := mkSessionData {
  s_username : string;
  s_role : string;
  s_name : string;
  s_email : string
}.

(** The session of one browser: [None] when ['username'] is not in it. *)
Definition Session : Type := option SessionData.

(** The user list of the process and the session of the browser. *)
Record AppState : Type := mkAppState {
  users : list User;
  session : Session
}.

(** What a page function returns. *)
Inductive Page : Type :=
| Redirect (endpoint : string)
| Render (template : string) (error : option string).

(** [login()] on a POST with the two form fields. *)
Definition login (username password : string) (st : AppState)
    : Page * AppState :=
  match find (fun u => String.eqb (u_username u) username
                       && String.eqb (u_password u) password) (users st) with
  | Some user =>
      (Redirect "dashboard",
       mkAppState (users st)
         (Some (mkSessionData username (u_role user) (u_name user)
                  (u_email user))))
  | None => (Render "login.html" (Some "Invalid credentials"), st)
  end.

(** [signup()] on a POST with the six form fields. *)
Definition signup (name institute email username password
                   confirm_password : string) (st : AppState)
    : Page * AppState :=
  if negb (String.eqb password confirm_password) then
    (Render "signup.html" (Some "Passwords do not match"), st)
  else if existsb (fun u => String.eqb (u_username u) username) (users st) then
    (Render "signup.html" (Some "Username already exists"), st)
  else if existsb (fun u => String.eqb (u_email u) email) (users st) then
    (Render "signup.html" (Some "Email already exists"), st)
  else
    let new_user :=
      mkUser (length (users st) + 1) username password "Student" name email
             institute in
    (Redirect "dashboard",
     mkAppState (users st ++ [new_user])
       (Some (mkSessionData username (u_role new_user) (u_name new_user)
                (u_email new_user)))).

(** [logout()] *)
Definition logout (st : AppState) : Page * AppState :=
  (Redirect "login", mkAppState (users st) None).

(** The pages that ask for a session: [alerts], [users], [settings],
    [reports]. *)
Definition protected_page (template : string) (st : AppState) : Page :=
  match session st with
  | None => Redirect "login"
  | Some _ => Render template None
  end.

(** [x or default] on a string. *)
Definition or_default (x default : string) : string :=
  match x with EmptyString => default | _ => x end.

(** An element of the list [get_real_activities] returns. *)
Record FormattedActivity : Type := mkFormattedActivity {
  fa_id : nat;
  fa_timestamp : nat;
  fa_username : string;
  fa_action : string;
  fa_file_path : string;
  fa_file_size : nat;
  fa_ip_address : string;
  fa_status : string;
  fa_risk_level : RiskLevel
}.

Definition format_activity (activity : Activity) : FormattedActivity :=
  mkFormattedActivity (act_id activity) (act_timestamp activity)
    (or_default (act_username activity) "Unknown")
    (act_action activity) (act_file_path activity) (act_file_size activity)
    (match act_ip_address activity with
     | Some ip => or_default ip "N/A"
     | None => "N/A"
     end)
    (or_default (act_status activity) "Detected")
    (act_risk_level activity).

(** [get_real_activities()] *)
Definition get_real_activities : M DB (list FormattedActivity) :=
  try_except
    (conn <- connect ;;
     activities <- query conn (fun d =>
       sql_limit 100 (order_by_desc act_timestamp (file_activities d))) ;;
     close conn ;;;
     ret (map format_activity activities))
    (fun e => ret []).

(** [str(n)] *)
Definition str_nat (n : nat) : string :=
  NilEmpty.string_of_uint (Nat.to_uint n).

(** An element of the list [get_real_alerts] returns. *)
Record FormattedAlert : Type := mkFormattedAlert {
  fl_id : nat;
  fl_timestamp : nat;
  fl_username : string;
  fl_title : string;
  fl_description : string;
  fl_file_path : string;
  fl_risk_level : RiskLevel;
  fl_status : string
}.

Definition format_alert (alert : Alert) : FormattedAlert :=
  mkFormattedAlert (al_id alert) (al_timestamp alert)
    (or_default (al_username alert) "Unknown")
    ("Security Alert #" ++ str_nat (al_id alert))
    (al_description alert) (al_file_path alert) (al_risk_level alert)
    (or_default (al_status alert) "New").

(** [get_real_alerts()] *)
Definition get_real_alerts : M DB (list FormattedAlert) :=
  try_except
    (conn <- connect ;;
     alerts <- query conn (fun d =>
       sql_limit 20 (order_by_desc al_timestamp (alerts d))) ;;
     close conn ;;;
     ret (map format_alert alerts))
    (fun e => ret []).

(** The dictionary [api_stats] returns. *)
Record Stats : Type := mkStats {
  total_activities : nat;
  authorized : nat;
  unauthorized : nat;
  high_risk_alerts : nat;
  new_alerts : nat
}.

(** [api_stats()] *)
Definition api_stats : M DB Stats :=
  real_activities <- get_real_activities ;;
  real_alerts <- get_real_alerts ;;
  ret (mkStats
         (length real_activities)
         (length (filter (fun a => String.eqb (fa_status a) "Detected")
                    real_activities))
         (length (filter (fun a => RiskLevel_eqb (fa_risk_level a) High)
                    real_activities))
         (length (filter (fun a => RiskLevel_eqb (fl_risk_level a) High)
                    real_alerts))
         (length (filter (fun a => String.eqb (fl_status a) "New")
                    real_alerts))).

(** What [investigate_alert] answers: 401, 404, the alert with the
    activities on its path, or 500 with the text of the exception. *)
Inductive Investigation : Type :=
| Unauthorized
| NotFound
| Found (alert : Alert) (related_activities : list Activity)
| ServerError (message : string).

(** [investigate_alert(alert_id)] *)
Definition investigate_alert (alert_id : nat) (s : Session)
    : M DB Investigation :=
  match s with
  | None => ret Unauthorized
  | Some _ =>
      try_except
        (conn <- connect ;;
         alert <- query conn (fun d =>
           find (fun a => Nat.eqb (al_id a) alert_id) (alerts d)) ;;
         match alert with
         | None => ret NotFound
         | Some a =>
             activities <- query conn (fun d =>
               sql_limit 10
                 (order_by_desc act_timestamp
                    (filter (fun x => String.eqb (act_file_path x)
                                        (al_file_path a))
                       (file_activities d)))) ;;
             close conn ;;;
             ret (Found a activities)
         end)
        (fun e => ret (ServerError (exn_text e)))
  end.

End AppRoutes.

(* ================================================================== *)
(** ** Runs on file_activity.db *)
(* ================================================================== *)

(** One step of the system around file_activity.db: an event the file
    monitor receives, a direct call of its [log_activity], an alert
    endpoint of app.py, or a change of what lies outside. *)
Inductive FileOp : Type :=
| FLogActivity (action file_path : string) (file_size : nat)
| FEvent (k : FileActivityMonitor.EventKind) (e : FileActivityMonitor.Event)
| FAcknowledge (alert_id : nat)
| FResolve (alert_id : nat)
| FDismiss (alert_id : nat)
| FClock (t : nat)
| FContention (b : list bool)
| FProcess (p : option (string * string * nat)).

Definition file_step (op : FileOp) (w : World FileActivityMonitor.DB)
    : World FileActivityMonitor.DB :=
  match op with
  | FLogActivity a p n => snd (FileActivityMonitor.log_activity a p n w)
  | FEvent k e =>
      snd (FileActivityMonitor.dispatch FileActivityMonitor.own_methods k e w)
  | FAcknowledge i => snd (App.acknowledge_alert i w)
  | FResolve i => snd (App.resolve_alert i w)
  | FDismiss i => snd (App.dismiss_alert i w)
  | FClock t =>
      mkWorld (committed w) (writer w) (next_conn w) (busy w) (db_file w)
              t (process w)
  | FContention b =>
      mkWorld (committed w) (writer w) (next_conn w) b (db_file w)
              (clock w) (process w)
  | FProcess p =>
      mkWorld (committed w) (writer w) (next_conn w) (busy w) (db_file w)
              (clock w) p
  end.

Fixpoint file_run (ops : list FileOp) (w : World FileActivityMonitor.DB)
    : World FileActivityMonitor.DB :=
  match ops with
  | [] => w
  | op :: rest => file_run rest (file_step op w)
  end.

(** file_activity.db when [FileActivityMonitor.__init__] has created its
    tables. *)
Definition file_init_world : World FileActivityMonitor.DB :=
  mkWorld FileActivityMonitor.empty_db None 0 [] true 0 None.

(* ================================================================== *)
(** ** Notions the further statements use *)
(* ================================================================== *)

(** The order Low, Medium, High of the risk levels. *)
Definition risk_le (a b : RiskLevel) : Prop :=
  match a, b with
  | Low, _ => True
  | Medium, Low => False
  | Medium, _ => True
  | High, High => True
  | High, _ => False
  end.

(** The status row a heartbeat writes at time [t] for a database with [n]
    activity rows and [c] new alerts. *)
Definition running_row (self : Service) (t n c : nat) : StatusRow :=
  mkStatusRow 1 "Running" t (watch_paths (config self)) n c.

(** One of the first [n] attempts to take the lock finds it free. *)
Definition free_within (n : nat) (b : list bool) : bool :=
  existsb negb (firstn n b) || Nat.ltb (length b) n.

(** The primary keys of monitor_data.db hold, and no row has an id above
    what its table has given out. *)
Definition keys_ok (d : DB) : Prop :=
  NoDup (map act_id (file_activities d))
  /\ NoDup (map al_id (alerts d))
  /\ NoDup (map sig_id (live_signals d))
  /\ Forall (fun i => i <= seq_file_activities d) (map act_id (file_activities d))
  /\ Forall (fun i => i <= seq_alerts d) (map al_id (alerts d))
  /\ Forall (fun i => i <= seq_live_signals d) (map sig_id (live_signals d)).

(** The database holds no alert, no activity row rated High, and every
    status row counts no alert. *)
Definition no_alert_ever (d : DB) : Prop :=
  alerts d = []
  /\ Forall (fun a => act_risk_level a <> High) (file_activities d)
  /\ Forall (fun s => ss_alerts_count s = 0) (service_status d).

(** A request of the browser to the pages of app.py that change the user
    list or the session. *)
Inductive Request : Type :=
| ReqSignup (name institute email username password confirm_password : string)
| ReqLogin (username password : string)
| ReqLogout.

Definition app_step (req : Request) (st : AppRoutes.AppState)
    : AppRoutes.AppState :=
  match req with
  | ReqSignup n i e u p c => snd (AppRoutes.signup n i e u p c st)
  | ReqLogin u p => snd (AppRoutes.login u p st)
  | ReqLogout => snd (AppRoutes.logout st)
  end.

Fixpoint app_run (reqs : list Request) (st : AppRoutes.AppState)
    : AppRoutes.AppState :=
  match reqs with
  | [] => st
  | req :: rest => app_run rest (app_step req st)
  end.

(** app.py right after its start. *)
Definition app_init : AppRoutes.AppState :=
  AppRoutes.mkAppState AppRoutes.SAMPLE_USERS None.

(** The user list is in order: user names and e-mail addresses are not
    shared, the ids count up from 1, the sample users are at the head as
    they were, and every user after them is a Student. *)
Definition users_ok (l : list AppRoutes.User) : Prop :=
  NoDup (map AppRoutes.u_username l)
  /\ NoDup (map AppRoutes.u_email l)
  /\ map AppRoutes.u_id l = seq 1 (length l)
  /\ exists added,
       l = (AppRoutes.SAMPLE_USERS ++ added)%list
       /\ Forall (fun u => AppRoutes.u_role u = "Student") added.

(** The session, when there is one, is that of a user of the list. *)
Definition session_ok (st : AppRoutes.AppState) : Prop :=
  match AppRoutes.session st with
  | None => True
  | Some s =>
      exists u, In u (AppRoutes.users st)
                /\ AppRoutes.u_username u = AppRoutes.s_username s
                /\ AppRoutes.u_role u = AppRoutes.s_role s
                /\ AppRoutes.u_name u = AppRoutes.s_name s
                /\ AppRoutes.u_email u = AppRoutes.s_email s
  end.

(** The number of activity rows of file_activity.db rated High. *)
Definition count_high (d : FileActivityMonitor.DB) : nat :=
  length (filter (fun a => RiskLevel_eqb (FileActivityMonitor.act_risk_level a)
                             High)
            (FileActivityMonitor.file_activities d)).

(** The alert [al] is the alert of an activity row of [d]: a High row
    with its time, user and path, and the description made from its action
    and path. *)
Definition alert_backed (d : FileActivityMonitor.DB)
    (al : FileActivityMonitor.Alert) : Prop :=
  FileActivityMonitor.al_risk_level al = High
  /\ exists act,
       In act (FileActivityMonitor.file_activities d)
       /\ FileActivityMonitor.act_risk_level act = High
       /\ FileActivityMonitor.act_timestamp act
          = FileActivityMonitor.al_timestamp al
       /\ FileActivityMonitor.act_username act
          = FileActivityMonitor.al_username al
       /\ FileActivityMonitor.act_file_path act
          = FileActivityMonitor.al_file_path al
       /\ FileActivityMonitor.al_description al
          = FileActivityMonitor.alert_description
              (FileActivityMonitor.act_action act)
              (FileActivityMonitor.act_file_path act).

Definition alerts_backed (d : FileActivityMonitor.DB) : Prop :=
  Forall (alert_backed d) (FileActivityMonitor.alerts d)
  /\ length (FileActivityMonitor.alerts d) <= count_high d.

(** No step of the run dismisses an alert. *)
Definition no_dismiss (ops : list FileOp) : bool :=
  forallb (fun op => match op with FDismiss _ => false | _ => true end) ops.

(* ================================================================== *)
(** * Properties *)
(* ================================================================== *)

(** ** Strings *)

Lemma lower_idempotent (s : string) : lower (lower s) = lower s.
Proof.
  induction s as [|c t IH]; simpl; [reflexivity|].
  f_equal; [|exact IH].
  unfold lower_ascii.
  destruct (Nat.leb 65 (nat_of_ascii c) && Nat.leb (nat_of_ascii c) 90) eqn:E.
  - apply andb_true_iff in E as [E1 E2].
    apply Nat.leb_le in E1, E2.
    rewrite nat_ascii_embedding by lia.
    replace (Nat.leb (nat_of_ascii c + 32) 90) with false
      by (symmetry; apply Nat.leb_gt; lia).
    rewrite andb_false_r. reflexivity.
  - rewrite E. reflexivity.
Qed.

Lemma contains_empty (s : string) : contains "" s = true.
Proof. destruct s; reflexivity. Qed.

Lemma any_in_exists (ps : list string) (s : string) :
  any_in ps s = true <-> exists p, In p ps /\ contains p s = true.
Proof. unfold any_in. apply existsb_exists. Qed.

Lemma append_assoc (a b c : string) :
  ((a ++ b) ++ c)%string = (a ++ b ++ c)%string.
Proof.
  induction a as [|x a IH]; cbn [String.append]; [reflexivity|].
  rewrite IH. reflexivity.
Qed.

Lemma prefix_app (a b : string) : String.prefix a (a ++ b) = true.
Proof.
  induction a as [|c a IH]; cbn [String.append String.prefix].
  - destruct b; reflexivity.
  - destruct (ascii_dec c c) as [_|N]; [exact IH|congruence].
Qed.

Lemma prefix_contains (a s : string) :
  String.prefix a s = true -> contains a s = true.
Proof. intros H. destruct s; cbn [contains]; rewrite H; reflexivity. Qed.

Lemma contains_middle (a b c : string) : contains b (a ++ b ++ c) = true.
Proof.
  induction a as [|x a IH]; cbn [String.append].
  - apply prefix_contains, prefix_app.
  - cbn [contains]. rewrite IH. apply orb_true_r.
Qed.

Lemma contains_self_suffix (a b : string) : contains b (a ++ b) = true.
Proof.
  pose proof (contains_middle a b "") as H.
  assert (E : forall s : string, (s ++ "")%string = s).
  { induction s as [|c s IHs]; cbn [String.append]; [reflexivity|].
    rewrite IHs. reflexivity. }
  rewrite E in H. exact H.
Qed.

(** The code's string operations are the plain notions: the shift of the
    capitals is the replacement of each capital by its small letter, the
    [in] of two strings is the occurrence of one in the other, and the
    [in] of a list is membership. *)
Lemma lower_ascii_letter (c : ascii) :
  lower_ascii c = letter_of capital_letters small_letters c.
Proof. destruct c as [[] [] [] [] [] [] [] []]; vm_compute; reflexivity. Qed.

Lemma lower_lowercase (s : string) : lower s = lowercase s.
Proof.
  induction s as [|c t IH]; cbn [lower lowercase]; [reflexivity|].
  rewrite lower_ascii_letter, IH. reflexivity.
Qed.

Lemma prefix_split (a s : string) :
  String.prefix a s = true -> exists b : string, s = (a ++ b)%string.
Proof.
  revert s. induction a as [|c a IH]; intros s H.
  - exists s. reflexivity.
  - destruct s as [|d s]; cbn [String.prefix] in H; [discriminate|].
    destruct (ascii_dec c d) as [->|_]; [|discriminate].
    destruct (IH s H) as [b ->]. exists b. reflexivity.
Qed.

Lemma contains_occurs (sub s : string) :
  contains sub s = true <-> occurs sub s.
Proof.
  split.
  - induction s as [|c t IH]; cbn [contains]; intros H.
    + rewrite orb_false_r in H. apply prefix_split in H as [b Hb].
      exists ""%string, b. exact Hb.
    + apply orb_true_iff in H as [H|H].
      * apply prefix_split in H as [b Hb]. exists ""%string, b. exact Hb.
      * destruct (IH H) as [a [b E]]. exists (String c a), b.
        cbn [String.append]. rewrite E. reflexivity.
  - intros [a [b ->]]. apply contains_middle.
Qed.


Lemma any_in_matches (ps : list string) (path : string) :
  any_in ps (lower path) = true <-> matches_any ps path.
Proof.
  unfold matches_any. rewrite any_in_exists, lower_lowercase.
  split; intros [p [Hi Hc]]; exists p; (split; [exact Hi|]);
    apply contains_occurs; exact Hc.
Qed.

(** ** The risk classifier *)





(** ** The ingestion gate *)

(** [should_ignore_file] accepts a path that, lowercased, contains an
    entry of one of the two exclusion lists. *)
Lemma matching_is_ignored (self : Service) (path : string) :
  matches_any (excluded_extensions (config self)) path
  \/ matches_any (excluded_paths (config self)) path ->
  MonitorService.should_ignore_file self path = true.
Proof.
  intros H. unfold MonitorService.should_ignore_file.
  destruct (any_in (excluded_extensions (config self)) (lower path)) eqn:E1;
    [reflexivity|].
  destruct (any_in (excluded_paths (config self)) (lower path)) eqn:E2;
    [reflexivity|].
  exfalso. destruct H as [H|H]; apply any_in_matches in H; congruence.
Qed.

(** The code lowers the path and compares the entries as they are written.
    For a policy written in lower case that is the comparison with the
    case of both sides ignored. *)
Lemma excluded_nocase_matches (P : Config) (path : string) :
  lowercase_exclusions P -> excluded_nocase P path ->
  matches_any (excluded_extensions P) path
  \/ matches_any (excluded_paths P) path.
Proof.
  unfold lowercase_exclusions, excluded_nocase.
  intros HL [entry [Hin Ho]].
  rewrite Forall_forall in HL. rewrite (HL entry Hin) in Ho.
  apply in_app_or in Hin as [Hin|Hin]; [left|right];
    exists entry; split; assumption.
Qed.

Lemma default_config_lowercase : lowercase_exclusions default_config.
Proof. unfold lowercase_exclusions. simpl. repeat constructor. Qed.

(** A callback whose [should_ignore_file] accepts the path does nothing. *)
Lemma dispatch_ignored {D} (m : FileActivityMonitor.Methods D)
    (k : FileActivityMonitor.EventKind) (e : FileActivityMonitor.Event)
    (w : World D) :
  FileActivityMonitor.self_should_ignore_file m
    (FileActivityMonitor.src_path e) = true ->
  FileActivityMonitor.dispatch m k e w = (Ok tt, w).
Proof.
  intros E.
  destruct k; unfold FileActivityMonitor.dispatch,
    FileActivityMonitor.on_created, FileActivityMonitor.on_modified,
    FileActivityMonitor.on_deleted, FileActivityMonitor.on_moved;
    rewrite E, andb_false_r; reflexivity.
Qed.

(** C3, as the specification states it, fails: the gate compares the
    entries of the policy as they are written with the lowercased path, so
    an entry with a capital letter excludes nothing.  With [.TMP] in the
    place of [.tmp] in the default policy, the created [/tmp/cache.tmp] of
    section 8 matches the entry when case is ignored, and is stored, with
    its signal. *)
Lemma capital_exclusion_entry_excludes_nothing :
  let P := mkConfig (watch_paths default_config) [".TMP"; ".log"; ".pyc"]
             (excluded_paths default_config) (risk_settings default_config)
             5 100 in
  let self := mkService "monitor_data.db" P in
  let e := FileActivityMonitor.mkEvent false "/tmp/cache.tmp" "" (Some 12) in
  let w := step self (OpEvent FileActivityMonitor.Created e) init_world in
  excluded_nocase P (FileActivityMonitor.src_path e)
  /\ map act_file_path (file_activities (committed w)) = ["/tmp/cache.tmp"]
  /\ map sig_type (live_signals (committed w)) = ["new_activity"]
  /\ w <> init_world.
Proof.
  cbv zeta. split; [|split; [|split]].
  - exists ".TMP". split; [left; reflexivity|].
    exists "/tmp/cache", "". vm_compute. reflexivity.
  - vm_compute. reflexivity.
  - vm_compute. reflexivity.
  - vm_compute. discriminate.
Qed.

(** C3, amended.  An event whose path (of ASCII characters), lowercased,
    contains an excluded extension or an excluded path entry of the policy
    as the entry is written, is dropped by the callback that receives it,
    whatever the kind of change: the call returns and the world is the one
    before it, so no activity row, no alert and no signal is written.  For
    a policy whose entries are in lower case, as those of the default
    policy are, this is every event whose path matches an entry when the
    case of both is ignored. *)
Theorem excluded_event_is_dropped :
  forall (self : Service) (k : FileActivityMonitor.EventKind)
         (e : FileActivityMonitor.Event) (w : World DB),
    ascii_only (FileActivityMonitor.src_path e) ->
    matches_any (excluded_extensions (config self))
      (FileActivityMonitor.src_path e)
    \/ matches_any (excluded_paths (config self))
         (FileActivityMonitor.src_path e)
    \/ (lowercase_exclusions (config self)
        /\ excluded_nocase (config self) (FileActivityMonitor.src_path e)) ->
    FileActivityMonitor.dispatch (service_methods self) k e w = (Ok tt, w)
    /\ step self (OpEvent k e) w = w.
Proof.
  intros self k e w _ E.
  assert (M : matches_any (excluded_extensions (config self))
                (FileActivityMonitor.src_path e)
              \/ matches_any (excluded_paths (config self))
                   (FileActivityMonitor.src_path e)).
  { destruct E as [E|[E|[L E]]]; [left; exact E|right; exact E|].
    apply excluded_nocase_matches; assumption. }
  assert (H : FileActivityMonitor.dispatch (service_methods self) k e w
              = (Ok tt, w)).
  { apply dispatch_ignored. simpl. apply matching_is_ignored. exact M. }
  split; [exact H|]. simpl. rewrite H. reflexivity.
Qed.

(** The scenario of section 8, a created [/tmp/cache.tmp] under the default
    policy, and the same file reported in capitals. *)
Lemma excluded_event_is_dropped_witness :
  let self := mkService "monitor_data.db" default_config in
  let e := FileActivityMonitor.mkEvent false "/tmp/cache.tmp" "" (Some 12) in
  let e' := FileActivityMonitor.mkEvent false "/TMP/CACHE.TMP" "" (Some 12) in
  step self (OpEvent FileActivityMonitor.Created e) init_world = init_world
  /\ step self (OpEvent FileActivityMonitor.Modified e') init_world
     = init_world.
Proof.
  intros self e e'. split.
  - apply (excluded_event_is_dropped self FileActivityMonitor.Created e
             init_world); [reflexivity|].
    left. exists ".tmp". split; [left; reflexivity|].
    exists "/tmp/cache", "". reflexivity.
  - apply (excluded_event_is_dropped self FileActivityMonitor.Modified e'
             init_world); [reflexivity|].
    right. right.
    split; [unfold lowercase_exclusions; simpl; repeat constructor|].
    exists ".tmp". split; [left; reflexivity|].
    exists "/tmp/cache", "". reflexivity.
Defined.

(** ** What each call of the monitoring process does to the world *)

Lemma eqb_succ_r (n : nat) : Nat.eqb n (S n) = false.
Proof. apply Nat.eqb_neq. lia. Qed.

Lemma eqb_succ_l (n : nat) : Nat.eqb (S n) n = false.
Proof. apply Nat.eqb_neq. lia. Qed.

(** Runs the connection calls of a body on a world whose lock state is
    known. *)
Ltac exec :=
  repeat (cbv beta iota zeta delta
            [bind ret raise try_except try_finally connect view query execute
             commit close with_conn now current_process_info
             committed writer next_conn busy db_file clock process
             fst snd tl RiskLevel_eqb
             insert_signal insert_activity insert_alert replace_status
             update_alert_status update_processed];
          rewrite ?Nat.eqb_refl, ?eqb_succ_r, ?eqb_succ_l).

(** [send_signal] when no connection of the process holds the lock: one
    attempt to take it, which either fails and is reported, or succeeds and
    commits the new row. *)
Lemma send_signal_quiet (self : Service) (ty : string) (data : option JObj)
    (w : World DB) :
  quiet w ->
  MonitorService.send_signal self ty data w =
  match busy w with
  | true :: rest =>
      (Raise OperationalError_locked,
       mkWorld (committed w) None (S (next_conn w)) rest true
               (clock w) (process w))
  | _ =>
      (Ok tt,
       mkWorld (snd (insert_signal ty (MonitorService.dumps_if data)
                       (clock w) (committed w)))
               None (S (next_conn w)) (tl (busy w)) true
               (clock w) (process w))
  end.
Proof.
  destruct w as [d wr nc b f clk p]; unfold quiet; simpl; intros ->.
  unfold MonitorService.send_signal.
  destruct b as [|[] rest]; exec; reflexivity.
Qed.

(** [send_signal] while another connection [c] of the process has an open
    transaction: the INSERT cannot take the lock and the call raises. *)
Lemma send_signal_locked (self : Service) (ty : string) (data : option JObj)
    (w : World DB) (c : nat) (d : DB) :
  writer w = Some (c, d) -> c <> next_conn w ->
  MonitorService.send_signal self ty data w =
  (Raise OperationalError_locked,
   mkWorld (committed w) (Some (c, d)) (S (next_conn w)) (busy w) true
           (clock w) (process w)).
Proof.
  destruct w as [d0 wr nc b f clk p]; simpl; intros -> Hc.
  apply Nat.eqb_neq in Hc.
  unfold MonitorService.send_signal.
  exec. rewrite Hc. exec. rewrite Hc. reflexivity.
Qed.

(** [update_service_status] when no connection of the process holds the
    lock. *)
Lemma update_service_status_quiet (self : Service) (status : string)
    (w : World DB) :
  quiet w ->
  MonitorService.update_service_status self status w =
  match busy w with
  | true :: rest =>
      (Raise OperationalError_locked,
       mkWorld (committed w) None (S (next_conn w)) rest true
               (clock w) (process w))
  | _ =>
      (Ok tt,
       mkWorld (snd (replace_status status (clock w)
                       (watch_paths (config self)) (committed w)))
               None (S (next_conn w)) (tl (busy w)) true
               (clock w) (process w))
  end.
Proof.
  destruct w as [d wr nc b f clk p]; unfold quiet; simpl; intros ->.
  unfold MonitorService.update_service_status.
  destruct b as [|[] rest]; exec; reflexivity.
Qed.

(** [log_activity] when no connection of the process holds the lock.  The
    INSERT of the activity row is the first attempt to take the lock.  For
    a High event the call then reaches [send_signal] with its own
    transaction still open, and ends there; for any other event the
    activity row is committed and the call ends with the [send_signal] of
    the activity. *)
Lemma log_activity_quiet (self : Service) (action path : string) (size : nat)
    (w : World DB) :
  quiet w ->
  MonitorService.log_activity self action path size w =
  let risk := MonitorService.assess_risk_level self path action in
  match busy w with
  | true :: rest =>
      (Raise OperationalError_locked,
       mkWorld (committed w) None (S (next_conn w)) rest true
               (clock w) (process w))
  | _ =>
      match risk with
      | High =>
          (Raise OperationalError_locked,
           mkWorld (committed w) None (S (S (next_conn w))) (tl (busy w)) true
                   (clock w) (process w))
      | _ =>
          let ins :=
            insert_activity (clock w) (fst (fst (process_or_unknown w)))
              (snd (fst (process_or_unknown w))) (snd (process_or_unknown w))
              action path size risk (clock w) (committed w) in
          MonitorService.send_signal self "new_activity"
            (Some [("id", JNum (fst ins)); ("action", JStr action);
                   ("file_path", JStr (basename path));
                   ("risk_level", JStr (risk_text risk));
                   ("timestamp", JNum (clock w))])
            (mkWorld (snd ins) None (S (next_conn w)) (tl (busy w)) true
                     (clock w) (process w))
      end
  end.
Proof.
  destruct w as [d wr nc b f clk p]; unfold quiet; simpl; intros ->.
  unfold MonitorService.log_activity, MonitorService.log_activity_on,
    process_or_unknown.
  destruct p as [[[user pname] pid]|];
    destruct b as [|[] rest]; exec; try reflexivity;
    destruct (MonitorService.assess_risk_level self path action); exec;
    try (erewrite send_signal_locked by (simpl; first [reflexivity | lia]);
         exec; reflexivity);
    rewrite !send_signal_quiet by reflexivity; exec;
    try reflexivity;
    destruct rest as [|[] rest']; reflexivity.
Qed.

(** ** Alerts for High events *)

(** An event that is not High leaves the alerts table as it was. *)
Lemma log_activity_not_high_keeps_alerts (self : Service)
    (action path : string) (size : nat) (w : World DB) :
  quiet w ->
  MonitorService.assess_risk_level self path action <> High ->
  alerts (committed (snd (MonitorService.log_activity self action path size w)))
  = alerts (committed w).
Proof.
  intros Hq Hr.
  rewrite (log_activity_quiet self action path size w Hq).
  cbv zeta.
  destruct (MonitorService.assess_risk_level self path action) eqn:E;
    [| |congruence];
    destruct (busy w) as [|[] rest]; try reflexivity;
    rewrite send_signal_quiet by reflexivity; simpl;
    try reflexivity; destruct rest as [|[] rest']; reflexivity.
Qed.

(** An event that is not High and meets no contention is stored: one
    activity row with the computed risk level, and one signal. *)
Lemma log_activity_not_high_idle (self : Service)
    (action path : string) (size : nat) (w : World DB) :
  idle w ->
  MonitorService.assess_risk_level self path action <> High ->
  let w' := snd (MonitorService.log_activity self action path size w) in
  fst (MonitorService.log_activity self action path size w) = Ok tt
  /\ length (file_activities (committed w'))
     = S (length (file_activities (committed w)))
  /\ length (live_signals (committed w'))
     = S (length (live_signals (committed w)))
  /\ alerts (committed w') = alerts (committed w).
Proof.
  intros [Hq Hb] Hr.
  rewrite (log_activity_quiet self action path size w Hq).
  cbv zeta. rewrite Hb.
  destruct (MonitorService.assess_risk_level self path action) eqn:E;
    [| |congruence];
    rewrite send_signal_quiet by reflexivity; simpl;
    rewrite !length_app; simpl; repeat split; lia.
Qed.

(** C2.  In [MonitorService.log_activity] the alert of a High event is
    inserted on the connection of the activity row, and [send_signal] is
    called for it before that connection commits.  [send_signal] opens a
    second connection, whose INSERT cannot take the write lock the first
    one holds: the call raises, [log_activity] ends without reaching its
    commit, and neither the alert nor the activity row is persisted. *)
Theorem log_activity_high_persists_nothing :
  forall (self : Service) (action path : string) (size : nat) (w : World DB),
    quiet w ->
    MonitorService.assess_risk_level self path action = High ->
    let r := MonitorService.log_activity self action path size w in
    fst r = Raise OperationalError_locked
    /\ committed (snd r) = committed w
    /\ alerts (committed (snd r)) = alerts (committed w)
    /\ quiet (snd r).
Proof.
  intros self action path size w Hq Hr r. subst r.
  rewrite (log_activity_quiet self action path size w Hq).
  cbv zeta. rewrite Hr.
  destruct (busy w) as [|[] rest]; repeat split; reflexivity.
Qed.

(** A DELETE under the default policy, on a database nobody else uses. *)
Lemma log_activity_high_persists_nothing_witness :
  let self := mkService "monitor_data.db" default_config in
  let r := MonitorService.log_activity self "DELETE"
             "C:\Users\a\Desktop\notes.txt" 0 init_world in
  fst r = Raise OperationalError_locked
  /\ committed (snd r) = committed init_world
  /\ alerts (committed (snd r)) = alerts (committed init_world)
  /\ quiet (snd r).
Proof.
  intros self.
  apply (log_activity_high_persists_nothing self "DELETE"
           "C:\Users\a\Desktop\notes.txt" 0 init_world);
    reflexivity.
Defined.

(** ** Contention on the write lock *)

(** C4, as the specification states it, fails: with the lock taken for one
    attempt only, a writer that tried a second time would succeed, and
    [send_signal] raises. *)
Lemma write_is_not_retried :
  ~ exists max_attempts : nat, 2 <= max_attempts /\ write_retried max_attempts.
Proof.
  intros [m [Hm H]].
  specialize (H (mkService "monitor_data.db" default_config) "new_activity"
                None (mkWorld empty_db None 0 [true] true 0 None) 1
                eq_refl eq_refl Hm).
  vm_compute in H. discriminate H.
Qed.

(** C4, amended.  No write of the monitoring process is tried a second
    time.  Each write is one attempt to take the write lock (the wait of
    the connection's timeout is part of the attempt); when the attempt
    finds the lock taken, the call raises the locked error to its caller.
    When this is the first write of [send_signal],
    [update_service_status] or [log_activity], the database holds what it
    held before.  When it is the second write of [log_activity], the
    INSERT of the signal that follows the commit of an event that is not
    High, the activity row stays committed, and no signal is stored for
    it.  In both cases the attempts used are those made, one for each
    write. *)
Theorem busy_write_raises_after_one_attempt :
  forall (self : Service) (w : World DB) (rest : list bool),
    quiet w ->
    (busy w = true :: rest ->
     (forall (ty : string) (data : option JObj),
        let r := MonitorService.send_signal self ty data w in
        fst r = Raise OperationalError_locked
        /\ committed (snd r) = committed w
        /\ busy (snd r) = rest /\ quiet (snd r))
     /\ (forall (status : string),
        let r := MonitorService.update_service_status self status w in
        fst r = Raise OperationalError_locked
        /\ committed (snd r) = committed w
        /\ busy (snd r) = rest /\ quiet (snd r))
     /\ (forall (action path : string) (size : nat),
        let r := MonitorService.log_activity self action path size w in
        fst r = Raise OperationalError_locked
        /\ committed (snd r) = committed w
        /\ busy (snd r) = rest /\ quiet (snd r)))
    /\ (busy w = false :: true :: rest ->
        forall (action path : string) (size : nat),
          MonitorService.assess_risk_level self path action <> High ->
          let r := MonitorService.log_activity self action path size w in
          fst r = Raise OperationalError_locked
          /\ file_activities (committed (snd r))
             = (file_activities (committed w)
                ++ [mkActivity
                      (next_rowid (seq_file_activities (committed w))
                         (map act_id (file_activities (committed w))))
                      (clock w) (fst (fst (process_or_unknown w)))
                      (snd (fst (process_or_unknown w)))
                      (snd (process_or_unknown w)) action path size
                      (MonitorService.assess_risk_level self path action)
                      "New" (clock w)])%list
          /\ live_signals (committed (snd r)) = live_signals (committed w)
          /\ alerts (committed (snd r)) = alerts (committed w)
          /\ busy (snd r) = rest /\ quiet (snd r)).
Proof.
  intros self w rest Hq. split.
  - intros Hb. split; [|split].
    + intros ty data r. subst r.
      rewrite (send_signal_quiet self ty data w Hq), Hb.
      repeat split.
    + intros status r. subst r.
      rewrite (update_service_status_quiet self status w Hq), Hb.
      repeat split.
    + intros action path size r. subst r.
      rewrite (log_activity_quiet self action path size w Hq).
      cbv zeta. rewrite Hb. repeat split.
  - intros Hb action path size Hr r. subst r.
    rewrite (log_activity_quiet self action path size w Hq).
    cbv zeta. rewrite Hb.
    destruct (MonitorService.assess_risk_level self path action) eqn:E;
      [| |congruence];
      rewrite send_signal_quiet by reflexivity;
      cbn [busy tl fst snd committed insert_activity file_activities
           live_signals alerts];
      repeat split.
Qed.

(** The lock taken at the first write of a call, and at the second write
    of a [log_activity] whose event is rated Medium. *)
Lemma busy_write_raises_after_one_attempt_witness :
  let self := mkService "monitor_data.db" default_config in
  let w1 := mkWorld empty_db None 0 [true] true 0 None in
  let w2 := mkWorld empty_db None 0 [false; true] true 0 None in
  let r1 := MonitorService.send_signal self "new_activity" None w1 in
  let r2 := MonitorService.log_activity self "MODIFY"
              "C:\Users\a\Desktop\notes.txt" 3 w2 in
  (fst r1 = Raise OperationalError_locked
   /\ committed (snd r1) = committed w1
   /\ busy (snd r1) = [] /\ quiet (snd r1))
  /\ (fst r2 = Raise OperationalError_locked
      /\ file_activities (committed (snd r2))
         = [mkActivity 1 0 "Unknown" "Unknown" 0 "MODIFY"
              "C:\Users\a\Desktop\notes.txt" 3 Medium "New" 0]
      /\ live_signals (committed (snd r2)) = []
      /\ alerts (committed (snd r2)) = []
      /\ busy (snd r2) = [] /\ quiet (snd r2)).
Proof.
  intros self w1 w2 r1 r2. split.
  - destruct (busy_write_raises_after_one_attempt self w1 [] eq_refl)
      as [A _].
    destruct (A eq_refl) as [S _]. apply (S "new_activity" None).
  - destruct (busy_write_raises_after_one_attempt self w2 [] eq_refl)
      as [_ B].
    apply (B eq_refl "MODIFY" "C:\Users\a\Desktop\notes.txt" 3).
    vm_compute. discriminate.
Defined.

(** ** The file monitor's own [log_activity] *)

Ltac exec_fm :=
  repeat (cbv beta iota zeta delta
            [bind ret raise try_except try_finally connect view query execute
             commit close with_conn now current_process_info
             committed writer next_conn busy db_file clock process
             fst snd tl RiskLevel_eqb
             FileActivityMonitor.get_process_info
             FileActivityMonitor.insert_activity
             FileActivityMonitor.insert_alert
             App.run_statement App.update_status App.delete_alert];
          rewrite ?Nat.eqb_refl, ?eqb_succ_r, ?eqb_succ_l).

(** With one connection for both rows, the High event of the file monitor
    is stored with its alert: one new alert, with status New, risk level
    High, and the path and user name of the activity row stored with it. *)
Lemma file_monitor_log_activity_high (action path : string) (size : nat)
    (w : World FileActivityMonitor.DB) :
  idle w ->
  FileActivityMonitor.should_ignore_file path = false ->
  FileActivityMonitor.assess_risk_level path action = High ->
  let r := FileActivityMonitor.log_activity action path size w in
  let d := committed w in
  let d' := committed (snd r) in
  let user := fst (fst (process_or_unknown w)) in
  fst r = Ok tt
  /\ FileActivityMonitor.alerts d' =
       (FileActivityMonitor.alerts d ++
        [FileActivityMonitor.mkAlert
           (next_rowid (FileActivityMonitor.seq_alerts d)
              (map FileActivityMonitor.al_id (FileActivityMonitor.alerts d)))
           (clock w) user
           (FileActivityMonitor.alert_description action path) path High
           "New"])%list
  /\ FileActivityMonitor.file_activities d' =
       (FileActivityMonitor.file_activities d ++
        [FileActivityMonitor.mkActivity
           (next_rowid (FileActivityMonitor.seq_file_activities d)
              (map FileActivityMonitor.act_id
                 (FileActivityMonitor.file_activities d)))
           (clock w) user (snd (fst (process_or_unknown w)))
           (snd (process_or_unknown w)) action path size None "Detected"
           High])%list.
Proof.
  destruct w as [d wr nc b f clk p]; unfold idle; simpl.
  intros [-> ->] Hi Hr.
  unfold FileActivityMonitor.log_activity, process_or_unknown.
  rewrite Hi, Hr.
  destruct p as [[[user pname] pid]|]; exec_fm; repeat split.
Qed.

(** An event of the file monitor that is not High adds no alert. *)
Lemma file_monitor_log_activity_not_high (action path : string) (size : nat)
    (w : World FileActivityMonitor.DB) :
  quiet w ->
  FileActivityMonitor.assess_risk_level path action <> High ->
  FileActivityMonitor.alerts
    (committed (snd (FileActivityMonitor.log_activity action path size w)))
  = FileActivityMonitor.alerts (committed w).
Proof.
  destruct w as [d wr nc b f clk p]; unfold quiet; simpl.
  intros -> Hr.
  unfold FileActivityMonitor.log_activity.
  destruct (FileActivityMonitor.should_ignore_file path); [reflexivity|].
  destruct (FileActivityMonitor.assess_risk_level path action);
    [| |congruence];
    destruct p as [[[user pname] pid]|]; destruct b as [|[] rest];
    exec_fm; reflexivity.
Qed.

(** ** The description of an alert *)

(** C8, as the specification states it, fails at its own scenario: the
    description the service gives to the alert of a DELETE on
    [C:\Windows\System32\drivers\evil.sys] is not the text of section 4.4
    and does not contain the path; the file monitor's has the file name in
    the place of the path. *)
Lemma description_is_not_the_specified_text :
  let action := "DELETE" in
  let path := "C:\Windows\System32\drivers\evil.sys" in
  MonitorService.alert_description action <> spec_description action path
  /\ contains path (MonitorService.alert_description action) = false
  /\ FileActivityMonitor.alert_description action path
     <> spec_description action path
  /\ contains path (FileActivityMonitor.alert_description action path) = false.
Proof.
  cbv zeta. repeat split; try (vm_compute; reflexivity);
    vm_compute; discriminate.
Qed.

(** [log_activity] of the service from the INSERT of the activity row
    on, for a High event, with the connection of the call open and the
    write lock free: the alert row is put in the transaction of the
    connection, and the call ends in the [send_signal] of the alert, the
    transaction still open. *)
Lemma log_activity_on_high (self : Service) (action path : string)
    (size : nat) (user pname : string) (pid ts conn : nat) (w : World DB) :
  quiet w -> hd false (busy w) = false -> conn < next_conn w ->
  MonitorService.log_activity_on self action path size user pname pid ts
    High conn w
  = (Raise OperationalError_locked,
     mkWorld (committed w)
       (Some (conn,
              snd (insert_alert ts user
                     (MonitorService.alert_description action) path High
                     (clock w)
                     (snd (insert_activity ts user pname pid action path size
                             High (clock w) (committed w))))))
       (S (next_conn w)) (tl (busy w)) true (clock w) (process w)).
Proof.
  destruct w as [d wr nc b f clk p]; unfold quiet; simpl; intros -> Hb Hc.
  assert (N : Nat.eqb conn nc = false) by (apply Nat.eqb_neq; lia).
  unfold MonitorService.log_activity_on.
  destruct b as [|[] rest]; [|discriminate Hb|]; exec;
    (erewrite send_signal_locked by (simpl; first [reflexivity | lia]));
    reflexivity.
Qed.

(** C8, amended.  For a High event with an action and a path of ASCII
    characters, the description of the alert is the text
    [High-risk <action> operation detected], the action in small letters,
    followed in the file monitor by [ on ] and the base name of the path,
    not the path.  The file monitor stores the alert with it.  The service
    gives its text, which has no path in it, to the INSERT of the alert
    row on the connection of the call, and ends with that transaction
    open: nothing of it is committed.  For a DELETE on
    [C:\Windows\System32\drivers\evil.sys] the two texts are
    [High-risk delete operation detected on evil.sys] and
    [High-risk delete operation detected]. *)
Theorem alert_description_text :
  forall (action path : string),
    ascii_only action -> ascii_only path ->
    (forall (size : nat) (w : World FileActivityMonitor.DB),
       idle w ->
       FileActivityMonitor.should_ignore_file path = false ->
       FileActivityMonitor.assess_risk_level path action = High ->
       map FileActivityMonitor.al_description
         (FileActivityMonitor.alerts
            (committed
               (snd (FileActivityMonitor.log_activity action path size w))))
       = (map FileActivityMonitor.al_description
            (FileActivityMonitor.alerts (committed w))
          ++ [("High-risk " ++ lowercase action ++ " operation detected on "
               ++ basename path)%string])%list)
    /\ (forall (self : Service) (size : nat) (user pname : string)
               (pid ts conn : nat) (w : World DB),
          quiet w -> hd false (busy w) = false -> conn < next_conn w ->
          MonitorService.assess_risk_level self path action = High ->
          let r := MonitorService.log_activity_on self action path size user
                     pname pid ts
                     (MonitorService.assess_risk_level self path action)
                     conn w in
          fst r = Raise OperationalError_locked
          /\ committed (snd r) = committed w
          /\ exists d : DB,
               writer (snd r) = Some (conn, d)
               /\ map al_description (alerts d)
                  = (map al_description (alerts (committed w))
                     ++ [("High-risk " ++ lowercase action
                          ++ " operation detected")%string])%list)
    /\ (forall (self : Service) (size : nat) (w : World DB),
          quiet w ->
          MonitorService.assess_risk_level self path action = High ->
          committed (snd (MonitorService.log_activity self action path size w))
          = committed w)
    /\ map FileActivityMonitor.al_description
         (FileActivityMonitor.alerts
            (committed
               (snd (FileActivityMonitor.log_activity "DELETE"
                       "C:\Windows\System32\drivers\evil.sys" 0
                       (mkWorld FileActivityMonitor.empty_db None 0 [] true 0
                          None)))))
       = ["High-risk delete operation detected on evil.sys"]
    /\ (exists d : DB,
          writer
            (snd (MonitorService.log_activity_on
                    (mkService "monitor_data.db" default_config) "DELETE"
                    "C:\Windows\System32\drivers\evil.sys" 0 "alice"
                    "python.exe" 42 7 High 0
                    (mkWorld empty_db None 1 [] true 7 None)))
          = Some (0, d)
          /\ map al_description (alerts d)
             = ["High-risk delete operation detected"]).
Proof.
  intros action path _ _.
  split; [|split; [|split; [|split]]].
  - intros size w Hi Hig Hr.
    destruct (file_monitor_log_activity_high action path size w Hi Hig Hr)
      as [_ [Ha _]].
    rewrite Ha, map_app. unfold FileActivityMonitor.alert_description.
    rewrite lower_lowercase. reflexivity.
  - intros self size user pname pid ts conn w Hq Hb Hc Hr r. subst r.
    rewrite Hr.
    rewrite (log_activity_on_high self action path size user pname pid ts
               conn w Hq Hb Hc).
    cbn [fst snd committed writer].
    split; [reflexivity|]. split; [reflexivity|].
    eexists. split; [reflexivity|].
    cbn [insert_alert insert_activity snd alerts]. rewrite map_app.
    unfold MonitorService.alert_description. rewrite lower_lowercase.
    reflexivity.
  - intros self size w Hq Hr.
    rewrite (log_activity_quiet self action path size w Hq).
    cbv zeta. rewrite Hr.
    destruct (busy w) as [|[] rest]; reflexivity.
  - vm_compute. reflexivity.
  - eexists. split; vm_compute; reflexivity.
Qed.

(** ** Reading the signal queue *)

Lemma insert_by_timestamp_perm (s : Signal) (l : list Signal) :
  Permutation (insert_by_timestamp s l) (s :: l).
Proof.
  induction l as [|x t IH]; simpl; [apply Permutation_refl|].
  destruct (Nat.leb (sig_timestamp x) (sig_timestamp s)).
  - eapply perm_trans; [apply perm_skip, IH|apply perm_swap].
  - apply Permutation_refl.
Qed.

Lemma fold_insert_perm (l acc : list Signal) :
  Permutation (fold_left (fun a s => insert_by_timestamp s a) l acc) (acc ++ l).
Proof.
  revert acc. induction l as [|x t IH]; intros acc; simpl.
  - rewrite app_nil_r. apply Permutation_refl.
  - eapply perm_trans; [apply IH|].
    eapply perm_trans;
      [apply Permutation_app_tail, insert_by_timestamp_perm|].
    simpl. apply Permutation_middle.
Qed.

Lemma order_by_timestamp_perm (l : list Signal) :
  Permutation (order_by_timestamp l) l.
Proof. apply (fold_insert_perm l []). Qed.

Lemma insert_by_timestamp_sorted (s : Signal) (l : list Signal) :
  Sorted ts_le l -> Sorted ts_le (insert_by_timestamp s l).
Proof.
  induction l as [|x t IH]; intros Hs; simpl.
  - repeat constructor.
  - destruct (Nat.leb (sig_timestamp x) (sig_timestamp s)) eqn:E.
    + apply Sorted_inv in Hs as [Ht Hx].
      constructor; [apply IH, Ht|].
      destruct t as [|y t']; simpl.
      * constructor. apply Nat.leb_le, E.
      * destruct (Nat.leb (sig_timestamp y) (sig_timestamp s)).
        -- constructor. apply HdRel_inv in Hx. exact Hx.
        -- constructor. apply Nat.leb_le, E.
    + apply Nat.leb_gt in E.
      constructor; [exact Hs|]. constructor. unfold ts_le. lia.
Qed.

Lemma order_by_timestamp_sorted (l : list Signal) :
  Sorted ts_le (order_by_timestamp l).
Proof.
  unfold order_by_timestamp.
  assert (G : forall acc, Sorted ts_le acc ->
                Sorted ts_le (fold_left (fun a s => insert_by_timestamp s a) l acc)).
  { induction l as [|x t IH]; intros acc Ha; simpl; [exact Ha|].
    apply IH, insert_by_timestamp_sorted, Ha. }
  apply G. constructor.
Qed.

Lemma select_unprocessed_in (d : DB) (s : Signal) :
  In s (select_unprocessed d)
  <-> In s (live_signals d) /\ sig_processed s = false.
Proof.
  unfold select_unprocessed. split.
  - intros H.
    apply (Permutation_in _ (order_by_timestamp_perm _)) in H.
    apply filter_In in H as [H1 H2]. split; [exact H1|].
    destruct (sig_processed s); [discriminate|reflexivity].
  - intros [H1 H2].
    apply (Permutation_in _ (Permutation_sym (order_by_timestamp_perm _))).
    apply filter_In. split; [exact H1|]. rewrite H2. reflexivity.
Qed.

Ltac exec_web :=
  repeat (cbv beta iota zeta delta
            [bind ret raise try_except try_finally connect view query execute
             commit close with_conn now
             committed writer next_conn busy db_file clock process
             fst snd tl
             WebInterface.get_db_connection WebInterface.get_live_signals
             WebInterface.execute_with
             WebInterface.api_alert_action
             WebInterface.req_alert_id WebInterface.req_action
             update_alert_status update_processed];
          cbn [map];
          rewrite ?Nat.eqb_refl, ?eqb_succ_r, ?eqb_succ_l).

Lemma select_unprocessed_length (d : DB) :
  length (select_unprocessed d) = unprocessed_count d.
Proof.
  unfold select_unprocessed, unprocessed_count.
  apply Permutation_length, order_by_timestamp_perm.
Qed.

(** [get_live_signals] when no connection of this process holds the lock:
    nothing without the file; with it, the unprocessed rows in timestamp
    order, marked in the same call, or the empty list when the mark has
    more parameters than SQLite accepts or cannot take the lock. *)
Lemma get_live_signals_quiet (max_variables : nat) (w : World DB) :
  quiet w ->
  WebInterface.get_live_signals max_variables w =
  if db_file w then
    let rows := select_unprocessed (committed w) in
    match rows with
    | [] =>
        (Ok [], mkWorld (committed w) None (S (next_conn w)) (busy w) true
                        (clock w) (process w))
    | _ :: _ =>
        if Nat.leb (length rows) max_variables then
          match busy w with
          | true :: rest =>
              (Ok [], mkWorld (committed w) None (S (next_conn w)) rest true
                              (clock w) (process w))
          | _ =>
              (Ok (map WebInterface.signal_dict rows),
               mkWorld (snd (update_processed (map sig_id rows) (committed w)))
                       None (S (next_conn w)) (tl (busy w)) true
                       (clock w) (process w))
          end
        else
          (Ok [], mkWorld (committed w) None (S (next_conn w)) (busy w) true
                          (clock w) (process w))
    end
  else (Ok [], w).
Proof.
  destruct w as [d wr nc b f clk p]; unfold quiet; simpl; intros ->.
  destruct f; [|reflexivity].
  unfold WebInterface.get_live_signals at 1.
  exec_web.
  destruct (select_unprocessed d) as [|r rows]; exec_web; [reflexivity|].
  cbn [length]. rewrite length_map.
  destruct (Nat.leb (S (length rows)) max_variables); exec_web;
    [|reflexivity].
  destruct b as [|[] rest]; exec_web; reflexivity.
Qed.

Lemma mark_processed_nil (l : list Signal) : map (mark_processed []) l = l.
Proof.
  induction l as [|x t IH]; simpl; [reflexivity|].
  rewrite IH. reflexivity.
Qed.

Lemma existsb_eqb_in (i : nat) (ids : list nat) :
  existsb (Nat.eqb i) ids = true <-> In i ids.
Proof.
  rewrite existsb_exists. split.
  - intros [x [Hx E]]. apply Nat.eqb_eq in E. subst. exact Hx.
  - intros H. exists i. split; [exact H|apply Nat.eqb_refl].
Qed.

(** A read of a queue that is longer than the parameter limit returns
    nothing and changes nothing but the count of connections. *)
Lemma get_live_signals_over_limit (max_variables : nat) (w : World DB) :
  quiet w -> db_file w = true ->
  max_variables < unprocessed_count (committed w) ->
  WebInterface.get_live_signals max_variables w
  = (Ok [], mkWorld (committed w) None (S (next_conn w)) (busy w) true
                    (clock w) (process w)).
Proof.
  intros Hq Hf Hm.
  rewrite (get_live_signals_quiet max_variables w Hq), Hf. cbv zeta.
  rewrite <- select_unprocessed_length in Hm.
  destruct (select_unprocessed (committed w)) as [|x rows] eqn:E;
    [reflexivity|].
  apply Nat.leb_gt in Hm. rewrite Hm. reflexivity.
Qed.

(** C5.  The read of the queue marks the rows it has read with one UPDATE
    that has a parameter for each of them.  When more rows are unprocessed
    than SQLite accepts parameters in a statement, the UPDATE raises, the
    [except] branch returns the empty list, and no row is marked: the call
    returns none of the unprocessed rows, the database is as before, and
    so it is after any number of further reads, each of which returns the
    empty list. *)
Theorem get_live_signals_long_queue_returns_nothing :
  forall (self : Service) (max_variables : nat) (w : World DB),
    quiet w -> db_file w = true ->
    max_variables < unprocessed_count (committed w) ->
    let r := WebInterface.get_live_signals max_variables w in
    fst r = Ok []
    /\ committed (snd r) = committed w
    /\ (exists s : Signal,
          In s (live_signals (committed (snd r))) /\ sig_processed s = false)
    /\ (forall n : nat,
          let reads := repeat (OpGetLiveSignals max_variables) n in
          deliveries self reads w = []
          /\ committed (run self reads w) = committed w).
Proof.
  intros self max_variables w Hq Hf Hm r. subst r.
  rewrite (get_live_signals_over_limit max_variables w Hq Hf Hm).
  cbn [fst snd committed].
  split; [reflexivity|]. split; [reflexivity|]. split.
  - unfold unprocessed_count in Hm.
    destruct (filter (fun s => negb (sig_processed s))
                (live_signals (committed w))) as [|s t] eqn:E;
      [simpl in Hm; lia|].
    assert (I : In s (filter (fun s => negb (sig_processed s))
                        (live_signals (committed w))))
      by (rewrite E; left; reflexivity).
    apply filter_In in I as [I P]. exists s. split; [exact I|].
    destruct (sig_processed s); [discriminate P|reflexivity].
  - intros n. cbv zeta. revert w Hq Hf Hm.
    induction n as [|n IH]; intros w Hq Hf Hm; [split; reflexivity|].
    cbn [repeat deliveries run delivered step].
    rewrite (get_live_signals_over_limit max_variables w Hq Hf Hm).
    cbn [fst snd app].
    apply (IH (mkWorld (committed w) None (S (next_conn w)) (busy w) true
                 (clock w) (process w)));
      [reflexivity|reflexivity|exact Hm].
Qed.

(** A queue of a thousand unprocessed rows, read with the limit of 999
    parameters. *)
Lemma get_live_signals_long_queue_returns_nothing_witness :
  let self := mkService "monitor_data.db" default_config in
  let rows := map (fun i => mkSignal i "new_activity" None i false)
                  (seq 1 1000) in
  let w := mkWorld (mkDB [] [] rows [] 0 0 1000) None 0 [] true 1001 None in
  let r := WebInterface.get_live_signals 999 w in
  fst r = Ok []
  /\ committed (snd r) = committed w
  /\ length (filter (fun s => negb (sig_processed s))
               (live_signals (committed (snd r)))) = 1000.
Proof.
  intros self rows w r.
  assert (Hm : 999 < unprocessed_count (committed w))
    by (apply Nat.ltb_lt; vm_compute; reflexivity).
  destruct (get_live_signals_long_queue_returns_nothing self 999 w
              eq_refl eq_refl Hm) as [A [B _]].
  split; [exact A|]. split; [exact B|].
  unfold r. rewrite B. vm_compute. reflexivity.
Defined.

(** ** Alert actions *)

(** [api_alert_action] when no connection of this process holds the
    lock. *)
Lemma api_alert_action_quiet (req : WebInterface.ActionRequest)
    (w : World DB) :
  quiet w ->
  WebInterface.api_alert_action req w =
  if db_file w then
    match busy w with
    | true :: rest =>
        (Ok (WebInterface.mkActionResponse false "database is locked" None),
         mkWorld (committed w) None (S (next_conn w)) rest true
                 (clock w) (process w))
    | _ =>
        let new_status :=
          WebInterface.status_map_get (WebInterface.req_action req) in
        (Ok (WebInterface.mkActionResponse true
               ("Alert "
                ++ WebInterface.format_action (WebInterface.req_action req)
                ++ "d successfully")
               (Some new_status)),
         mkWorld (snd (update_alert_status new_status
                         (WebInterface.req_alert_id req) (committed w)))
                 None (S (next_conn w)) (tl (busy w)) true
                 (clock w) (process w))
    end
  else
    (Ok (WebInterface.mkActionResponse false "Monitor service not available"
           None), w).
Proof.
  destruct w as [d wr nc b f clk p]; unfold quiet; simpl; intros ->.
  destruct req as [i a].
  destruct f; [|reflexivity].
  destruct b as [|[] rest]; exec_web; reflexivity.
Qed.


Lemma spec_status_is_status_map (action status : string) :
  spec_status_of action = Some status ->
  WebInterface.status_map_get (Some action) = status.
Proof.
  unfold spec_status_of, WebInterface.status_map_get.
  repeat match goal with
         | |- context [String.eqb action ?x] => destruct (String.eqb action x)
         end; congruence.
Qed.






(** ** Runs *)

Lemma evolves_one (d d' : DB) : sql d d' -> evolves d d'.
Proof. intros H. eapply evolves_step; [apply evolves_refl|exact H]. Qed.

Lemma evolves_trans (a b c : DB) : evolves a b -> evolves b c -> evolves a c.
Proof.
  intros Hab Hbc. induction Hbc as [|d1 d2 _ IH Hs]; [exact Hab|].
  eapply evolves_step; [exact IH|exact Hs].
Qed.

Lemma send_signal_evolves (self : Service) (ty : string)
    (data : option JObj) (w : World DB) :
  quiet w ->
  quiet (snd (MonitorService.send_signal self ty data w))
  /\ evolves (committed w)
       (committed (snd (MonitorService.send_signal self ty data w))).
Proof.
  intros Hq. rewrite (send_signal_quiet self ty data w Hq).
  destruct (busy w) as [|[] rest]; simpl; split;
    try reflexivity; try apply evolves_refl;
    apply evolves_one, sql_insert_signal.
Qed.

Lemma log_activity_evolves (self : Service) (action path : string)
    (size : nat) (w : World DB) :
  quiet w ->
  quiet (snd (MonitorService.log_activity self action path size w))
  /\ evolves (committed w)
       (committed (snd (MonitorService.log_activity self action path size w))).
Proof.
  intros Hq. rewrite (log_activity_quiet self action path size w Hq).
  cbv zeta.
  assert (G : forall b data,
    quiet (snd (MonitorService.send_signal self "new_activity" data
      (mkWorld
         (snd (insert_activity (clock w) (fst (fst (process_or_unknown w)))
                 (snd (fst (process_or_unknown w)))
                 (snd (process_or_unknown w)) action path size
                 (MonitorService.assess_risk_level self path action)
                 (clock w) (committed w)))
         None (S (next_conn w)) b true (clock w) (process w))))
    /\ evolves (committed w)
         (committed (snd (MonitorService.send_signal self "new_activity" data
      (mkWorld
         (snd (insert_activity (clock w) (fst (fst (process_or_unknown w)))
                 (snd (fst (process_or_unknown w)))
                 (snd (process_or_unknown w)) action path size
                 (MonitorService.assess_risk_level self path action)
                 (clock w) (committed w)))
         None (S (next_conn w)) b true (clock w) (process w)))))).
  { intros b data.
    match goal with
    | |- context [MonitorService.send_signal _ _ _ ?w1] =>
        destruct (send_signal_evolves self "new_activity" data w1 eq_refl)
          as [Q E]
    end.
    split; [exact Q|].
    eapply evolves_trans; [|exact E].
    apply evolves_one, sql_insert_activity. }
  destruct (busy w) as [|[] rest];
    destruct (MonitorService.assess_risk_level self path action);
    try apply G; simpl; split; try reflexivity; apply evolves_refl.
Qed.

(** Every step leaves the lock free if it found it free, and changes the
    database by statements of the code only. *)
Lemma step_evolves (self : Service) (op : Op) (w : World DB) :
  quiet w ->
  quiet (step self op w) /\ evolves (committed w) (committed (step self op w)).
Proof.
  intros Hq. destruct op as [status|ty data|a p n|k e|m|req|t|b|pr]; simpl.
  - rewrite (update_service_status_quiet self status w Hq).
    destruct (busy w) as [|[] rest]; simpl; split;
      try reflexivity; try apply evolves_refl;
      apply evolves_one, sql_replace_status.
  - apply send_signal_evolves, Hq.
  - apply log_activity_evolves, Hq.
  - destruct k; simpl;
      unfold FileActivityMonitor.on_created, FileActivityMonitor.on_modified,
        FileActivityMonitor.on_deleted, FileActivityMonitor.on_moved;
      simpl;
      match goal with
      | |- context [if ?c then _ else _] => destruct c
      end;
      try apply log_activity_evolves; try exact Hq;
      simpl; split; try exact Hq; apply evolves_refl.
  - rewrite (get_live_signals_quiet m w Hq).
    destruct (db_file w); [|split; [exact Hq|apply evolves_refl]].
    cbv zeta.
    destruct (select_unprocessed (committed w)) as [|x rows];
      [split; [reflexivity|apply evolves_refl]|].
    destruct (Nat.leb (length (x :: rows)) m);
      [|split; [reflexivity|apply evolves_refl]].
    destruct (busy w) as [|[] rest]; simpl; split;
      try reflexivity; try apply evolves_refl;
      apply evolves_one, sql_update_processed.
  - rewrite (api_alert_action_quiet req w Hq).
    destruct (db_file w); [|split; [exact Hq|apply evolves_refl]].
    destruct (busy w) as [|[] rest]; simpl; split;
      try reflexivity; try apply evolves_refl;
      apply evolves_one, sql_update_alert_status.
  - split; [exact Hq|apply evolves_refl].
  - split; [exact Hq|apply evolves_refl].
  - split; [exact Hq|apply evolves_refl].
Qed.

Lemma run_evolves (self : Service) (ops : list Op) (w : World DB) :
  quiet w ->
  quiet (run self ops w) /\ evolves (committed w) (committed (run self ops w)).
Proof.
  revert w. induction ops as [|op rest IH]; intros w Hq; simpl.
  - split; [exact Hq|apply evolves_refl].
  - destruct (step_evolves self op w Hq) as [Q E].
    destruct (IH _ Q) as [Q' E'].
    split; [exact Q'|]. eapply evolves_trans; eassumption.
Qed.

(** ** The processed flag *)

Lemma next_rowid_fresh (seq : nat) (ids : list nat) :
  ~ In (next_rowid seq ids) ids.
Proof.
  intros H. unfold next_rowid in H.
  assert (F : Forall (fun k => k <= list_max ids) ids)
    by (apply list_max_le; lia).
  rewrite Forall_forall in F. specialize (F _ H). lia.
Qed.

Lemma mark_processed_id (ids : list nat) (l : list Signal) :
  map sig_id (map (mark_processed ids) l) = map sig_id l.
Proof.
  induction l as [|x t IH]; simpl; [reflexivity|].
  rewrite IH. f_equal. unfold mark_processed.
  destruct (existsb _ ids); reflexivity.
Qed.

Lemma mark_processed_fixes (ids : list nat) (r : Signal) :
  sig_processed r = true -> mark_processed ids r = r.
Proof.
  intros H. unfold mark_processed.
  destruct (existsb _ ids); [|reflexivity].
  destruct r; simpl in *; subst; reflexivity.
Qed.

Lemma sql_keeps_processed (r : Signal) (d d' : DB) :
  sig_processed r = true ->
  sql d d' -> keeps_processed r d -> keeps_processed r d'.
Proof.
  intros Hp Hs [Hn Hi].
  destruct Hs; unfold keeps_processed; simpl; try (split; assumption).
  - split.
    + rewrite map_app. simpl.
      eapply Permutation_NoDup; [apply Permutation_cons_append|].
      constructor; [apply next_rowid_fresh|exact Hn].
    + apply in_or_app. left. exact Hi.
  - split.
    + rewrite mark_processed_id. exact Hn.
    + rewrite <- (mark_processed_fixes ids r Hp). apply in_map, Hi.
Qed.

Lemma evolves_keeps_processed (r : Signal) (d d' : DB) :
  sig_processed r = true ->
  evolves d d' -> keeps_processed r d -> keeps_processed r d'.
Proof.
  intros Hp He Hk. induction He as [|d1 d2 _ IH Hs]; [exact Hk|].
  eapply sql_keeps_processed; eassumption.
Qed.

Lemma key_determines_row (l : list Signal) (a b : Signal) :
  NoDup (map sig_id l) -> In a l -> In b l -> sig_id a = sig_id b -> a = b.
Proof.
  induction l as [|x t IH]; simpl; intros Hn Ha Hb E; [contradiction|].
  inversion Hn as [|? ? Hx Ht]; subst.
  destruct Ha as [->|Ha], Hb as [->|Hb].
  - reflexivity.
  - exfalso. apply Hx. rewrite E. apply in_map, Hb.
  - exfalso. apply Hx. rewrite <- E. apply in_map, Ha.
  - apply IH; assumption.
Qed.

(** A processed row is not among the signals a step hands out. *)
Lemma delivered_skips_processed (op : Op) (w : World DB) (r : Signal) :
  quiet w -> sig_processed r = true -> keeps_processed r (committed w) ->
  ~ In (sig_id r) (map WebInterface.sd_id (delivered op w)).
Proof.
  intros Hq Hp [Hn Hi] H.
  destruct op as [| | | |m| | | |]; simpl in H; try contradiction.
  rewrite (get_live_signals_quiet m w Hq) in H.
  destruct (db_file w); [|contradiction].
  cbv zeta in H.
  destruct (select_unprocessed (committed w)) as [|x rows] eqn:E;
    [contradiction|].
  destruct (Nat.leb (length (x :: rows)) m); [|contradiction].
  destruct (busy w) as [|[] rest]; cbn [fst] in H; try contradiction;
    rewrite map_map in H; apply in_map_iff in H as [s [Hid Hs]];
    rewrite <- E in Hs; apply select_unprocessed_in in Hs as [Hs Hu];
    simpl in Hid;
    rewrite (key_determines_row _ s r Hn Hs Hi Hid) in Hu; congruence.
Qed.

(** C6.  Take a world in which no call is in progress, and a row of
    [live_signals] that is processed.  Along every sequence of steps
    (signals sent, activities logged, events received, status updates,
    reads of the queue, alert actions, the clock, contention) the row
    stays in the table as it is, processed; it remains the only row of its
    id; and no read of the queue hands out its id. *)
Theorem processed_is_monotonic :
  forall (self : Service) (ops : list Op) (w : World DB) (r : Signal),
    quiet w ->
    NoDup (map sig_id (live_signals (committed w))) ->
    In r (live_signals (committed w)) ->
    sig_processed r = true ->
    In r (live_signals (committed (run self ops w)))
    /\ (forall s : Signal,
          In s (live_signals (committed (run self ops w))) ->
          sig_id s = sig_id r -> s = r /\ sig_processed s = true)
    /\ ~ In (sig_id r) (map WebInterface.sd_id (deliveries self ops w)).
Proof.
  intros self ops w r Hq Hn Hi Hp.
  assert (Hk : keeps_processed r (committed w)) by (split; assumption).
  clear Hn Hi.
  destruct (run_evolves self ops w Hq) as [_ He].
  pose proof (evolves_keeps_processed r _ _ Hp He Hk) as [Hn' Hi'].
  split; [exact Hi'|]. split.
  - intros s Hs E.
    pose proof (key_determines_row _ s r Hn' Hs Hi' E) as ->.
    split; [reflexivity|exact Hp].
  - clear He Hn' Hi'. revert w Hq Hk.
    induction ops as [|op rest IH]; intros w Hq Hk; simpl; [tauto|].
    rewrite map_app. intros H. apply in_app_or in H as [H|H].
    + exact (delivered_skips_processed op w r Hq Hp Hk H).
    + destruct (step_evolves self op w Hq) as [Q E].
      exact (IH _ Q (evolves_keeps_processed r _ _ Hp E Hk) H).
Qed.

(** ** The status row *)





(** ** The statements at concrete inputs *)


(** A processed row and an unprocessed one, then signals, an event and two
    reads of the queue under contention. *)
Lemma processed_is_monotonic_witness :
  let self := mkService "monitor_data.db" default_config in
  let r := mkSignal 1 "new_activity" None 3 true in
  let w := mkWorld
             (mkDB [] [] [r; mkSignal 2 "new_alert" None 4 false] [] 0 0 2)
             None 0 [] true 5 None in
  let ops := [OpSendSignal "new_activity" None; OpGetLiveSignals 999;
              OpContention [false; true];
              OpLogActivity "CREATE" "C:\Users\a\notes.txt" 7;
              OpAlertAction (WebInterface.mkActionRequest (Some 1) None);
              OpClock 6; OpGetLiveSignals 999] in
  In r (live_signals (committed (run self ops w)))
  /\ (forall s : Signal,
        In s (live_signals (committed (run self ops w))) ->
        sig_id s = sig_id r -> s = r /\ sig_processed s = true)
  /\ ~ In (sig_id r) (map WebInterface.sd_id (deliveries self ops w)).
Proof.
  intros self r w ops.
  apply (processed_is_monotonic self ops w r).
  - reflexivity.
  - simpl. constructor; [|constructor; [|constructor]]; simpl.
    + intros [H|H]; [discriminate H|exact H].
    + intros H; exact H.
  - simpl. left. reflexivity.
  - reflexivity.
Defined.


(** The scenario of section 8 for the description, on a new
    file_activity.db and on the connection of the service. *)
Lemma alert_description_text_witness :
  let action := "DELETE" in
  let path := "C:\Windows\System32\drivers\evil.sys" in
  let w := mkWorld FileActivityMonitor.empty_db None 0 [] true 0 None in
  let self := mkService "monitor_data.db" default_config in
  let r := MonitorService.log_activity_on self action path 0 "alice"
             "python.exe" 42 7 High 0
             (mkWorld empty_db None 1 [] true 7 None) in
  map FileActivityMonitor.al_description
    (FileActivityMonitor.alerts
       (committed (snd (FileActivityMonitor.log_activity action path 0 w))))
  = ["High-risk delete operation detected on evil.sys"]
  /\ fst r = Raise OperationalError_locked
  /\ exists d : DB,
       writer (snd r) = Some (0, d)
       /\ map al_description (alerts d)
          = ["High-risk delete operation detected"].
Proof.
  intros action path w self r.
  destruct (alert_description_text action path eq_refl eq_refl)
    as [A [B _]].
  split.
  - apply (A 0 w); [split; reflexivity|reflexivity|reflexivity].
  - destruct (B self 0 "alice" "python.exe" 42 7 0
                (mkWorld empty_db None 1 [] true 7 None)
                eq_refl eq_refl (Nat.lt_0_succ 0) eq_refl)
      as [R [_ [d [W D]]]].
    split; [exact R|]. exists d. split; [exact W|exact D].
Defined.



(* ================================================================== *)
(** * Further properties of the code *)
(* ================================================================== *)

(** ** Ordered and limited queries *)

Lemma insert_desc_perm {A} (key : A -> nat) (x : A) (l : list A) :
  Permutation (insert_desc key x l) (x :: l).
Proof.
  induction l as [|y t IH]; simpl; [apply Permutation_refl|].
  destruct (Nat.leb (key x) (key y)).
  - eapply perm_trans; [apply perm_skip, IH|apply perm_swap].
  - apply Permutation_refl.
Qed.

Lemma order_by_desc_perm {A} (key : A -> nat) (l : list A) :
  Permutation (order_by_desc key l) l.
Proof.
  unfold order_by_desc.
  assert (G : forall acc,
            Permutation (fold_left (fun a x => insert_desc key x a) l acc)
                        (acc ++ l)).
  { induction l as [|x t IH]; intros acc; simpl.
    - rewrite app_nil_r. apply Permutation_refl.
    - eapply perm_trans; [apply IH|].
      eapply perm_trans; [apply Permutation_app_tail, insert_desc_perm|].
      simpl. apply Permutation_middle. }
  apply (G []).
Qed.

(** Descending order of [key]: every row is at least as large as every
    row after it. *)
Lemma insert_desc_sorted {A} (key : A -> nat) (x : A) (l : list A) :
  StronglySorted (fun a b => key b <= key a) l ->
  StronglySorted (fun a b => key b <= key a) (insert_desc key x l).
Proof.
  induction l as [|y t IH]; intros Hs; simpl.
  - repeat constructor.
  - inversion Hs as [|? ? Ht Hy]; subst.
    destruct (Nat.leb (key x) (key y)) eqn:E.
    + apply Nat.leb_le in E. constructor; [apply IH, Ht|].
      rewrite Forall_forall in *. intros z Hz.
      apply (Permutation_in _ (insert_desc_perm key x t)) in Hz.
      destruct Hz as [<-|Hz]; [exact E|apply Hy, Hz].
    + apply Nat.leb_gt in E. constructor; [exact Hs|].
      constructor; [lia|].
      rewrite Forall_forall in *. intros z Hz. specialize (Hy z Hz). lia.
Qed.

Lemma order_by_desc_sorted {A} (key : A -> nat) (l : list A) :
  StronglySorted (fun a b => key b <= key a) (order_by_desc key l).
Proof.
  unfold order_by_desc.
  assert (G : forall acc,
            StronglySorted (fun a b => key b <= key a) acc ->
            StronglySorted (fun a b => key b <= key a)
              (fold_left (fun a x => insert_desc key x a) l acc)).
  { induction l as [|x t IH]; intros acc Ha; simpl; [exact Ha|].
    apply IH, insert_desc_sorted, Ha. }
  apply G. constructor.
Qed.

Lemma sorted_split {A} (R : A -> A -> Prop) (a b : list A) :
  StronglySorted R (a ++ b) ->
  StronglySorted R a /\ forall x y, In x a -> In y b -> R x y.
Proof.
  induction a as [|h t IH]; simpl; intros Hs.
  - split; [constructor|]. intros x y [].
  - inversion Hs as [|? ? Ht Hh]; subst.
    destruct (IH Ht) as [S1 S2]. split.
    + constructor; [exact S1|].
      rewrite Forall_forall in *. intros z Hz. apply Hh, in_or_app. tauto.
    + intros x y [<-|Hx] Hy; [|apply S2; assumption].
      rewrite Forall_forall in Hh. apply Hh, in_or_app. tauto.
Qed.

(** What a query [ORDER BY key DESC LIMIT limit] returns: with a limit
    that is not negative, the [limit] rows of largest key (all rows when
    there are fewer), largest first; with a negative one, every row. *)
Lemma order_limit_spec {A} (key : A -> nat) (limit : Z) (l : list A) :
  let res := sql_limit limit (order_by_desc key l) in
  StronglySorted (fun a b => key b <= key a) res
  /\ (exists rest, Permutation (res ++ rest) l
                   /\ forall x y, In x res -> In y rest -> key y <= key x)
  /\ ((0 <= limit)%Z -> length res = Nat.min (Z.to_nat limit) (length l))
  /\ ((limit < 0)%Z -> Permutation res l).
Proof.
  intros res. subst res. unfold sql_limit.
  pose proof (order_by_desc_sorted key l) as Hs.
  pose proof (order_by_desc_perm key l) as Hp.
  destruct (Z.ltb limit 0) eqn:E.
  - apply Z.ltb_lt in E. split; [exact Hs|]. split; [|split].
    + exists []. rewrite app_nil_r. split; [exact Hp|]. intros x y _ [].
    + lia.
    + intros _. exact Hp.
  - apply Z.ltb_ge in E.
    rewrite <- (firstn_skipn (Z.to_nat limit) (order_by_desc key l)) in Hs, Hp.
    destruct (sorted_split _ _ _ Hs) as [S1 S2].
    split; [exact S1|]. split; [|split].
    + exists (skipn (Z.to_nat limit) (order_by_desc key l)).
      split; [exact Hp|]. intros x y Hx Hy. apply (S2 x y Hx Hy).
    + intros _. rewrite length_firstn.
      rewrite firstn_skipn in Hp.
      rewrite (Permutation_length Hp). reflexivity.
    + lia.
Qed.

(** ** Loading the configuration *)

Lemma dict_get_app (k : string) (a b : Dict) :
  dict_get k (a ++ b)%list
  = match dict_get k a with Some v => Some v | None => dict_get k b end.
Proof.
  induction a as [|[k' v'] t IH]; simpl; [reflexivity|].
  destruct (String.eqb k' k); [reflexivity|exact IH].
Qed.

(** Merging into a dictionary never raises; a key of the dictionary keeps
    its value, any other key takes the value of the defaults. *)
Lemma merge_defaults_object (defaults d : Dict) :
  exists d',
    ConfigLoader.merge_defaults defaults (JsObject d) = Some (JsObject d')
    /\ forall k, dict_get k d'
                 = match dict_get k d with
                   | Some v => Some v
                   | None => dict_get k defaults
                   end.
Proof.
  revert d. induction defaults as [|[key value] rest IH]; intros d; simpl.
  - exists d. split; [reflexivity|]. intros k. destruct (dict_get k d); reflexivity.
  - unfold dict_has. destruct (dict_get key d) as [v0|] eqn:E; simpl.
    + destruct (IH d) as [d' [M G]]. exists d'. split; [exact M|].
      intros k. rewrite G. destruct (dict_get k d) eqn:Ek; [reflexivity|].
      destruct (String.eqb key k) eqn:Ekk; [|reflexivity].
      apply String.eqb_eq in Ekk. subst. congruence.
    + destruct (IH (d ++ [(key, value)])%list) as [d' [M G]].
      exists d'. split; [exact M|].
      intros k. rewrite G, dict_get_app. simpl.
      destruct (dict_get k d); [reflexivity|].
      destruct (String.eqb key k); reflexivity.
Qed.

(** X1.  When the configuration file holds a JSON object, [load_config]
    returns a dictionary in which every key of the file has the value of
    the file, whole, and every other key has the value of the defaults,
    if they have one; the file itself is not rewritten. *)
Theorem load_config_merges_top_level_keys :
  forall (d : Dict),
    exists d' : Dict,
      ConfigLoader.load_config (ConfigLoader.FileParsed (JsObject d))
      = (JsObject d', ConfigLoader.FileParsed (JsObject d))
      /\ forall k : string,
           dict_get k d'
           = match dict_get k d with
             | Some v => Some v
             | None => dict_get k ConfigLoader.default_items
             end.
Proof.
  intros d.
  destruct (merge_defaults_object ConfigLoader.default_items d) as [d' [M G]].
  exists d'. split; [|exact G].
  unfold ConfigLoader.load_config. rewrite M. reflexivity.
Qed.

(** X3.  Without a file, with a file that cannot be read or parsed, and
    with a file that holds a number, a truth value or null, [load_config]
    returns the defaults, which give the service the default
    configuration; a missing file is written when it can be; and loading
    again, from the file as the first load left it, returns the same
    configuration and leaves the file alone. *)
Theorem load_config_falls_back_and_is_stable :
  forall (file : ConfigLoader.ConfigFile),
    (match file with
     | ConfigLoader.FileAbsent _ | ConfigLoader.FileUnreadable
     | ConfigLoader.FileParsed JsNull
     | ConfigLoader.FileParsed (JsBool _)
     | ConfigLoader.FileParsed (JsNumber _) =>
         fst (ConfigLoader.load_config file) = ConfigLoader.default_json
     | _ => True
     end)
    /\ ConfigLoader.config_of_json ConfigLoader.default_json
       = Some default_config
    /\ snd (ConfigLoader.load_config (ConfigLoader.FileAbsent true))
       = ConfigLoader.FileParsed ConfigLoader.default_json
    /\ ConfigLoader.load_config (snd (ConfigLoader.load_config file))
       = (fst (ConfigLoader.load_config file),
          snd (ConfigLoader.load_config file)).
Proof.
  intros file. split; [|split; [|split]].
  - destruct file as [[]| |[]]; try exact I; reflexivity.
  - reflexivity.
  - reflexivity.
  - destruct file as [[]| |j]; try reflexivity.
    assert (E : snd (ConfigLoader.load_config (ConfigLoader.FileParsed j))
                = ConfigLoader.FileParsed j).
    { unfold ConfigLoader.load_config.
      destruct (ConfigLoader.merge_defaults ConfigLoader.default_items j);
        reflexivity. }
    rewrite E. rewrite <- E at 3. apply surjective_pairing.
Qed.

(** ** The status loop and the status the dashboard shows *)

Lemma select_status_replace (status : string) (ts : nat)
    (paths : list string) (d : DB) :
  WebReads.select_status (snd (replace_status status ts paths d))
  = Some (mkStatusRow 1 status ts paths (length (file_activities d))
            (count_new_alerts d)).
Proof.
  unfold WebReads.select_status. simpl.
  induction (service_status d) as [|x t IH]; simpl; [reflexivity|].
  destruct (Nat.eqb (ss_id x) 1) eqn:E; simpl; [exact IH|].
  rewrite E. exact IH.
Qed.

(** One turn of the loop: a status update that is written, or one that
    finds the lock taken and is given up; either way the turn returns. *)
Lemma status_turn (self : Service) (w : World DB) :
  quiet w ->
  try_except
    (MonitorService.update_service_status self "Running" ;;;
     sleep (sync_interval (config self)))
    (fun e => sleep 5) w
  = (Ok tt,
     match busy w with
     | true :: rest =>
         mkWorld (committed w) None (S (next_conn w)) rest true
                 (clock w + 5) (process w)
     | _ =>
         mkWorld (snd (replace_status "Running" (clock w)
                         (watch_paths (config self)) (committed w)))
                 None (S (next_conn w)) (tl (busy w)) true
                 (clock w + sync_interval (config self)) (process w)
     end).
Proof.
  intros Hq. unfold try_except, bind.
  rewrite (update_service_status_quiet self "Running" w Hq).
  destruct (busy w) as [|[] rest]; reflexivity.
Qed.

Lemma free_within_busy (n : nat) (rest : list bool) :
  free_within (S n) (true :: rest) = free_within n rest.
Proof. reflexivity. Qed.

Lemma status_update_loop_run (self : Service) (n : nat) :
  forall (w : World DB) (a c : nat),
    quiet w ->
    a = length (file_activities (committed w)) ->
    c = count_new_alerts (committed w) ->
    let r := StatusLoop.status_update_loop self n w in
    fst r = Ok tt
    /\ quiet (snd r)
    /\ busy (snd r) = skipn n (busy w)
    /\ file_activities (committed (snd r)) = file_activities (committed w)
    /\ alerts (committed (snd r)) = alerts (committed w)
    /\ live_signals (committed (snd r)) = live_signals (committed w)
    /\ (free_within n (busy w) = true
        \/ (exists t, WebReads.select_status (committed w)
                      = Some (running_row self t a c)) ->
        exists t, WebReads.select_status (committed (snd r))
                  = Some (running_row self t a c)).
Proof.
  induction n as [|n IH]; intros w a c Hq Ha Hc r; subst r.
  - simpl. repeat split; try reflexivity; try exact Hq.
    intros [H|H]; [discriminate H|exact H].
  - assert (E : StatusLoop.status_update_loop self (S n) w
                = StatusLoop.status_update_loop self n
                    (snd (try_except
                            (MonitorService.update_service_status self "Running" ;;;
                             sleep (sync_interval (config self)))
                            (fun e => sleep 5) w))).
    { cbn [StatusLoop.status_update_loop]. unfold bind at 1.
      rewrite (status_turn self w Hq). reflexivity. }
    rewrite E, (status_turn self w Hq). clear E. cbn [snd].
    destruct (busy w) as [|[] rest] eqn:Eb.
    + (* the lock is free *)
      match goal with
      | |- context [StatusLoop.status_update_loop self n ?w1] =>
          destruct (IH w1 a c eq_refl Ha
                      ltac:(rewrite Hc; reflexivity))
            as [I1 [I2 [I3 [I4 [I5 [I6 I7]]]]]]
      end.
      cbv zeta in I1, I2, I3, I4, I5, I6, I7. cbn [tl] in *.
      split; [exact I1|]. split; [exact I2|].
      split; [rewrite I3; cbn [busy]; destruct n; reflexivity|].
      split; [exact I4|]. split; [exact I5|]. split; [exact I6|].
      intros _. apply I7. right. exists (clock w).
      cbn [committed]. rewrite select_status_replace, Ha, Hc. reflexivity.
    + (* the lock is taken: the turn is given up *)
      match goal with
      | |- context [StatusLoop.status_update_loop self n ?w1] =>
          destruct (IH w1 a c eq_refl Ha Hc)
            as [I1 [I2 [I3 [I4 [I5 [I6 I7]]]]]]
      end.
      cbv zeta in I1, I2, I3, I4, I5, I6, I7. cbn [committed] in *.
      split; [exact I1|]. split; [exact I2|].
      split; [rewrite I3; reflexivity|].
      split; [exact I4|]. split; [exact I5|]. split; [exact I6|].
      intros H. apply I7. rewrite free_within_busy in H. exact H.
    + (* the lock is free *)
      match goal with
      | |- context [StatusLoop.status_update_loop self n ?w1] =>
          destruct (IH w1 a c eq_refl Ha
                      ltac:(rewrite Hc; reflexivity))
            as [I1 [I2 [I3 [I4 [I5 [I6 I7]]]]]]
      end.
      cbv zeta in I1, I2, I3, I4, I5, I6, I7. cbn [tl] in *.
      split; [exact I1|]. split; [exact I2|].
      split; [rewrite I3; reflexivity|].
      split; [exact I4|]. split; [exact I5|]. split; [exact I6|].
      intros _. apply I7. right. exists (clock w).
      cbn [committed]. rewrite select_status_replace, Ha, Hc. reflexivity.
Qed.

(** X4.  The status loop never raises: a turn that finds the write lock
    taken is given up and the loop goes on.  Each turn makes one attempt;
    the activity, alert and signal tables are not touched; and when one of
    the turns finds the lock free, the status row of id 1 says Running,
    with the counts of the two tables. *)
Theorem status_update_loop_survives_contention :
  forall (self : Service) (iterations : nat) (w : World DB),
    quiet w ->
    let r := StatusLoop.status_update_loop self iterations w in
    fst r = Ok tt
    /\ quiet (snd r)
    /\ busy (snd r) = skipn iterations (busy w)
    /\ file_activities (committed (snd r)) = file_activities (committed w)
    /\ alerts (committed (snd r)) = alerts (committed w)
    /\ live_signals (committed (snd r)) = live_signals (committed w)
    /\ (free_within iterations (busy w) = true ->
        exists t : nat,
          WebReads.select_status (committed (snd r))
          = Some (running_row self t
                    (length (file_activities (committed w)))
                    (count_new_alerts (committed w)))).
Proof.
  intros self n w Hq r. subst r.
  destruct (status_update_loop_run self n w _ _ Hq eq_refl eq_refl)
    as [I1 [I2 [I3 [I4 [I5 [I6 I7]]]]]].
  repeat split; try assumption.
  intros H. apply I7. left. exact H.
Qed.

Lemma status_update_loop_survives_contention_witness :
  let self := mkService "monitor_data.db" default_config in
  let w := mkWorld empty_db None 0 [true; false; true] true 10 None in
  let r := StatusLoop.status_update_loop self 3 w in
  fst r = Ok tt
  /\ quiet (snd r)
  /\ busy (snd r) = []
  /\ exists t : nat,
       WebReads.select_status (committed (snd r))
       = Some (running_row self t 0 0).
Proof.
  intros self w r.
  destruct (status_update_loop_survives_contention self 3 w eq_refl)
    as [A [B [C [_ [_ [_ D]]]]]].
  split; [exact A|]. split; [exact B|]. split; [exact C|].
  apply D. reflexivity.
Defined.

Ltac exec_reads :=
  repeat (cbv beta iota zeta delta
            [bind ret raise try_except try_finally connect view query execute
             commit close with_conn now
             committed writer next_conn busy db_file clock process
             fst snd tl bind_int
             WebInterface.get_db_connection
             WebReads.get_service_status WebReads.get_recent_activities
             WebReads.get_alerts WebReads.api_activities
             FileMonitorService.get_recent_activities
             FileMonitorService.get_recent_alerts
             AppRoutes.get_real_activities AppRoutes.get_real_alerts
             AppRoutes.api_stats AppRoutes.investigate_alert];
          rewrite ?Nat.eqb_refl, ?eqb_succ_r, ?eqb_succ_l).

(** The reads of the dashboard when no call of the process is in
    progress: they return what the query gives on the committed content
    and leave it as it is. *)
Lemma get_service_status_quiet (w : World DB) :
  quiet w -> db_file w = true ->
  WebReads.get_service_status w
  = (Ok match WebReads.select_status (committed w) with
        | Some r =>
            WebReads.StatusInfo (ss_status r) (ss_last_update r)
              (ss_monitored_paths r) (ss_total_activities r)
              (ss_alerts_count r)
        | None =>
            WebReads.StatusMessage "Unknown" "No status data available"
        end,
     mkWorld (committed w) None (S (next_conn w)) (busy w) true
             (clock w) (process w)).
Proof.
  destruct w as [d wr nc b f clk p]; unfold quiet; simpl; intros -> ->.
  exec_reads. destruct (WebReads.select_status d); reflexivity.
Qed.

Lemma int64_range (n : Z) :
  int64 n = true <-> (- 2 ^ 63 <= n < 2 ^ 63)%Z.
Proof.
  unfold int64. rewrite andb_true_iff, Z.leb_le, Z.ltb_lt. reflexivity.
Qed.

Lemma get_recent_activities_quiet (limit : Z) (w : World DB) :
  quiet w -> db_file w = true ->
  WebReads.get_recent_activities limit w
  = (Ok (if int64 limit
         then sql_limit limit
                (order_by_desc act_created_at (file_activities (committed w)))
         else []),
     mkWorld (committed w) None (S (next_conn w)) (busy w) true
             (clock w) (process w)).
Proof.
  destruct w as [d wr nc b f clk p]; unfold quiet; simpl; intros -> ->.
  exec_reads. destruct (int64 limit); exec_reads; reflexivity.
Qed.

Lemma get_alerts_quiet (status_filter : option string) (w : World DB) :
  quiet w -> db_file w = true ->
  WebReads.get_alerts status_filter w
  = (Ok (order_by_desc al_created_at
           match WebReads.truthy_filter status_filter with
           | Some s => filter (fun a => String.eqb (al_status a) s)
                              (alerts (committed w))
           | None => alerts (committed w)
           end),
     mkWorld (committed w) None (S (next_conn w)) (busy w) true
             (clock w) (process w)).
Proof.
  destruct w as [d wr nc b f clk p]; unfold quiet; simpl; intros -> ->.
  exec_reads. destruct (WebReads.truthy_filter status_filter); reflexivity.
Qed.

(** X5.  A status update that gets the write lock is what the dashboard
    shows next: [get_service_status] returns the status just written, the
    time of the update, the watch paths of the configuration, and the two
    counts as the tables were at the update. *)
Theorem get_service_status_after_update :
  forall (self : Service) (status : string) (w : World DB),
    idle w ->
    let w1 := snd (MonitorService.update_service_status self status w) in
    fst (WebReads.get_service_status w1)
    = Ok (WebReads.StatusInfo status (clock w) (watch_paths (config self))
            (length (file_activities (committed w)))
            (count_new_alerts (committed w))).
Proof.
  intros self status w [Hq Hb] w1. subst w1.
  rewrite (update_service_status_quiet self status w Hq), Hb.
  cbn [snd].
  rewrite get_service_status_quiet by reflexivity.
  cbn [fst committed]. rewrite select_status_replace. reflexivity.
Qed.

Lemma get_service_status_after_update_witness :
  let self := mkService "monitor_data.db" default_config in
  let w := mkWorld (mkDB [] [] [] [mkStatusRow 1 "Starting" 2 [] 0 0] 0 0 0)
                   None 0 [] true 7 None in
  fst (WebReads.get_service_status
         (snd (MonitorService.update_service_status self "Stopped" w)))
  = Ok (WebReads.StatusInfo "Stopped" 7 (watch_paths (config self)) 0 0).
Proof.
  intros self w.
  apply (get_service_status_after_update self "Stopped" w).
  split; reflexivity.
Defined.

(** X6.  While monitor_data.db does not exist, the dashboard does not
    create it: each of its reads and the alert action answers that there
    is nothing (Disconnected, the empty list, no success) and leaves the
    world as it is. *)
Theorem dashboard_without_database :
  forall (w : World DB) (limit : Z) (status_filter : option string)
         (req : WebInterface.ActionRequest) (max_variables : nat),
    db_file w = false ->
    WebReads.get_service_status w
    = (Ok (WebReads.StatusMessage "Disconnected" "Monitor service not running"),
       w)
    /\ WebReads.get_recent_activities limit w = (Ok [], w)
    /\ WebReads.get_alerts status_filter w = (Ok [], w)
    /\ WebInterface.get_live_signals max_variables w = (Ok [], w)
    /\ WebInterface.api_alert_action req w
       = (Ok (WebInterface.mkActionResponse false
                "Monitor service not available" None), w).
Proof.
  intros w limit status_filter req max_variables Hf.
  unfold WebReads.get_service_status, WebReads.get_recent_activities,
    WebReads.get_alerts, WebInterface.get_live_signals,
    WebInterface.api_alert_action, bind, WebInterface.get_db_connection.
  rewrite Hf. repeat split.
Qed.

Lemma dashboard_without_database_witness :
  let w := mkWorld empty_db None 0 [] false 0 None in
  WebReads.get_service_status w
  = (Ok (WebReads.StatusMessage "Disconnected" "Monitor service not running"),
     w)
  /\ WebReads.get_recent_activities 50 w = (Ok [], w)
  /\ WebReads.get_alerts None w = (Ok [], w)
  /\ WebInterface.get_live_signals 999 w = (Ok [], w)
  /\ WebInterface.api_alert_action
       (WebInterface.mkActionRequest (Some 1) (Some "resolve")) w
     = (Ok (WebInterface.mkActionResponse false
              "Monitor service not available" None), w).
Proof.
  intros w.
  apply (dashboard_without_database w 50 None
           (WebInterface.mkActionRequest (Some 1) (Some "resolve")) 999).
  reflexivity.
Defined.

(** X7.  [get_recent_activities(limit)] of the dashboard, with the
    database present.  For a limit SQLite can take, an integer of 64 bits,
    the rows come newest first by [created_at]; with a limit that is not
    negative they are the [limit] newest rows of the table, or all of them
    when the table has fewer; with a negative limit they are all the rows.
    For any other limit the call returns the empty list.  Without a limit
    in the query string the endpoint returns at most 50 rows.  The
    database is not changed. *)
Theorem get_recent_activities_newest_first :
  forall (limit : Z) (w : World DB),
    quiet w -> db_file w = true ->
    let r := WebReads.get_recent_activities limit w in
    committed (snd r) = committed w
    /\ ((limit < - 2 ^ 63)%Z \/ (2 ^ 63 <= limit)%Z -> fst r = Ok [])
    /\ ((- 2 ^ 63 <= limit < 2 ^ 63)%Z ->
        exists rows : list Activity,
          fst r = Ok rows
          /\ StronglySorted
               (fun a b => act_created_at b <= act_created_at a) rows
          /\ (exists rest,
                Permutation (rows ++ rest) (file_activities (committed w))
                /\ forall x y, In x rows -> In y rest ->
                               act_created_at y <= act_created_at x)
          /\ ((0 <= limit)%Z ->
              length rows
              = Nat.min (Z.to_nat limit)
                  (length (file_activities (committed w))))
          /\ ((limit < 0)%Z ->
              Permutation rows (file_activities (committed w))))
    /\ (exists rows50,
          fst (WebReads.api_activities None w) = Ok rows50
          /\ length rows50 <= 50).
Proof.
  intros limit w Hq Hf r. subst r.
  rewrite (get_recent_activities_quiet limit w Hq Hf).
  cbn [fst snd committed].
  split; [reflexivity|]. split; [|split].
  - intros H. destruct (int64 limit) eqn:E; [|reflexivity].
    apply int64_range in E. lia.
  - intros H. apply int64_range in H. rewrite H.
    eexists. split; [reflexivity|].
    destruct (order_limit_spec act_created_at limit
                (file_activities (committed w))) as [A [B [C D]]].
    split; [exact A|]. split; [exact B|]. split; [exact C|exact D].
  - unfold WebReads.api_activities.
    rewrite (get_recent_activities_quiet 50 w Hq Hf).
    eexists. split; [reflexivity|].
    destruct (order_limit_spec act_created_at 50
                (file_activities (committed w))) as [_ [_ [C' _]]].
    cbv zeta in C'.
    replace (int64 50) with true by reflexivity.
    rewrite C' by lia. apply Nat.le_min_l.
Qed.

Lemma get_recent_activities_newest_first_witness :
  let a1 := mkActivity 1 3 "alice" "python.exe" 42 "CREATE" "C:\a.txt" 0
              Low "New" 3 in
  let a2 := mkActivity 2 9 "alice" "python.exe" 42 "MODIFY" "C:\a.txt" 5
              Low "New" 9 in
  let w := mkWorld (mkDB [a1; a2] [] [] [] 2 0 0) None 0 [] true 10 None in
  (exists rows : list Activity,
     fst (WebReads.get_recent_activities 1 w) = Ok rows
     /\ length rows = 1
     /\ StronglySorted (fun a b => act_created_at b <= act_created_at a) rows)
  /\ fst (WebReads.get_recent_activities (2 ^ 63) w) = Ok [].
Proof.
  intros a1 a2 w. split.
  - destruct (get_recent_activities_newest_first 1 w eq_refl eq_refl)
      as [_ [_ [A _]]].
    destruct A as [rows [E [S [_ [C _]]]]]; [lia|].
    exists rows. split; [exact E|]. split; [|exact S].
    rewrite C by lia. reflexivity.
  - destruct (get_recent_activities_newest_first (2 ^ 63) w eq_refl eq_refl)
      as [_ [A _]].
    apply A. right. lia.
Defined.

(** ** Alerts as the dashboard lists them *)

(** X8.  [get_alerts(status_filter)], with the database present: with a
    filter that is not the empty string the result holds the alerts of
    that status, all of them and no other; with no filter, or with the
    empty string, it holds every alert; in both cases newest first by
    [created_at], and the database is not changed. *)
Theorem get_alerts_filters_by_status :
  forall (status_filter : option string) (w : World DB),
    quiet w -> db_file w = true ->
    let r := WebReads.get_alerts status_filter w in
    exists rows : list Alert,
      fst r = Ok rows
      /\ committed (snd r) = committed w
      /\ StronglySorted (fun a b => al_created_at b <= al_created_at a) rows
      /\ (forall s : string,
            status_filter = Some s -> s <> "" ->
            Permutation rows
              (filter (fun a => String.eqb (al_status a) s)
                 (alerts (committed w)))
            /\ forall a, In a rows <->
                         In a (alerts (committed w)) /\ al_status a = s)
      /\ (status_filter = None \/ status_filter = Some "" ->
          Permutation rows (alerts (committed w))).
Proof.
  intros status_filter w Hq Hf r. subst r.
  rewrite (get_alerts_quiet status_filter w Hq Hf).
  eexists. split; [reflexivity|]. split; [reflexivity|].
  split; [apply order_by_desc_sorted|]. split.
  - intros s -> Hs.
    assert (T : WebReads.truthy_filter (Some s) = Some s)
      by (destruct s; [congruence|reflexivity]).
    rewrite T. split; [apply order_by_desc_perm|].
    intros a. split.
    + intros H. apply (Permutation_in _ (order_by_desc_perm _ _)) in H.
      apply filter_In in H as [H1 H2]. apply String.eqb_eq in H2. tauto.
    + intros [H1 H2].
      apply (Permutation_in _ (Permutation_sym (order_by_desc_perm _ _))).
      apply filter_In. split; [exact H1|]. apply String.eqb_eq, H2.
  - intros [->| ->]; apply order_by_desc_perm.
Qed.

Lemma get_alerts_filters_by_status_witness :
  let a1 := mkAlert 1 4 "alice" "High-risk delete operation detected"
              "C:\a.txt" High "New" 4 in
  let a2 := mkAlert 2 5 "alice" "High-risk move operation detected"
              "C:\b.txt" High "Resolved" 5 in
  let w := mkWorld (mkDB [] [a1; a2] [] [] 0 2 0) None 0 [] true 6 None in
  exists rows : list Alert,
    fst (WebReads.get_alerts (Some "Resolved") w) = Ok rows
    /\ Permutation rows [a2].
Proof.
  intros a1 a2 w.
  destruct (get_alerts_filters_by_status (Some "Resolved") w eq_refl eq_refl)
    as [rows [E [_ [_ [F _]]]]].
  exists rows. split; [exact E|].
  destruct (F "Resolved" eq_refl) as [P _]; [discriminate|exact P].
Defined.

Lemma set_alert_status_in (status : string) (alert_id : nat)
    (l : list Alert) (a : Alert) :
  In a (map (set_alert_status status (Some alert_id)) l) ->
  al_id a = alert_id -> al_status a = status.
Proof.
  intros H E. apply in_map_iff in H as [x [Hx _]]. subst a.
  unfold set_alert_status in *.
  destruct (Nat.eqb (al_id x) alert_id) eqn:B; [reflexivity|].
  apply Nat.eqb_neq in B. contradiction.
Qed.

(** X9.  An alert action and the list compose: after an action of the
    mapping on an alert that exists, with the lock free, the list of the
    alerts of the new status shows that alert, its other columns as they
    were, and the list of any other status shows no alert of that id. *)
Theorem alert_action_then_get_alerts :
  forall (alert_id : nat) (action status : string) (w : World DB) (a : Alert),
    spec_status_of action = Some status ->
    idle w -> db_file w = true ->
    In a (alerts (committed w)) -> al_id a = alert_id ->
    let w1 := snd (WebInterface.api_alert_action
                     (WebInterface.mkActionRequest (Some alert_id)
                        (Some action)) w) in
    (exists rows a',
       fst (WebReads.get_alerts (Some status) w1) = Ok rows
       /\ In a' rows /\ same_but_status a a' /\ al_status a' = status)
    /\ (forall other : string,
          other <> status -> other <> "" ->
          exists rows,
            fst (WebReads.get_alerts (Some other) w1) = Ok rows
            /\ forall x, In x rows -> al_id x <> alert_id).
Proof.
  intros alert_id action status w a Hs [Hq Hb] Hf Ha Hid w1. subst w1.
  rewrite (api_alert_action_quiet _ w Hq), Hf, Hb. cbv zeta.
  cbn [WebInterface.req_action WebInterface.req_alert_id snd].
  rewrite (spec_status_is_status_map action status Hs).
  assert (Hne : status <> "").
  { unfold spec_status_of in Hs.
    repeat match type of Hs with
           | (if ?c then _ else _) = _ => destruct c
           end; inversion Hs; discriminate. }
  assert (T : forall s, s <> "" -> WebReads.truthy_filter (Some s) = Some s)
    by (intros s Hs'; destruct s; [congruence|reflexivity]).
  split.
  - rewrite get_alerts_quiet by reflexivity. rewrite (T _ Hne).
    eexists. exists (set_alert_status status (Some alert_id) a).
    split; [reflexivity|].
    assert (Hst : al_status (set_alert_status status (Some alert_id) a) = status).
    { unfold set_alert_status. rewrite Hid, Nat.eqb_refl. reflexivity. }
    split; [|split; [|exact Hst]].
    + apply (Permutation_in _ (Permutation_sym (order_by_desc_perm _ _))).
      apply filter_In. split; [|apply String.eqb_eq, Hst].
      cbn [committed update_alert_status snd alerts]. apply in_map, Ha.
    + unfold set_alert_status, same_but_status.
      rewrite Hid, Nat.eqb_refl. simpl. repeat split.
  - intros other Ho Hoe.
    rewrite get_alerts_quiet by reflexivity. rewrite (T _ Hoe).
    eexists. split; [reflexivity|].
    intros x Hx Hxid.
    apply (Permutation_in _ (order_by_desc_perm _ _)) in Hx.
    apply filter_In in Hx as [H1 H2]. apply String.eqb_eq in H2.
    cbn [committed update_alert_status snd alerts] in H1.
    apply (set_alert_status_in status alert_id _ x H1) in Hxid. congruence.
Qed.

Lemma alert_action_then_get_alerts_witness :
  let a := mkAlert 1 4 "alice" "High-risk delete operation detected"
             "C:\a.txt" High "New" 4 in
  let w := mkWorld (mkDB [] [a] [] [] 0 1 0) None 0 [] true 6 None in
  let w1 := snd (WebInterface.api_alert_action
                   (WebInterface.mkActionRequest (Some 1)
                      (Some "acknowledge")) w) in
  (exists rows a',
     fst (WebReads.get_alerts (Some "Acknowledged") w1) = Ok rows
     /\ In a' rows /\ same_but_status a a' /\ al_status a' = "Acknowledged")
  /\ (exists rows,
        fst (WebReads.get_alerts (Some "New") w1) = Ok rows
        /\ forall x, In x rows -> al_id x <> 1).
Proof.
  intros a w w1.
  destruct (alert_action_then_get_alerts 1 "acknowledge" "Acknowledged" w a
              eq_refl (conj eq_refl eq_refl) eq_refl
              (or_introl eq_refl) eq_refl) as [A B].
  split; [exact A|]. apply (B "New"); discriminate.
Defined.

(** ** Signals from the producer to the consumer *)

Lemma all_marked (l : list Signal) :
  filter (fun s => negb (sig_processed s))
    (map (mark_processed
            (map sig_id (filter (fun s => negb (sig_processed s)) l))) l)
  = [].
Proof.
  assert (G : forall ids,
            (forall s, In s l -> sig_processed s = false -> In (sig_id s) ids) ->
            filter (fun s => negb (sig_processed s))
                   (map (mark_processed ids) l) = []).
  { intros ids. induction l as [|x t IH]; intros H; simpl; [reflexivity|].
    rewrite IH by (intros s Hs; apply H; right; exact Hs).
    unfold mark_processed.
    destruct (existsb (Nat.eqb (sig_id x)) ids) eqn:E; simpl; [reflexivity|].
    destruct (sig_processed x) eqn:P; simpl; [reflexivity|].
    assert (I : In (sig_id x) ids) by (apply H; [left; reflexivity|exact P]).
    apply existsb_eqb_in in I. congruence. }
  apply G. intros s Hs Hp. apply in_map, filter_In.
  split; [exact Hs|]. rewrite Hp. reflexivity.
Qed.

Lemma mark_processed_same_ids (ids ids' : list nat) (rows : list Signal) :
  (forall i, In i ids <-> In i ids') ->
  map (mark_processed ids) rows = map (mark_processed ids') rows.
Proof.
  intros H. apply map_ext. intros s. unfold mark_processed.
  destruct (existsb (Nat.eqb (sig_id s)) ids) eqn:E1;
    destruct (existsb (Nat.eqb (sig_id s)) ids') eqn:E2; try reflexivity.
  - apply existsb_eqb_in, H, existsb_eqb_in in E1. congruence.
  - apply existsb_eqb_in, H, existsb_eqb_in in E2. congruence.
Qed.

Lemma select_unprocessed_after_marking (d : DB) :
  select_unprocessed
    (snd (update_processed (map sig_id (select_unprocessed d)) d)) = [].
Proof.
  unfold select_unprocessed at 1. cbn [update_processed snd live_signals].
  rewrite (mark_processed_same_ids
             (map sig_id (select_unprocessed d))
             (map sig_id (filter (fun s => negb (sig_processed s))
                            (live_signals d)))).
  - rewrite all_marked. reflexivity.
  - intros i. unfold select_unprocessed. split; intros H;
      apply in_map_iff in H as [s [E Hs]]; apply in_map_iff; exists s;
      (split; [exact E|]).
    + apply (Permutation_in _ (order_by_timestamp_perm _)), Hs.
    + apply (Permutation_in _ (Permutation_sym (order_by_timestamp_perm _))), Hs.
Qed.

Lemma unprocessed_count_insert (ty : string) (data : option JObj)
    (ts : nat) (d : DB) :
  unprocessed_count (snd (insert_signal ty data ts d))
  = S (unprocessed_count d).
Proof.
  unfold unprocessed_count. cbn [insert_signal snd live_signals].
  rewrite filter_app, length_app. simpl. lia.
Qed.

Lemma unprocessed_count_activity ts user pname pid action path size risk
    created (d : DB) :
  unprocessed_count
    (snd (insert_activity ts user pname pid action path size risk created d))
  = unprocessed_count d.
Proof. reflexivity. Qed.

Lemma signal_dicts_of_rows (rows : list Signal) :
  Forall2 dict_of_row rows (map WebInterface.signal_dict rows).
Proof.
  induction rows as [|x t IH]; simpl; constructor; [|exact IH].
  unfold dict_of_row. simpl. repeat split.
Qed.

(** X28.  On a database that exists and whose write lock is free, with no
    more unprocessed rows than SQLite accepts parameters in a statement,
    one call of [get_live_signals] returns the rows of [live_signals] that
    are unprocessed when it reads, each once and with its four columns, in
    ascending order of timestamp; after it every row whose id it returned
    is processed and is otherwise as before, every other row is as before,
    and the other tables are untouched. *)
Theorem get_live_signals_returns_and_marks :
  forall (max_variables : nat) (w : World DB),
    idle w -> db_file w = true ->
    unprocessed_count (committed w) <= max_variables ->
    let r := WebInterface.get_live_signals max_variables w in
    let old := live_signals (committed w) in
    exists (rows : list Signal) (l : list WebInterface.SignalDict),
      fst r = Ok l
      /\ Forall2 dict_of_row rows l
      /\ Permutation rows (filter (fun s => negb (sig_processed s)) old)
      /\ Sorted ts_le rows
      /\ Forall2 (fun s s' =>
                    (In (sig_id s) (map sig_id rows) -> s' = set_processed s)
                    /\ (~ In (sig_id s) (map sig_id rows) -> s' = s))
                 old (live_signals (committed (snd r)))
      /\ file_activities (committed (snd r)) = file_activities (committed w)
      /\ alerts (committed (snd r)) = alerts (committed w)
      /\ service_status (committed (snd r)) = service_status (committed w).
Proof.
  intros max_variables w [Hq Hb] Hf Hm r old.
  exists (select_unprocessed (committed w)),
         (map WebInterface.signal_dict (select_unprocessed (committed w))).
  assert (Hr : r = (Ok (map WebInterface.signal_dict
                          (select_unprocessed (committed w))),
                    mkWorld
                      (snd (update_processed
                              (map sig_id (select_unprocessed (committed w)))
                              (committed w)))
                      None (S (next_conn w)) [] true (clock w) (process w))).
  { subst r. rewrite (get_live_signals_quiet max_variables w Hq), Hf, Hb.
    cbv zeta. rewrite <- select_unprocessed_length in Hm.
    apply Nat.leb_le in Hm.
    destruct (select_unprocessed (committed w)) as [|x rows] eqn:E.
    - cbn [map update_processed snd]. rewrite mark_processed_nil.
      destruct (committed w); reflexivity.
    - rewrite Hm. reflexivity. }
  rewrite Hr. cbn [fst snd committed update_processed live_signals
                   file_activities alerts service_status].
  split; [reflexivity|].
  split; [apply signal_dicts_of_rows|].
  split; [apply order_by_timestamp_perm|].
  split; [apply order_by_timestamp_sorted|].
  split; [|repeat split].
  subst old.
  induction (live_signals (committed w)) as [|s t IH]; simpl; constructor;
    [|exact IH].
  unfold mark_processed, set_processed.
  destruct (existsb (Nat.eqb (sig_id s)) _) eqn:E.
  - split; [reflexivity|]. intros N. apply existsb_eqb_in in E. tauto.
  - split; [|reflexivity]. intros I. apply existsb_eqb_in in I. congruence.
Qed.

(** A queue of three rows, one of them processed, the other two out of
    timestamp order. *)
Lemma get_live_signals_returns_and_marks_witness :
  let s1 := mkSignal 1 "new_activity" None 3 true in
  let s2 := mkSignal 2 "new_alert" (Some [("risk_level", JStr "High")]) 8
              false in
  let s3 := mkSignal 3 "new_activity" None 5 false in
  let w := mkWorld (mkDB [] [] [s1; s2; s3] [] 0 0 3) None 0 [] true 9 None in
  let r := WebInterface.get_live_signals 999 w in
  fst r = Ok [WebInterface.mkSignalDict 3 "new_activity" None 5;
              WebInterface.mkSignalDict 2 "new_alert"
                (Some [("risk_level", JStr "High")]) 8]
  /\ exists (rows : list Signal) (l : list WebInterface.SignalDict),
       fst r = Ok l
       /\ Forall2 dict_of_row rows l
       /\ Permutation rows [s2; s3]
       /\ Sorted ts_le rows.
Proof.
  intros s1 s2 s3 w r. split; [vm_compute; reflexivity|].
  assert (Hm : unprocessed_count (committed w) <= 999)
    by (apply Nat.leb_le; vm_compute; reflexivity).
  destruct (get_live_signals_returns_and_marks 999 w
              (conj eq_refl eq_refl) eq_refl Hm)
    as [rows [l [A [B [C [D _]]]]]].
  exists rows, l. split; [exact A|]. split; [exact B|].
  split; [exact C|exact D].
Defined.

(** X10.  A signal sent is a signal delivered, once: after a [send_signal]
    that gets the lock, the next [get_live_signals], when the queue is
    within the parameter limit of SQLite, returns a signal with the given
    type, the time of the sending and the payload (none for an absent or
    empty payload), and the read after that returns nothing. *)
Theorem signal_sent_is_delivered_once :
  forall (self : Service) (ty : string) (data : option JObj) (w : World DB)
         (max_variables : nat),
    idle w ->
    unprocessed_count (committed w) < max_variables ->
    let w1 := snd (MonitorService.send_signal self ty data w) in
    let r1 := WebInterface.get_live_signals max_variables w1 in
    let r2 := WebInterface.get_live_signals max_variables (snd r1) in
    (exists l sd,
       fst r1 = Ok l /\ In sd l
       /\ WebInterface.sd_id sd
          = next_rowid (seq_live_signals (committed w))
              (map sig_id (live_signals (committed w)))
       /\ WebInterface.sd_signal_type sd = ty
       /\ WebInterface.sd_data sd = MonitorService.dumps_if data
       /\ WebInterface.sd_timestamp sd = clock w)
    /\ fst r2 = Ok []
    /\ (data = None \/ data = Some [] -> MonitorService.dumps_if data = None)
    /\ (forall kv rest, data = Some (kv :: rest) ->
                        MonitorService.dumps_if data = data).
Proof.
  intros self ty data w max_variables [Hq Hb] Hm w1 r1 r2. subst r2 r1 w1.
  rewrite (send_signal_quiet self ty data w Hq), Hb. cbn [snd tl].
  rewrite get_live_signals_quiet by reflexivity. cbn [db_file busy committed].
  cbv zeta.
  set (d1 := snd (insert_signal ty (MonitorService.dumps_if data) (clock w)
                    (committed w))).
  assert (Hin : In (mkSignal
                      (next_rowid (seq_live_signals (committed w))
                         (map sig_id (live_signals (committed w))))
                      ty (MonitorService.dumps_if data) (clock w) false)
                   (select_unprocessed d1)).
  { apply select_unprocessed_in. split; [|reflexivity].
    subst d1. cbn [insert_signal snd live_signals].
    apply in_or_app. right. left. reflexivity. }
  assert (L : Nat.leb (length (select_unprocessed d1)) max_variables = true).
  { apply Nat.leb_le. rewrite select_unprocessed_length. subst d1.
    rewrite unprocessed_count_insert. lia. }
  destruct (select_unprocessed d1) as [|x rows] eqn:E; [contradiction|].
  rewrite L. cbn [fst snd]. split; [|split; [|split]].
  - eexists.
    exists (WebInterface.signal_dict
              (mkSignal
                 (next_rowid (seq_live_signals (committed w))
                    (map sig_id (live_signals (committed w))))
                 ty (MonitorService.dumps_if data) (clock w) false)).
    split; [reflexivity|].
    split; [apply in_map, Hin|repeat split].
  - rewrite get_live_signals_quiet by reflexivity.
    cbn [db_file busy committed]. cbv zeta.
    rewrite <- E, select_unprocessed_after_marking. reflexivity.
  - intros [->| ->]; reflexivity.
  - intros kv rest ->. reflexivity.
Qed.

Lemma signal_sent_is_delivered_once_witness :
  let self := mkService "monitor_data.db" default_config in
  let w1 := snd (MonitorService.send_signal self "new_alert"
                   (Some [("risk_level", JStr "High")]) init_world) in
  let r1 := WebInterface.get_live_signals 999 w1 in
  (exists l sd,
     fst r1 = Ok l /\ In sd l
     /\ WebInterface.sd_id sd = 1
     /\ WebInterface.sd_signal_type sd = "new_alert"
     /\ WebInterface.sd_data sd = Some [("risk_level", JStr "High")]
     /\ WebInterface.sd_timestamp sd = 0)
  /\ fst (WebInterface.get_live_signals 999 (snd r1)) = Ok [].
Proof.
  intros self w1 r1.
  assert (Hm : unprocessed_count (committed init_world) < 999)
    by (apply Nat.ltb_lt; vm_compute; reflexivity).
  destruct (signal_sent_is_delivered_once self "new_alert"
              (Some [("risk_level", JStr "High")]) init_world 999
              (conj eq_refl eq_refl) Hm) as [A [B _]].
  split; [exact A|exact B].
Defined.

(** X11.  A read that cannot mark loses nothing: when there are
    unprocessed signals, no more than SQLite accepts parameters in a
    statement, and the write lock is taken, [get_live_signals] returns the
    empty list and leaves the rows unprocessed, and the next read that
    finds the lock free returns them, each with its four columns. *)
Theorem failed_read_keeps_signals :
  forall (max_variables : nat) (w : World DB) (rest : list bool),
    quiet w -> db_file w = true ->
    busy w = true :: rest ->
    select_unprocessed (committed w) <> [] ->
    unprocessed_count (committed w) <= max_variables ->
    let r := WebInterface.get_live_signals max_variables w in
    fst r = Ok []
    /\ committed (snd r) = committed w
    /\ (hd false rest = false ->
        exists l : list WebInterface.SignalDict,
          fst (WebInterface.get_live_signals max_variables (snd r)) = Ok l
          /\ Forall2 dict_of_row (select_unprocessed (committed w)) l).
Proof.
  intros max_variables w rest Hq Hf Hb Hne Hm r. subst r.
  rewrite (get_live_signals_quiet max_variables w Hq), Hf, Hb. cbv zeta.
  rewrite <- select_unprocessed_length in Hm. apply Nat.leb_le in Hm.
  destruct (select_unprocessed (committed w)) as [|x rows] eqn:E;
    [congruence|].
  rewrite Hm.
  cbn [fst snd committed]. split; [reflexivity|]. split; [reflexivity|].
  intros Hh.
  rewrite get_live_signals_quiet by reflexivity.
  cbn [db_file busy committed]. cbv zeta. rewrite E, Hm.
  exists (map WebInterface.signal_dict (x :: rows)).
  split; [|apply signal_dicts_of_rows].
  destruct rest as [|[] rest']; [reflexivity|discriminate Hh|reflexivity].
Qed.

Lemma failed_read_keeps_signals_witness :
  let s := mkSignal 1 "new_activity" None 3 false in
  let w := mkWorld (mkDB [] [] [s] [] 0 0 1) None 0 [true] true 5 None in
  let r := WebInterface.get_live_signals 999 w in
  fst r = Ok []
  /\ committed (snd r) = committed w
  /\ exists l : list WebInterface.SignalDict,
       fst (WebInterface.get_live_signals 999 (snd r)) = Ok l
       /\ Forall2 dict_of_row (select_unprocessed (committed w)) l.
Proof.
  intros s w r.
  assert (Hm : unprocessed_count (committed w) <= 999)
    by (apply Nat.leb_le; vm_compute; reflexivity).
  destruct (failed_read_keeps_signals 999 w [] eq_refl eq_refl eq_refl)
    as [A [B C]]; [discriminate|exact Hm|].
  split; [exact A|]. split; [exact B|]. apply C. reflexivity.
Defined.

(** X12.  An event that is not High and meets no contention is stored and
    announced: the activity row has the action, the path, the size, the
    computed risk level and the time of the call, and the next read of the
    queue, when the queue is within the parameter limit of SQLite, returns
    a [new_activity] signal whose payload carries the id of that row, the
    action, the base name of the path (not the path), the risk level and
    the time. *)
Theorem logged_activity_is_announced :
  forall (self : Service) (action path : string) (size : nat) (w : World DB)
         (max_variables : nat),
    idle w -> ascii_only path ->
    unprocessed_count (committed w) < max_variables ->
    MonitorService.assess_risk_level self path action <> High ->
    let risk := MonitorService.assess_risk_level self path action in
    let w1 := snd (MonitorService.log_activity self action path size w) in
    let i := next_rowid (seq_file_activities (committed w))
               (map act_id (file_activities (committed w))) in
    file_activities (committed w1)
    = (file_activities (committed w)
       ++ [mkActivity i (clock w) (fst (fst (process_or_unknown w)))
             (snd (fst (process_or_unknown w))) (snd (process_or_unknown w))
             action path size risk "New" (clock w)])%list
    /\ exists l sd,
         fst (WebInterface.get_live_signals max_variables w1) = Ok l
         /\ In sd l
         /\ WebInterface.sd_signal_type sd = "new_activity"
         /\ WebInterface.sd_data sd
            = Some [("id", JNum i); ("action", JStr action);
                    ("file_path", JStr (basename path));
                    ("risk_level", JStr (risk_text risk));
                    ("timestamp", JNum (clock w))].
Proof.
  intros self action path size w max_variables [Hq Hb] _ Hm Hr risk w1 i.
  subst w1.
  rewrite (log_activity_quiet self action path size w Hq).
  cbv zeta. rewrite Hb. fold risk.
  assert (G : forall data,
    let w0 := mkWorld
      (snd (insert_activity (clock w) (fst (fst (process_or_unknown w)))
              (snd (fst (process_or_unknown w))) (snd (process_or_unknown w))
              action path size risk (clock w) (committed w)))
      None (S (next_conn w)) (tl []) true (clock w) (process w) in
    let w1 := snd (MonitorService.send_signal self "new_activity"
                     (Some data) w0) in
    data <> [] ->
    file_activities (committed w1)
    = (file_activities (committed w)
       ++ [mkActivity i (clock w) (fst (fst (process_or_unknown w)))
             (snd (fst (process_or_unknown w))) (snd (process_or_unknown w))
             action path size risk "New" (clock w)])%list
    /\ exists l sd,
         fst (WebInterface.get_live_signals max_variables w1) = Ok l
         /\ In sd l
         /\ WebInterface.sd_signal_type sd = "new_activity"
         /\ WebInterface.sd_data sd = Some data).
  { intros data w0 w1 Hd. subst w1.
    rewrite send_signal_quiet by reflexivity. subst w0. cbn [busy tl snd].
    split; [reflexivity|].
    rewrite get_live_signals_quiet by reflexivity.
    cbn [db_file busy committed]. cbv zeta.
    match goal with
    | |- context [select_unprocessed ?d1] =>
        assert (Hin : In (mkSignal
                            (next_rowid (seq_live_signals (committed w))
                               (map sig_id (live_signals (committed w))))
                            "new_activity" (Some data) (clock w) false)
                         (select_unprocessed d1));
        [|assert (L : Nat.leb (length (select_unprocessed d1)) max_variables
                      = true);
          [|destruct (select_unprocessed d1) as [|x rows] eqn:E;
            [contradiction|]]]
    end.
    { apply select_unprocessed_in. split; [|reflexivity].
      cbn [insert_signal insert_activity snd live_signals
           seq_live_signals].
      apply in_or_app. right. left.
      destruct data; [congruence|reflexivity]. }
    { apply Nat.leb_le. rewrite select_unprocessed_length.
      rewrite unprocessed_count_insert, unprocessed_count_activity. lia. }
    rewrite L.
    eexists.
    exists (WebInterface.signal_dict
              (mkSignal
                 (next_rowid (seq_live_signals (committed w))
                    (map sig_id (live_signals (committed w))))
                 "new_activity" (Some data) (clock w) false)).
    split; [reflexivity|]. split; [|split; reflexivity].
    cbn [fst]. apply in_map, Hin. }
  destruct risk eqn:Er; [| |unfold risk in Er; congruence];
    apply G; discriminate.
Qed.

Lemma logged_activity_is_announced_witness :
  let self := mkService "monitor_data.db" default_config in
  let w1 := snd (MonitorService.log_activity self "MODIFY"
                   "C:\Users\a\Desktop\notes.txt" 3 init_world) in
  file_activities (committed w1)
  = [mkActivity 1 0 "Unknown" "Unknown" 0 "MODIFY"
       "C:\Users\a\Desktop\notes.txt" 3 Medium "New" 0]
  /\ exists l sd,
       fst (WebInterface.get_live_signals 999 w1) = Ok l
       /\ In sd l
       /\ WebInterface.sd_signal_type sd = "new_activity"
       /\ WebInterface.sd_data sd
          = Some [("id", JNum 1); ("action", JStr "MODIFY");
                  ("file_path", JStr "notes.txt");
                  ("risk_level", JStr "Medium");
                  ("timestamp", JNum 0)].
Proof.
  intros self w1.
  apply (logged_activity_is_announced self "MODIFY"
           "C:\Users\a\Desktop\notes.txt" 3 init_world 999).
  - split; reflexivity.
  - reflexivity.
  - apply Nat.ltb_lt. vm_compute. reflexivity.
  - vm_compute. discriminate.
Defined.

(** ** What every run keeps *)

Lemma sql_appends_activities (d d' : DB) :
  sql d d' ->
  exists added, file_activities d' = (file_activities d ++ added)%list.
Proof.
  intros H. destruct H; simpl;
    try (exists []; rewrite app_nil_r; reflexivity).
  eexists. reflexivity.
Qed.

(** X13.  The activity log is append-only: along every sequence of steps
    from a world in which no call is in progress, the rows the
    [file_activities] table had are still there, unchanged and in their
    place, followed by the rows added since. *)
Theorem activity_log_is_append_only :
  forall (self : Service) (ops : list Op) (w : World DB),
    quiet w ->
    exists added : list Activity,
      file_activities (committed (run self ops w))
      = (file_activities (committed w) ++ added)%list.
Proof.
  intros self ops w Hq.
  destruct (run_evolves self ops w Hq) as [_ He].
  induction He as [|d1 d2 _ [added IH] Hs].
  - exists []. rewrite app_nil_r. reflexivity.
  - destruct (sql_appends_activities _ _ Hs) as [more Hm].
    exists (added ++ more)%list. rewrite Hm, IH, app_assoc. reflexivity.
Qed.

Lemma activity_log_is_append_only_witness :
  let self := mkService "monitor_data.db" default_config in
  let a := mkActivity 1 3 "alice" "python.exe" 42 "CREATE" "C:\a.txt" 0
             Low "New" 3 in
  let w := mkWorld (mkDB [a] [] [] [] 1 0 0) None 0 [] true 10 None in
  let ops := [OpLogActivity "MODIFY" "C:\Users\a\Desktop\n.txt" 1;
              OpLogActivity "DELETE" "C:\Users\a\Desktop\n.txt" 0;
              OpGetLiveSignals 999; OpUpdateStatus "Running"] in
  exists added : list Activity,
    file_activities (committed (run self ops w)) = ([a] ++ added)%list.
Proof.
  intros self a w ops.
  apply (activity_log_is_append_only self ops w). reflexivity.
Defined.

Lemma fresh_key_nodup (seq : nat) (ids : list nat) :
  NoDup ids -> NoDup (ids ++ [next_rowid seq ids]).
Proof.
  intros H. eapply Permutation_NoDup; [apply Permutation_cons_append|].
  constructor; [apply next_rowid_fresh|exact H].
Qed.

Lemma fresh_key_bound (seq : nat) (ids : list nat) :
  Forall (fun i => i <= seq) ids ->
  Forall (fun i => i <= next_rowid seq ids) (ids ++ [next_rowid seq ids]).
Proof.
  intros H. apply Forall_app. split.
  - eapply Forall_impl; [|exact H]. intros i Hi. cbv beta in Hi |- *.
    unfold next_rowid. lia.
  - constructor; [lia|constructor].
Qed.

Lemma set_alert_status_id (status : string) (alert_id : option nat)
    (l : list Alert) :
  map al_id (map (set_alert_status status alert_id) l) = map al_id l.
Proof.
  induction l as [|x t IH]; simpl; [reflexivity|].
  rewrite IH. f_equal. unfold set_alert_status.
  destruct alert_id as [i|]; [|reflexivity].
  destruct (Nat.eqb (al_id x) i); reflexivity.
Qed.

Lemma sql_keys_ok (d d' : DB) : sql d d' -> keys_ok d -> keys_ok d'.
Proof.
  intros Hs [K1 [K2 [K3 [K4 [K5 K6]]]]].
  destruct Hs; unfold keys_ok; simpl; rewrite ?map_app; simpl.
  - repeat split; try assumption;
      [apply fresh_key_nodup, K1|apply fresh_key_bound, K4].
  - repeat split; try assumption;
      [apply fresh_key_nodup, K2|apply fresh_key_bound, K5].
  - repeat split; try assumption;
      [apply fresh_key_nodup, K3|apply fresh_key_bound, K6].
  - repeat split; assumption.
  - rewrite set_alert_status_id. repeat split; assumption.
  - rewrite mark_processed_id. repeat split; assumption.
Qed.

(** X14.  The ids are keys, and none is given twice: in every world a run
    reaches from the new database, no two rows of [file_activities], of
    [alerts] or of [live_signals] have the same id, and the counter of
    each table is at least every id in it, so that the next id is new. *)
Theorem row_ids_are_unique :
  forall (self : Service) (ops : list Op),
    let d := committed (run self ops init_world) in
    keys_ok d
    /\ ~ In (next_rowid (seq_file_activities d) (map act_id (file_activities d)))
            (map act_id (file_activities d))
    /\ ~ In (next_rowid (seq_live_signals d) (map sig_id (live_signals d)))
            (map sig_id (live_signals d)).
Proof.
  intros self ops d.
  destruct (run_evolves self ops init_world eq_refl) as [_ He].
  fold d in He.
  assert (K : keys_ok d).
  { induction He as [|d1 d2 _ IH Hs].
    - unfold keys_ok. simpl. repeat split; constructor.
    - exact (sql_keys_ok _ _ Hs IH). }
  split; [exact K|]. split; apply next_rowid_fresh.
Qed.

Lemma send_signal_no_alert (self : Service) (ty : string)
    (data : option JObj) (w : World DB) :
  quiet w -> no_alert_ever (committed w) ->
  no_alert_ever (committed (snd (MonitorService.send_signal self ty data w))).
Proof.
  intros Hq Hn. rewrite (send_signal_quiet self ty data w Hq).
  destruct (busy w) as [|[] rest]; exact Hn.
Qed.

Lemma log_activity_no_alert (self : Service) (action path : string)
    (size : nat) (w : World DB) :
  quiet w -> no_alert_ever (committed w) ->
  no_alert_ever
    (committed (snd (MonitorService.log_activity self action path size w))).
Proof.
  intros Hq Hn. rewrite (log_activity_quiet self action path size w Hq).
  cbv zeta.
  assert (G : forall risk b data,
    risk <> High ->
    no_alert_ever
      (committed (snd (MonitorService.send_signal self "new_activity" data
        (mkWorld
           (snd (insert_activity (clock w) (fst (fst (process_or_unknown w)))
                   (snd (fst (process_or_unknown w)))
                   (snd (process_or_unknown w)) action path size risk
                   (clock w) (committed w)))
           None (S (next_conn w)) b true (clock w) (process w)))))).
  { intros risk b data Hr. apply send_signal_no_alert; [reflexivity|].
    destruct Hn as [N1 [N2 N3]]. unfold no_alert_ever. simpl.
    split; [exact N1|]. split; [|exact N3].
    apply Forall_app. split; [exact N2|]. constructor; [exact Hr|constructor]. }
  destruct (busy w) as [|[] rest];
    destruct (MonitorService.assess_risk_level self path action);
    try exact Hn; apply G; discriminate.
Qed.

Lemma step_no_alert (self : Service) (op : Op) (w : World DB) :
  quiet w -> no_alert_ever (committed w) ->
  no_alert_ever (committed (step self op w)).
Proof.
  intros Hq Hn.
  destruct op as [status|ty data|a p n|k e|m|req|t|b|pr]; simpl;
    try exact Hn.
  - rewrite (update_service_status_quiet self status w Hq).
    destruct (busy w) as [|[] rest]; try exact Hn;
      destruct Hn as [N1 [N2 N3]]; unfold no_alert_ever; simpl;
      (split; [exact N1|]); (split; [exact N2|]);
      (apply Forall_app; split;
       [apply Forall_forall; intros x Hx; apply filter_In in Hx as [Hx _];
        rewrite Forall_forall in N3; apply N3, Hx
       |constructor; [|constructor]; simpl;
        unfold count_new_alerts; rewrite N1; reflexivity]).
  - apply send_signal_no_alert; assumption.
  - apply log_activity_no_alert; assumption.
  - destruct k; simpl;
      unfold FileActivityMonitor.on_created, FileActivityMonitor.on_modified,
        FileActivityMonitor.on_deleted, FileActivityMonitor.on_moved;
      simpl;
      match goal with
      | |- context [if ?c then _ else _] => destruct c
      end;
      try exact Hn; apply log_activity_no_alert; assumption.
  - rewrite (get_live_signals_quiet m w Hq).
    destruct (db_file w); [|exact Hn]. cbv zeta.
    destruct (select_unprocessed (committed w)) as [|x rows]; [exact Hn|].
    destruct (Nat.leb (length (x :: rows)) m); [|exact Hn].
    destruct (busy w) as [|[] rest]; exact Hn.
  - rewrite (api_alert_action_quiet req w Hq).
    destruct (db_file w); [|exact Hn].
    destruct (busy w) as [|[] rest]; try exact Hn;
      destruct Hn as [N1 [N2 N3]]; unfold no_alert_ever; simpl;
      rewrite N1; repeat split; assumption.
Qed.

(** X15.  monitor_data.db never comes to hold an alert.  From a world
    with no alert, no High activity row and no status row that counts
    one, every sequence of steps leads to such a world again: a High event
    ends in the exception of its [send_signal] before anything is
    committed, so no High row and no alert row is ever written, and the
    [alerts_count] of the status row stays 0. *)
Theorem service_never_stores_an_alert :
  forall (self : Service) (ops : list Op) (w : World DB),
    quiet w -> no_alert_ever (committed w) ->
    no_alert_ever (committed (run self ops w)).
Proof.
  intros self ops. induction ops as [|op rest IH]; intros w Hq Hn; simpl.
  - exact Hn.
  - destruct (step_evolves self op w Hq) as [Q _].
    apply IH; [exact Q|apply step_no_alert; assumption].
Qed.

Lemma service_never_stores_an_alert_witness :
  let self := mkService "monitor_data.db" default_config in
  let ops := [OpUpdateStatus "Starting";
              OpLogActivity "DELETE" "C:\Users\a\Desktop\notes.txt" 0;
              OpLogActivity "CREATE" "C:\Users\a\Desktop\setup.exe" 9;
              OpLogActivity "MODIFY" "C:\Users\a\Desktop\notes.txt" 3;
              OpUpdateStatus "Running"] in
  no_alert_ever (committed (run self ops init_world)).
Proof.
  intros self ops.
  apply (service_never_stores_an_alert self ops init_world).
  - reflexivity.
  - unfold no_alert_ever. simpl. repeat split; constructor.
Defined.

(** ** The classifier and the gate *)

Lemma lower_app (a b : string) :
  lower (a ++ b) = (lower a ++ lower b)%string.
Proof.
  induction a as [|c a IH]; simpl; [reflexivity|]. rewrite IH. reflexivity.
Qed.

Lemma prefix_app_l (x a b : string) :
  String.prefix x a = true -> String.prefix x (a ++ b) = true.
Proof.
  revert x. induction a as [|c a IH]; intros x H.
  - destruct x; [destruct b; reflexivity|discriminate H].
  - destruct x as [|cx x]; [reflexivity|].
    cbn [String.append String.prefix] in *.
    destruct (ascii_dec cx c); [apply IH, H|discriminate H].
Qed.

Lemma contains_app_l (x a b : string) :
  contains x a = true -> contains x (a ++ b) = true.
Proof.
  induction a as [|c a IH]; intros H.
  - cbn [contains] in H. rewrite orb_false_r in H.
    apply prefix_contains. apply (prefix_app_l x "" b H).
  - cbn [String.append contains] in *.
    apply orb_true_iff in H as [H|H].
    + pose proof (prefix_app_l x (String c a) b H) as P.
      cbn [String.append] in P. rewrite P. reflexivity.
    + rewrite (IH H). apply orb_true_r.
Qed.

Lemma contains_app_r (x a b : string) :
  contains x b = true -> contains x (a ++ b) = true.
Proof.
  intros H. induction a as [|c a IH]; [exact H|].
  cbn [String.append contains]. rewrite IH. apply orb_true_r.
Qed.

(** X16.  With the default configuration the monitor rates nothing it
    watches as Low: a path under one of the two default watch paths
    (Desktop, Documents) is Medium at least, whatever the action and the
    letter case. *)
Theorem default_watch_paths_are_never_low :
  forall (self : Service) (watch rest action : string),
    config self = default_config ->
    In watch (watch_paths default_config) ->
    risk_le Medium
      (MonitorService.assess_risk_level self (watch ++ rest) action)
    /\ MonitorService.assess_risk_level self (watch ++ rest) action <> Low.
Proof.
  intros self watch rest action Hc Hw.
  assert (M : contains "documents" (lower (watch ++ rest))
              || contains "desktop" (lower (watch ++ rest)) = true).
  { rewrite lower_app. simpl in Hw. destruct Hw as [<-|[<-|[]]].
    - apply orb_true_iff. right. apply contains_app_l. reflexivity.
    - apply orb_true_iff. left. apply contains_app_l. reflexivity. }
  unfold MonitorService.assess_risk_level. rewrite M.
  repeat match goal with
         | |- context [if ?c then _ else _] => destruct c
         end; simpl; split; try exact I; discriminate.
Qed.

Lemma default_watch_paths_are_never_low_witness :
  let self := mkService "monitor_data.db" default_config in
  risk_le Medium
    (MonitorService.assess_risk_level self
       ("C:\Users\Chandan Deshmukh\Desktop" ++ "\notes.txt") "CREATE")
  /\ MonitorService.assess_risk_level self
       ("C:\Users\Chandan Deshmukh\Desktop" ++ "\notes.txt") "CREATE" <> Low.
Proof.
  intros self.
  apply (default_watch_paths_are_never_low self
           "C:\Users\Chandan Deshmukh\Desktop" "\notes.txt" "CREATE");
    [reflexivity|left; reflexivity].
Defined.

Lemma any_in_incl (l1 l2 : list string) (s : string) :
  incl l1 l2 -> any_in l1 s = true -> any_in l2 s = true.
Proof.
  intros Hi H. apply any_in_exists in H as [p [Hp Hc]].
  apply any_in_exists. exists p. split; [apply Hi, Hp|exact Hc].
Qed.

Lemma mem_incl (l1 l2 : list string) (x : string) :
  incl l1 l2 -> mem x l1 = true -> mem x l2 = true.
Proof.
  unfold mem. intros Hi H. apply existsb_exists in H as [y [Hy E]].
  apply existsb_exists. exists y. split; [apply Hi, Hy|exact E].
Qed.

Lemma file_monitor_classifier_as_service (db : string)
    (path action : string) :
  FileActivityMonitor.assess_risk_level path action
  = MonitorService.assess_risk_level (mkService db builtin_policy) path action.
Proof.
  unfold FileActivityMonitor.assess_risk_level,
    MonitorService.assess_risk_level, builtin_policy.
  cbv beta zeta.
  cbn [config risk_settings high_risk_actions sensitive_paths
       high_risk_extensions].
  repeat match goal with
         | |- context [if any_in ?l ?p then _ else _] => destruct (any_in l p)
         | |- context [if mem ?a ?l then _ else _] => destruct (mem a l)
         end; reflexivity.
Qed.

Lemma risk_le_refl (r : RiskLevel) : risk_le r r.
Proof. destruct r; exact I. Qed.

Lemma assess_monotone (s1 s2 : Service) (path action : string) :
  incl (high_risk_actions (risk_settings (config s1)))
       (high_risk_actions (risk_settings (config s2))) ->
  incl (high_risk_extensions (risk_settings (config s1)))
       (high_risk_extensions (risk_settings (config s2))) ->
  incl (sensitive_paths (risk_settings (config s1)))
       (sensitive_paths (risk_settings (config s2))) ->
  risk_le (MonitorService.assess_risk_level s1 path action)
          (MonitorService.assess_risk_level s2 path action).
Proof.
  intros Ha He Hs. unfold MonitorService.assess_risk_level.
  pose proof (mem_incl _ _ action Ha) as Ma.
  pose proof (any_in_incl _ _ (lower path) He) as Me.
  pose proof (any_in_incl _ _ (lower path) Hs) as Ms.
  destruct (mem action (high_risk_actions (risk_settings (config s1))));
    [rewrite (Ma eq_refl); exact I|].
  destruct (any_in (high_risk_extensions (risk_settings (config s1)))
              (lower path));
    [rewrite (Me eq_refl);
     destruct (mem action (high_risk_actions (risk_settings (config s2))));
     exact I|].
  destruct (any_in (sensitive_paths (risk_settings (config s1))) (lower path));
    [rewrite (Ms eq_refl);
     repeat match goal with
            | |- context [if ?c then _ else _] => destruct c
            end; exact I|].
  repeat match goal with
         | |- context [if ?c then _ else _] => destruct c
         end; exact I.
Qed.

(** X17.  Adding entries to the risk lists of a policy never lowers a
    rating: when the three lists of one service are contained in those of
    another, every event is rated by the second at least as high as by
    the first.  So the classifier built into the file monitor, whose lists
    contain the default ones, never rates an event lower than the service
    does with the default configuration. *)
Theorem larger_policy_rates_higher :
  forall (s1 s2 : Service) (path action : string),
    (incl (high_risk_actions (risk_settings (config s1)))
          (high_risk_actions (risk_settings (config s2))) ->
     incl (high_risk_extensions (risk_settings (config s1)))
          (high_risk_extensions (risk_settings (config s2))) ->
     incl (sensitive_paths (risk_settings (config s1)))
          (sensitive_paths (risk_settings (config s2))) ->
     risk_le (MonitorService.assess_risk_level s1 path action)
             (MonitorService.assess_risk_level s2 path action))
    /\ (config s1 = default_config ->
        risk_le (MonitorService.assess_risk_level s1 path action)
                (FileActivityMonitor.assess_risk_level path action)).
Proof.
  intros s1 s2 path action. split; [apply assess_monotone|].
  intros Hc.
  rewrite (file_monitor_classifier_as_service "" path action).
  apply assess_monotone; rewrite Hc; simpl;
    intros x Hx; simpl in *; tauto.
Qed.

Lemma larger_policy_rates_higher_witness :
  let s1 := mkService "monitor_data.db" default_config in
  let s2 := mkService "monitor_data.db" builtin_policy in
  risk_le (MonitorService.assess_risk_level s1 "C:\ProgramData\x.reg" "CREATE")
          (MonitorService.assess_risk_level s2 "C:\ProgramData\x.reg" "CREATE")
  /\ risk_le
       (MonitorService.assess_risk_level s1 "C:\ProgramData\x.reg" "CREATE")
       (FileActivityMonitor.assess_risk_level "C:\ProgramData\x.reg" "CREATE").
Proof.
  intros s1 s2.
  destruct (larger_policy_rates_higher s1 s2 "C:\ProgramData\x.reg" "CREATE")
    as [A B].
  split; [|apply B; reflexivity].
  apply A; simpl; intros x Hx; simpl in *; tauto.
Defined.

(** X18.  The monitor does not report its own database: an event on a
    path that contains the service's [db_path] (the database file, its
    journal, the same name in any directory) is dropped by every callback
    and leaves the world as it is. *)
Theorem own_database_events_are_dropped :
  forall (self : Service) (k : FileActivityMonitor.EventKind)
         (e : FileActivityMonitor.Event) (w : World DB) (a b : string),
    FileActivityMonitor.src_path e = (a ++ db_path self ++ b)%string ->
    FileActivityMonitor.dispatch (service_methods self) k e w = (Ok tt, w).
Proof.
  intros self k e w a b Hp.
  apply dispatch_ignored. simpl.
  unfold MonitorService.should_ignore_file.
  rewrite Hp, contains_middle.
  repeat match goal with
         | |- context [if ?c then _ else _] => destruct c
         end; reflexivity.
Qed.

Lemma own_database_events_are_dropped_witness :
  let self := mkService "monitor_data.db" default_config in
  let e := FileActivityMonitor.mkEvent false
             "C:\TrackVault\monitor_data.db-journal" "" (Some 512) in
  FileActivityMonitor.dispatch (service_methods self)
    FileActivityMonitor.Modified e init_world = (Ok tt, init_world).
Proof.
  intros self e.
  apply (own_database_events_are_dropped self FileActivityMonitor.Modified e
           init_world "C:\TrackVault\" "-journal").
  reflexivity.
Defined.

Lemma file_monitor_ignores_suffix (a b : string) :
  FileActivityMonitor.should_ignore_file b = true ->
  FileActivityMonitor.should_ignore_file (a ++ b) = true.
Proof.
  unfold FileActivityMonitor.should_ignore_file. cbv zeta.
  intros H. apply any_in_exists in H as [p [Hp Hc]].
  apply any_in_exists. exists p. split; [exact Hp|].
  rewrite lower_app. apply contains_app_r, Hc.
Qed.

(** X19.  In the file monitor's own pipeline a move is judged by its
    destination too: [on_moved] looks at the source only, but
    [log_activity] looks again at the text it is given, which holds both
    paths, so a move to a path that matches an ignore pattern writes
    nothing. *)
Theorem move_to_ignored_destination_is_dropped :
  forall (e : FileActivityMonitor.Event) (w : World FileActivityMonitor.DB),
    FileActivityMonitor.should_ignore_file (FileActivityMonitor.dest_path e)
    = true ->
    FileActivityMonitor.dispatch FileActivityMonitor.own_methods
      FileActivityMonitor.Moved e w = (Ok tt, w).
Proof.
  intros e w H.
  unfold FileActivityMonitor.dispatch, FileActivityMonitor.on_moved.
  destruct (negb (FileActivityMonitor.is_directory e)
            && negb _); [|reflexivity].
  cbn [FileActivityMonitor.self_log_activity FileActivityMonitor.own_methods].
  unfold FileActivityMonitor.log_activity.
  rewrite (file_monitor_ignores_suffix (FileActivityMonitor.src_path e)
             (" -> " ++ FileActivityMonitor.dest_path e)
             (file_monitor_ignores_suffix _ _ H)).
  reflexivity.
Qed.

Lemma move_to_ignored_destination_is_dropped_witness :
  let e := FileActivityMonitor.mkEvent false "C:\Users\a\Desktop\report.txt"
             "C:\Users\a\Desktop\report.tmp" None in
  FileActivityMonitor.dispatch FileActivityMonitor.own_methods
    FileActivityMonitor.Moved e file_init_world = (Ok tt, file_init_world).
Proof.
  intros e.
  apply (move_to_ignored_destination_is_dropped e file_init_world).
  reflexivity.
Defined.

(** ** file_activity.db: alerts and the activities behind them *)

(** The file monitor's [log_activity] when no call is in progress: an
    ignored path writes nothing; otherwise the activity row, and for a
    High event its alert, are written in one transaction, or not at all
    when the lock is taken. *)
Lemma file_log_activity_quiet (action path : string) (size : nat)
    (w : World FileActivityMonitor.DB) :
  quiet w ->
  FileActivityMonitor.log_activity action path size w =
  if FileActivityMonitor.should_ignore_file path then (Ok tt, w)
  else
    match busy w with
    | true :: rest =>
        (Raise OperationalError_locked,
         mkWorld (committed w) None (S (next_conn w)) rest true
                 (clock w) (process w))
    | _ =>
        let risk := FileActivityMonitor.assess_risk_level path action in
        let user := fst (fst (process_or_unknown w)) in
        let d1 := snd (FileActivityMonitor.insert_activity (clock w) user
                         (snd (fst (process_or_unknown w)))
                         (snd (process_or_unknown w)) action path size risk
                         (committed w)) in
        (Ok tt,
         mkWorld
           match risk with
           | High =>
               snd (FileActivityMonitor.insert_alert (clock w) user
                      (FileActivityMonitor.alert_description action path)
                      path High d1)
           | _ => d1
           end
           None (S (next_conn w)) (tl (busy w)) true (clock w) (process w))
    end.
Proof.
  destruct w as [d wr nc b f clk p]; unfold quiet; simpl; intros ->.
  unfold FileActivityMonitor.log_activity, process_or_unknown.
  destruct (FileActivityMonitor.should_ignore_file path); [reflexivity|].
  destruct p as [[[user pname] pid]|]; destruct b as [|[] rest];
    destruct (FileActivityMonitor.assess_risk_level path action);
    exec_fm; reflexivity.
Qed.

Lemma app_run_statement_quiet
    (stmt : FileActivityMonitor.DB -> unit * FileActivityMonitor.DB)
    (w : World FileActivityMonitor.DB) :
  quiet w ->
  App.run_statement stmt w =
  match busy w with
  | true :: rest =>
      (Ok (App.mkResponse false (Some "database is locked")),
       mkWorld (committed w) None (S (next_conn w)) rest true
               (clock w) (process w))
  | _ =>
      (Ok (App.mkResponse true None),
       mkWorld (snd (stmt (committed w))) None (S (next_conn w))
               (tl (busy w)) true (clock w) (process w))
  end.
Proof.
  destruct w as [d wr nc b f clk p]; unfold quiet; simpl; intros ->.
  destruct b as [|[] rest]; exec_fm; try reflexivity;
    destruct (stmt d) as [[] d']; exec_fm; reflexivity.
Qed.

Lemma alert_backed_more (d d' : FileActivityMonitor.DB)
    (al : FileActivityMonitor.Alert) :
  (forall a, In a (FileActivityMonitor.file_activities d) ->
             In a (FileActivityMonitor.file_activities d')) ->
  alert_backed d al -> alert_backed d' al.
Proof.
  intros Hsub [Hr [act [Hin Hrest]]]. split; [exact Hr|].
  exists act. split; [apply Hsub, Hin|exact Hrest].
Qed.

Lemma count_high_insert (d : FileActivityMonitor.DB) ts user pname pid
    action path size risk :
  count_high (snd (FileActivityMonitor.insert_activity ts user pname pid
                     action path size risk d))
  = count_high d + (if RiskLevel_eqb risk High then 1 else 0).
Proof.
  unfold count_high. simpl. rewrite filter_app, length_app. simpl.
  destruct (RiskLevel_eqb risk High); reflexivity.
Qed.

(** What the statements of app.py keep of an alert. *)
Lemma update_status_backed (d : FileActivityMonitor.DB) (status : string)
    (alert_id : nat) :
  alerts_backed d -> alerts_backed (snd (App.update_status status alert_id d)).
Proof.
  intros [Hf Hl]. unfold alerts_backed, count_high. simpl.
  rewrite length_map. split; [|exact Hl].
  apply Forall_forall. intros al Hal.
  apply in_map_iff in Hal as [x [E Hx]].
  rewrite Forall_forall in Hf. specialize (Hf x Hx).
  destruct (Nat.eqb (FileActivityMonitor.al_id x) alert_id); subst al;
    [|exact Hf].
  destruct Hf as [Hr [act Hact]]. split; [exact Hr|]. exists act. exact Hact.
Qed.

Lemma delete_alert_backed (d : FileActivityMonitor.DB) (alert_id : nat) :
  alerts_backed d -> alerts_backed (snd (App.delete_alert alert_id d)).
Proof.
  intros [Hf Hl]. unfold alerts_backed, count_high. simpl. split.
  - apply Forall_forall. intros al Hal. apply filter_In in Hal as [Hal _].
    rewrite Forall_forall in Hf. exact (Hf al Hal).
  - etransitivity; [apply filter_length_le|exact Hl].
Qed.

Lemma backed_after_plain (d : FileActivityMonitor.DB) ts user pname pid
    action path size risk :
  risk <> High -> alerts_backed d ->
  let d1 := snd (FileActivityMonitor.insert_activity ts user pname pid
                   action path size risk d) in
  alerts_backed d1
  /\ (length (FileActivityMonitor.alerts d) = count_high d ->
      length (FileActivityMonitor.alerts d1) = count_high d1).
Proof.
  intros Hr [Hf Hl] d1. subst d1.
  unfold alerts_backed. rewrite count_high_insert.
  assert (E : RiskLevel_eqb risk High = false)
    by (destruct risk; [reflexivity|reflexivity|congruence]).
  rewrite E, Nat.add_0_r. cbn [FileActivityMonitor.insert_activity snd
                               FileActivityMonitor.alerts].
  split; [split; [|exact Hl]|intros H; exact H].
  eapply Forall_impl; [|exact Hf]. intros al.
  apply alert_backed_more. simpl. intros a Ha. apply in_or_app. tauto.
Qed.

Lemma backed_after_high (d : FileActivityMonitor.DB) ts user pname pid
    action path size :
  alerts_backed d ->
  let d2 := snd (FileActivityMonitor.insert_alert ts user
                   (FileActivityMonitor.alert_description action path) path
                   High
                   (snd (FileActivityMonitor.insert_activity ts user pname
                           pid action path size High d))) in
  alerts_backed d2
  /\ (length (FileActivityMonitor.alerts d) = count_high d ->
      length (FileActivityMonitor.alerts d2) = count_high d2).
Proof.
  intros [Hf Hl] d2. subst d2.
  unfold alerts_backed, count_high in *. simpl.
  rewrite filter_app, !length_app. simpl.
  split; [split; [|lia]|lia].
  apply Forall_app. split.
  - eapply Forall_impl; [|exact Hf]. intros al.
    apply alert_backed_more. simpl. intros a Ha. apply in_or_app. tauto.
  - constructor; [|constructor]. split; [reflexivity|].
    eexists. split; [simpl; apply in_or_app; right; left; reflexivity|].
    simpl. repeat split.
Qed.

Lemma file_log_activity_backed (action path : string) (size : nat)
    (w : World FileActivityMonitor.DB) :
  quiet w -> alerts_backed (committed w) ->
  let w' := snd (FileActivityMonitor.log_activity action path size w) in
  quiet w' /\ alerts_backed (committed w')
  /\ (length (FileActivityMonitor.alerts (committed w)) = count_high (committed w) ->
      length (FileActivityMonitor.alerts (committed w')) = count_high (committed w')).
Proof.
  intros Hq Hb w'. subst w'.
  rewrite (file_log_activity_quiet action path size w Hq).
  assert (Same : quiet w /\ alerts_backed (committed w)
                 /\ (length (FileActivityMonitor.alerts (committed w))
                     = count_high (committed w) ->
                     length (FileActivityMonitor.alerts (committed w))
                     = count_high (committed w)))
    by (split; [exact Hq|split; [exact Hb|intros H; exact H]]).
  destruct (FileActivityMonitor.should_ignore_file path); [exact Same|].
  assert (New : forall b,
    let risk := FileActivityMonitor.assess_risk_level path action in
    let user := fst (fst (process_or_unknown w)) in
    let d1 := snd (FileActivityMonitor.insert_activity (clock w) user
                     (snd (fst (process_or_unknown w)))
                     (snd (process_or_unknown w)) action path size risk
                     (committed w)) in
    let w' := mkWorld
           match risk with
           | High =>
               snd (FileActivityMonitor.insert_alert (clock w) user
                      (FileActivityMonitor.alert_description action path)
                      path High d1)
           | _ => d1
           end
           None (S (next_conn w)) b true (clock w) (process w) in
    quiet w' /\ alerts_backed (committed w')
    /\ (length (FileActivityMonitor.alerts (committed w)) = count_high (committed w) ->
        length (FileActivityMonitor.alerts (committed w')) = count_high (committed w'))).
  { intros b risk user d1 w'. subst w' d1. cbn [committed].
    split; [reflexivity|].
    destruct risk eqn:Er.
    - apply backed_after_plain; [discriminate|exact Hb].
    - apply backed_after_plain; [discriminate|exact Hb].
    - apply backed_after_high. exact Hb. }
  destruct (busy w) as [|[] rest]; cbn [snd];
    [apply New| |apply New].
  cbn [committed]. split; [reflexivity|]. apply Same.
Qed.

Lemma file_step_backed (op : FileOp) (w : World FileActivityMonitor.DB) :
  quiet w -> alerts_backed (committed w) ->
  quiet (file_step op w) /\ alerts_backed (committed (file_step op w))
  /\ (no_dismiss [op] = true ->
      length (FileActivityMonitor.alerts (committed w)) = count_high (committed w) ->
      length (FileActivityMonitor.alerts (committed (file_step op w)))
      = count_high (committed (file_step op w))).
Proof.
  intros Hq Hb.
  assert (Same : quiet w /\ alerts_backed (committed w)
                 /\ (no_dismiss [op] = true ->
                     length (FileActivityMonitor.alerts (committed w))
                     = count_high (committed w) ->
                     length (FileActivityMonitor.alerts (committed w))
                     = count_high (committed w)))
    by (split; [exact Hq|split; [exact Hb|intros _ E; exact E]]).
  assert (Log : forall a p n,
            quiet (snd (FileActivityMonitor.log_activity a p n w))
            /\ alerts_backed
                 (committed (snd (FileActivityMonitor.log_activity a p n w)))
            /\ (no_dismiss [op] = true ->
                length (FileActivityMonitor.alerts (committed w))
                = count_high (committed w) ->
                length (FileActivityMonitor.alerts
                          (committed (snd (FileActivityMonitor.log_activity
                                             a p n w))))
                = count_high
                    (committed (snd (FileActivityMonitor.log_activity
                                       a p n w))))).
  { intros a p n.
    destruct (file_log_activity_backed a p n w Hq Hb) as [A [B C]].
    split; [exact A|split; [exact B|intros _; exact C]]. }
  assert (Upd : forall status i,
            quiet (snd (App.run_statement (App.update_status status i) w))
            /\ alerts_backed
                 (committed (snd (App.run_statement
                                    (App.update_status status i) w)))
            /\ (no_dismiss [op] = true ->
                length (FileActivityMonitor.alerts (committed w))
                = count_high (committed w) ->
                length (FileActivityMonitor.alerts
                          (committed (snd (App.run_statement
                                             (App.update_status status i) w))))
                = count_high
                    (committed (snd (App.run_statement
                                       (App.update_status status i) w))))).
  { intros status i. rewrite (app_run_statement_quiet _ w Hq).
    destruct (busy w) as [|[] rest]; cbn [snd committed];
      (split; [reflexivity|]);
      try (split; [exact Hb|intros _ E; exact E]);
      (split; [apply update_status_backed, Hb|]);
      intros _ E; unfold count_high in *; simpl; rewrite length_map; exact E. }
  destruct op as [a p n|k e|i|i|i|t|b|pr]; simpl.
  - apply Log.
  - destruct k; simpl;
      unfold FileActivityMonitor.on_created, FileActivityMonitor.on_modified,
        FileActivityMonitor.on_deleted, FileActivityMonitor.on_moved;
      simpl;
      match goal with
      | |- context [if ?c then _ else _] => destruct c
      end;
      first [exact Same|apply Log].
  - apply Upd.
  - apply Upd.
  - unfold App.dismiss_alert. rewrite (app_run_statement_quiet _ w Hq).
    destruct (busy w) as [|[] rest]; cbn [snd committed];
      (split; [reflexivity|]);
      (split; [first [exact Hb|apply delete_alert_backed, Hb]
              |intros H; discriminate H]).
  - exact Same.
  - exact Same.
  - exact Same.
Qed.

(** X20.  In file_activity.db every alert has its activity: in every
    world a run reaches from the new database, each alert row is rated
    High and there is an activity row rated High with the same time, user
    and path, from whose action and path the description is made; there
    are never more alerts than High activity rows, and exactly as many as
    long as no alert has been dismissed. *)
Theorem file_monitor_alerts_are_backed :
  forall (ops : list FileOp),
    let d := committed (file_run ops file_init_world) in
    Forall (alert_backed d) (FileActivityMonitor.alerts d)
    /\ length (FileActivityMonitor.alerts d) <= count_high d
    /\ (no_dismiss ops = true ->
        length (FileActivityMonitor.alerts d) = count_high d).
Proof.
  intros ops.
  assert (G : forall w,
            quiet w -> alerts_backed (committed w) ->
            alerts_backed (committed (file_run ops w))
            /\ (no_dismiss ops = true ->
                length (FileActivityMonitor.alerts (committed w))
                = count_high (committed w) ->
                length (FileActivityMonitor.alerts (committed (file_run ops w)))
                = count_high (committed (file_run ops w)))).
  { induction ops as [|op rest IH]; intros w Hq Hb; simpl.
    - split; [exact Hb|]. intros _ E. exact E.
    - destruct (file_step_backed op w Hq Hb) as [Q [B C]].
      destruct (IH _ Q B) as [B' C'].
      split; [exact B'|]. intros Hn E.
      apply andb_true_iff in Hn as [H1 H2].
      apply C'; [exact H2|]. apply C; [|exact E].
      simpl. rewrite H1. reflexivity. }
  intros d. subst d.
  destruct (G file_init_world eq_refl) as [[A B] C].
  - split; [constructor|]. simpl. lia.
  - split; [exact A|]. split; [exact B|].
    intros Hn. apply C; [exact Hn|reflexivity].
Qed.

Lemma file_monitor_alerts_are_backed_witness :
  let ops := [FLogActivity "DELETE" "C:\Users\a\Desktop\old.txt" 0;
              FLogActivity "MODIFY" "C:\Users\a\Desktop\notes.txt" 4;
              FAcknowledge 1;
              FLogActivity "CREATE" "C:\Users\a\Desktop\setup.exe" 9] in
  let d := committed (file_run ops file_init_world) in
  Forall (alert_backed d) (FileActivityMonitor.alerts d)
  /\ length (FileActivityMonitor.alerts d) = count_high d.
Proof.
  intros ops d.
  destruct (file_monitor_alerts_are_backed ops) as [A [_ C]].
  split; [exact A|]. apply C. reflexivity.
Defined.

(** ** The reads of the file monitor and of app.py *)

(** X21.  [FileMonitorService.get_recent_activities(limit)] and
    [get_recent_alerts(limit)], for a limit SQLite can take, an integer of
    64 bits, return rows of their table newest first by [timestamp], at
    most [limit] of them when the limit is not negative and then the
    newest ones, every row when it is negative.  For any other limit they
    raise the overflow error.  In no case do they change the database. *)
Theorem file_monitor_recent_rows :
  forall (limit : Z) (w : World FileActivityMonitor.DB),
    quiet w ->
    let ra := FileMonitorService.get_recent_activities limit w in
    let rl := FileMonitorService.get_recent_alerts limit w in
    committed (snd ra) = committed w /\ committed (snd rl) = committed w
    /\ ((limit < - 2 ^ 63)%Z \/ (2 ^ 63 <= limit)%Z ->
        fst ra = Raise OverflowError /\ fst rl = Raise OverflowError)
    /\ ((- 2 ^ 63 <= limit < 2 ^ 63)%Z ->
        exists acts als,
          fst ra = Ok acts /\ fst rl = Ok als
          /\ StronglySorted
               (fun a b => FileActivityMonitor.act_timestamp b
                           <= FileActivityMonitor.act_timestamp a) acts
          /\ StronglySorted
               (fun a b => FileActivityMonitor.al_timestamp b
                           <= FileActivityMonitor.al_timestamp a) als
          /\ (exists rest,
                Permutation (acts ++ rest)
                  (FileActivityMonitor.file_activities (committed w))
                /\ forall x y, In x acts -> In y rest ->
                     FileActivityMonitor.act_timestamp y
                     <= FileActivityMonitor.act_timestamp x)
          /\ (exists rest,
                Permutation (als ++ rest)
                  (FileActivityMonitor.alerts (committed w))
                /\ forall x y, In x als -> In y rest ->
                     FileActivityMonitor.al_timestamp y
                     <= FileActivityMonitor.al_timestamp x)
          /\ ((0 <= limit)%Z ->
              length acts
              = Nat.min (Z.to_nat limit)
                  (length (FileActivityMonitor.file_activities (committed w)))
              /\ length als
                 = Nat.min (Z.to_nat limit)
                     (length (FileActivityMonitor.alerts (committed w))))
          /\ ((limit < 0)%Z ->
              Permutation acts
                (FileActivityMonitor.file_activities (committed w))
              /\ Permutation als (FileActivityMonitor.alerts (committed w)))).
Proof.
  intros limit w Hq ra rl. subst ra rl.
  destruct w as [d wr nc b f clk p]. unfold quiet in Hq. simpl in Hq. subst wr.
  exec_reads.
  destruct (int64 limit) eqn:E; exec_reads.
  - split; [reflexivity|]. split; [reflexivity|]. split.
    + intros H. apply int64_range in E. lia.
    + intros _.
      destruct (order_limit_spec FileActivityMonitor.act_timestamp limit
                  (FileActivityMonitor.file_activities d))
        as [A1 [A2 [A3 A4]]].
      destruct (order_limit_spec FileActivityMonitor.al_timestamp limit
                  (FileActivityMonitor.alerts d)) as [B1 [B2 [B3 B4]]].
      eexists. eexists.
      split; [reflexivity|]. split; [reflexivity|].
      split; [exact A1|]. split; [exact B1|].
      split; [exact A2|]. split; [exact B2|].
      split; intros H;
        (split; [first [apply A3|apply A4]|first [apply B3|apply B4]]);
        exact H.
  - split; [reflexivity|]. split; [reflexivity|]. split.
    + intros _. split; reflexivity.
    + intros H. apply int64_range in H. congruence.
Qed.

Lemma file_monitor_recent_rows_witness :
  let a1 := FileActivityMonitor.mkActivity 1 3 "alice" "python.exe" 42
              "CREATE" "C:\a.txt" 0 None "Detected" Low in
  let a2 := FileActivityMonitor.mkActivity 2 9 "alice" "python.exe" 42
              "DELETE" "C:\a.txt" 0 None "Detected" High in
  let w := mkWorld (FileActivityMonitor.mkDB [a1; a2] [] 2 0)
                   None 0 [] true 10 None in
  (exists acts,
     fst (FileMonitorService.get_recent_activities 1 w) = Ok acts
     /\ length acts = 1)
  /\ fst (FileMonitorService.get_recent_activities (- 2 ^ 63 - 1) w)
     = Raise OverflowError.
Proof.
  intros a1 a2 w. split.
  - destruct (file_monitor_recent_rows 1 w eq_refl) as [_ [_ [_ A]]].
    destruct A as [acts [als [E [_ [_ [_ [_ [_ [C _]]]]]]]]]; [lia|].
    exists acts. split; [exact E|].
    destruct C as [C _]; [lia|]. rewrite C. reflexivity.
  - destruct (file_monitor_recent_rows (- 2 ^ 63 - 1) w eq_refl)
      as [_ [_ [A _]]].
    apply A. left. lia.
Defined.

(** ** app.py: users and sessions *)

Lemma find_app_none {A} (f : A -> bool) (l1 l2 : list A) :
  find f l1 = None -> find f (l1 ++ l2) = find f l2.
Proof.
  induction l1 as [|x t IH]; simpl; [reflexivity|].
  destruct (f x); [discriminate|exact IH].
Qed.

Lemma existsb_false_find {A} (f g : A -> bool) (l : list A) :
  existsb f l = false -> (forall x, g x = true -> f x = true) ->
  find g l = None.
Proof.
  intros H Hi. induction l as [|x t IH]; simpl in *; [reflexivity|].
  apply orb_false_iff in H as [H1 H2].
  destruct (g x) eqn:E; [rewrite (Hi x E) in H1; discriminate|].
  apply IH, H2.
Qed.

(** X22.  Signing up and logging in compose: when [signup] accepts a
    request, the user is added at the end of the list as a Student with
    the next id, nobody else is changed, and from then on, whatever the
    session, [login] with that user name and password succeeds and opens
    the session of that user. *)
Theorem signup_then_login :
  forall (name institute email username password confirm : string)
         (st : AppRoutes.AppState),
    fst (AppRoutes.signup name institute email username password confirm st)
    = AppRoutes.Redirect "dashboard" ->
    let st1 := snd (AppRoutes.signup name institute email username password
                      confirm st) in
    let new_user := AppRoutes.mkUser (length (AppRoutes.users st) + 1)
                      username password "Student" name email institute in
    AppRoutes.users st1 = (AppRoutes.users st ++ [new_user])%list
    /\ AppRoutes.session st1
       = Some (AppRoutes.mkSessionData username "Student" name email)
    /\ forall s : AppRoutes.Session,
         AppRoutes.login username password
           (AppRoutes.mkAppState (AppRoutes.users st1) s)
         = (AppRoutes.Redirect "dashboard",
            AppRoutes.mkAppState (AppRoutes.users st1)
              (Some (AppRoutes.mkSessionData username "Student" name email))).
Proof.
  intros name institute email username password confirm st.
  unfold AppRoutes.signup.
  destruct (negb (String.eqb password confirm)); [discriminate|].
  destruct (existsb (fun u => String.eqb (AppRoutes.u_username u) username)
              (AppRoutes.users st)) eqn:Eu; [discriminate|].
  destruct (existsb (fun u => String.eqb (AppRoutes.u_email u) email)
              (AppRoutes.users st)); [discriminate|].
  intros _. cbn [snd AppRoutes.users AppRoutes.session AppRoutes.u_role
                 AppRoutes.u_name AppRoutes.u_email].
  split; [reflexivity|]. split; [reflexivity|].
  intros s. unfold AppRoutes.login. cbn [AppRoutes.users].
  rewrite find_app_none.
  - simpl. rewrite !String.eqb_refl. reflexivity.
  - apply (existsb_false_find _ _ _ Eu).
    intros x H. apply andb_true_iff in H as [H _]. exact H.
Qed.

Lemma signup_then_login_witness :
  let st1 := snd (AppRoutes.signup "Ann Lee" "Lab" "ann@lab.org" "ann" "pw"
                    "pw" app_init) in
  AppRoutes.users st1
  = (AppRoutes.SAMPLE_USERS
     ++ [AppRoutes.mkUser 4 "ann" "pw" "Student" "Ann Lee" "ann@lab.org"
           "Lab"])%list
  /\ AppRoutes.login "ann" "pw" (AppRoutes.mkAppState (AppRoutes.users st1) None)
     = (AppRoutes.Redirect "dashboard",
        AppRoutes.mkAppState (AppRoutes.users st1)
          (Some (AppRoutes.mkSessionData "ann" "Student" "Ann Lee"
                   "ann@lab.org"))).
Proof.
  intros st1.
  destruct (signup_then_login "Ann Lee" "Lab" "ann@lab.org" "ann" "pw" "pw"
              app_init eq_refl) as [A [_ C]].
  split; [exact A|apply C].
Defined.

Lemma existsb_eqb_not_in {A} (f : A -> string) (x : string) (l : list A) :
  existsb (fun u => String.eqb (f u) x) l = false -> ~ In x (map f l).
Proof.
  intros H Hin. apply in_map_iff in Hin as [u [E Hu]].
  assert (T : existsb (fun u => String.eqb (f u) x) l = true).
  { apply existsb_exists. exists u. split; [exact Hu|].
    apply String.eqb_eq, E. }
  congruence.
Qed.

Lemma nodup_snoc {A} (l : list A) (x : A) :
  NoDup l -> ~ In x l -> NoDup (l ++ [x]).
Proof.
  intros Hn Hx. eapply Permutation_NoDup; [apply Permutation_cons_append|].
  constructor; assumption.
Qed.

Lemma app_step_ok (req : Request) (st : AppRoutes.AppState) :
  users_ok (AppRoutes.users st) -> session_ok st ->
  users_ok (AppRoutes.users (app_step req st)) /\ session_ok (app_step req st)
  /\ exists added,
       AppRoutes.users (app_step req st) = (AppRoutes.users st ++ added)%list.
Proof.
  intros Hu Hs.
  assert (Same : forall s, session_ok (AppRoutes.mkAppState (AppRoutes.users st) s) ->
            users_ok (AppRoutes.users (AppRoutes.mkAppState (AppRoutes.users st) s))
            /\ session_ok (AppRoutes.mkAppState (AppRoutes.users st) s)
            /\ exists added,
                 AppRoutes.users (AppRoutes.mkAppState (AppRoutes.users st) s)
                 = (AppRoutes.users st ++ added)%list).
  { intros s H. split; [exact Hu|]. split; [exact H|].
    exists []. simpl. rewrite app_nil_r. reflexivity. }
  assert (Keep : users_ok (AppRoutes.users st) /\ session_ok st
                 /\ exists added,
                      AppRoutes.users st = (AppRoutes.users st ++ added)%list).
  { split; [exact Hu|]. split; [exact Hs|].
    exists []. rewrite app_nil_r. reflexivity. }
  destruct req as [n i e u p c|u p|]; simpl.
  - unfold AppRoutes.signup.
    destruct (negb (String.eqb p c)); [exact Keep|].
    destruct (existsb (fun x => String.eqb (AppRoutes.u_username x) u)
                (AppRoutes.users st)) eqn:Eu; [exact Keep|].
    destruct (existsb (fun x => String.eqb (AppRoutes.u_email x) e)
                (AppRoutes.users st)) eqn:Ee; [exact Keep|].
    cbn [snd AppRoutes.users]. split; [|split].
    + destruct Hu as [U1 [U2 [U3 [added [U4 U5]]]]].
      unfold users_ok. rewrite !map_app, length_app. simpl.
      split; [apply nodup_snoc; [exact U1|apply existsb_eqb_not_in, Eu]|].
      split; [apply nodup_snoc; [exact U2|apply existsb_eqb_not_in, Ee]|].
      split.
      * rewrite U3, seq_app. simpl. rewrite Nat.add_comm. reflexivity.
      * eexists. split; [rewrite U4, <- app_assoc; reflexivity|].
        apply Forall_app. split; [exact U5|].
        constructor; [reflexivity|constructor].
    + unfold session_ok. simpl. eexists.
      split; [apply in_or_app; right; left; reflexivity|].
      simpl. repeat split.
    + eexists. reflexivity.
  - unfold AppRoutes.login.
    destruct (find _ (AppRoutes.users st)) as [user|] eqn:Ef; [|exact Keep].
    cbn [snd]. apply Same.
    apply find_some in Ef as [Hin Hm].
    apply andb_true_iff in Hm as [Hm _]. apply String.eqb_eq in Hm.
    unfold session_ok. simpl. exists user. repeat split; assumption.
  - apply Same. exact I.
Qed.

(** X23.  Whatever requests come in, the user list stays in order: in
    every state reached from the start of app.py no two users share a user
    name or an e-mail address, the ids are 1, 2, 3, ... in the order of
    the list, the three sample users are at its head unchanged, every
    user after them is a Student, and a session, when there is one, is
    that of a user of the list, with that user's role, name and e-mail
    address. *)
Theorem user_list_stays_in_order :
  forall (reqs : list Request),
    users_ok (AppRoutes.users (app_run reqs app_init))
    /\ session_ok (app_run reqs app_init).
Proof.
  intros reqs.
  assert (G : forall st, users_ok (AppRoutes.users st) -> session_ok st ->
                users_ok (AppRoutes.users (app_run reqs st))
                /\ session_ok (app_run reqs st)).
  { induction reqs as [|req rest IH]; intros st Hu Hs; simpl.
    - split; assumption.
    - destruct (app_step_ok req st Hu Hs) as [A [B _]]. apply IH; assumption. }
  apply G; [|exact I].
  unfold users_ok, app_init. simpl.
  split; [repeat constructor; simpl; intuition discriminate|].
  split; [repeat constructor; simpl; intuition discriminate|].
  split; [reflexivity|].
  exists []. split; [reflexivity|constructor].
Qed.

(** ** app.py: statistics and investigation *)

Lemma filter_map_length {A B} (f : B -> bool) (g : A -> B) (l : list A) :
  length (filter f (map g l)) = length (filter (fun x => f (g x)) l).
Proof.
  induction l as [|x t IH]; simpl; [reflexivity|].
  destruct (f (g x)); simpl; rewrite IH; reflexivity.
Qed.

Lemma perm_filter_length {A} (f : A -> bool) (l l' : list A) :
  Permutation l l' -> length (filter f l) = length (filter f l').
Proof.
  intros H. induction H as [|x l l' _ IH|x y l|l l' l'' _ IH1 _ IH2]; simpl.
  - reflexivity.
  - destruct (f x); simpl; rewrite IH; reflexivity.
  - destruct (f x), (f y); reflexivity.
  - rewrite IH1. exact IH2.
Qed.

Lemma limit_keeps_small_table {A} (key : A -> nat) (n : nat) (l : list A) :
  length l <= n ->
  sql_limit (Z.of_nat n) (order_by_desc key l) = order_by_desc key l.
Proof.
  intros H. unfold sql_limit.
  destruct (Z.ltb (Z.of_nat n) 0) eqn:E; [reflexivity|].
  rewrite Nat2Z.id. apply firstn_all2.
  rewrite (Permutation_length (order_by_desc_perm key l)). exact H.
Qed.

Lemma limit_length {A} (key : A -> nat) (n : nat) (l : list A) :
  length (sql_limit (Z.of_nat n) (order_by_desc key l)) = Nat.min n (length l).
Proof.
  destruct (order_limit_spec key (Z.of_nat n) l) as [_ [_ [C _]]].
  cbv zeta in C. rewrite C by lia. rewrite Nat2Z.id. reflexivity.
Qed.

(** X24.  The statistics of app.py are taken from the 100 newest activity
    rows and the 20 newest alerts, not from the tables: [total_activities]
    is the number of activity rows up to 100 and stays at 100 beyond, the
    two alert counts never exceed 20, and no count of activities exceeds
    the total.  While the tables are within those sizes the counts are
    those of the tables: [unauthorized] is the number of High activity
    rows, [new_alerts] the number of alerts whose status is New (or
    empty), [high_risk_alerts] the number of High alerts. *)
Theorem api_stats_counts_the_newest_rows :
  forall (w : World FileActivityMonitor.DB),
    quiet w ->
    exists s : AppRoutes.Stats,
      fst (AppRoutes.api_stats w) = Ok s
      /\ committed (snd (AppRoutes.api_stats w)) = committed w
      /\ AppRoutes.total_activities s
         = Nat.min 100
             (length (FileActivityMonitor.file_activities (committed w)))
      /\ AppRoutes.authorized s <= AppRoutes.total_activities s
      /\ AppRoutes.unauthorized s <= AppRoutes.total_activities s
      /\ AppRoutes.high_risk_alerts s <= 20
      /\ AppRoutes.new_alerts s <= 20
      /\ (length (FileActivityMonitor.file_activities (committed w)) <= 100 ->
          AppRoutes.unauthorized s = count_high (committed w))
      /\ (length (FileActivityMonitor.alerts (committed w)) <= 20 ->
          AppRoutes.new_alerts s
          = length (filter
                      (fun a => String.eqb
                                  (AppRoutes.or_default
                                     (FileActivityMonitor.al_status a) "New")
                                  "New")
                      (FileActivityMonitor.alerts (committed w)))
          /\ AppRoutes.high_risk_alerts s
             = length (filter
                         (fun a => RiskLevel_eqb
                                     (FileActivityMonitor.al_risk_level a) High)
                         (FileActivityMonitor.alerts (committed w)))).
Proof.
  intros w Hq.
  destruct w as [d wr nc b f clk p]. unfold quiet in Hq. simpl in Hq. subst wr.
  exec_reads. cbn [committed].
  eexists. split; [reflexivity|]. split; [reflexivity|].
  cbn [AppRoutes.total_activities AppRoutes.authorized AppRoutes.unauthorized
       AppRoutes.high_risk_alerts AppRoutes.new_alerts].
  rewrite !length_map.
  change 100%Z with (Z.of_nat 100). change 20%Z with (Z.of_nat 20).
  pose proof (limit_length FileActivityMonitor.act_timestamp 100
                (FileActivityMonitor.file_activities d)) as La.
  pose proof (limit_length FileActivityMonitor.al_timestamp 20
                (FileActivityMonitor.alerts d)) as Ll.
  split; [exact La|].
  split; [etransitivity; [apply filter_length_le|rewrite length_map; lia]|].
  split; [etransitivity; [apply filter_length_le|rewrite length_map; lia]|].
  split; [etransitivity; [apply filter_length_le|rewrite length_map; lia]|].
  split; [etransitivity; [apply filter_length_le|rewrite length_map; lia]|].
  split.
  - intros H. rewrite (limit_keeps_small_table _ 100 _ H).
    rewrite filter_map_length. unfold count_high. cbn [AppRoutes.fa_risk_level
      AppRoutes.format_activity].
    apply perm_filter_length, order_by_desc_perm.
  - intros H. rewrite (limit_keeps_small_table _ 20 _ H).
    rewrite !filter_map_length. split;
      cbn [AppRoutes.fl_status AppRoutes.fl_risk_level AppRoutes.format_alert];
      apply perm_filter_length, order_by_desc_perm.
Qed.

Lemma api_stats_counts_the_newest_rows_witness :
  let a1 := FileActivityMonitor.mkActivity 1 3 "alice" "python.exe" 42
              "DELETE" "C:\a.txt" 0 None "Detected" High in
  let al := FileActivityMonitor.mkAlert 1 3 "alice"
              "High-risk delete operation detected on a.txt" "C:\a.txt"
              High "New" in
  let w := mkWorld (FileActivityMonitor.mkDB [a1] [al] 1 1)
                   None 0 [] true 10 None in
  exists s : AppRoutes.Stats,
    fst (AppRoutes.api_stats w) = Ok s
    /\ AppRoutes.total_activities s = 1
    /\ AppRoutes.unauthorized s = 1
    /\ AppRoutes.new_alerts s = 1.
Proof.
  intros a1 al w.
  destruct (api_stats_counts_the_newest_rows w eq_refl)
    as [s [E [_ [T [_ [_ [_ [_ [U N]]]]]]]]].
  exists s. split; [exact E|]. split; [rewrite T; reflexivity|].
  split; [rewrite U; [reflexivity|simpl; lia]|].
  destruct N as [N _]; [simpl; lia|]. rewrite N. reflexivity.
Defined.





(** ** Alert actions at the edges *)



Lemma set_alert_status_no_match (status : string) (alert_id : option nat)
    (l : list Alert) :
  (forall a, In a l -> Some (al_id a) <> alert_id) ->
  map (set_alert_status status alert_id) l = l.
Proof.
  intros H. induction l as [|x t IH]; simpl; [reflexivity|].
  rewrite IH by (intros a Ha; apply H; right; exact Ha). f_equal.
  unfold set_alert_status. destruct alert_id as [i|]; [|reflexivity].
  destruct (Nat.eqb (al_id x) i) eqn:E; [|reflexivity].
  apply Nat.eqb_eq in E. exfalso. apply (H x); [left; reflexivity|].
  rewrite E. reflexivity.
Qed.

(** X27.  An alert action on an alert that does not exist is answered as
    a success: when the request names no alert id, or an id, within the
    integers of SQLite, that no alert has, the endpoint of
    web_interface.py still answers success with the status of the mapping,
    and no alert is changed. *)
Theorem alert_action_on_missing_alert :
  forall (req : WebInterface.ActionRequest) (w : World DB),
    idle w -> db_file w = true ->
    (forall i, WebInterface.req_alert_id req = Some i ->
               (Z.of_nat i < 2 ^ 63)%Z) ->
    (forall a, In a (alerts (committed w)) ->
               Some (al_id a) <> WebInterface.req_alert_id req) ->
    let r := WebInterface.api_alert_action req w in
    fst r = Ok (WebInterface.mkActionResponse true
                  ("Alert "
                   ++ WebInterface.format_action (WebInterface.req_action req)
                   ++ "d successfully")
                  (Some (WebInterface.status_map_get
                           (WebInterface.req_action req))))
    /\ alerts (committed (snd r)) = alerts (committed w).
Proof.
  intros req w [Hq Hb] Hf _ Hno r. subst r.
  rewrite (api_alert_action_quiet req w Hq), Hf, Hb. cbv zeta.
  split; [reflexivity|].
  cbn [snd committed update_alert_status alerts].
  apply set_alert_status_no_match, Hno.
Qed.

Lemma alert_action_on_missing_alert_witness :
  let a := mkAlert 1 4 "alice" "High-risk delete operation detected"
             "C:\a.txt" High "New" 4 in
  let w := mkWorld (mkDB [] [a] [] [] 0 1 0) None 0 [] true 6 None in
  let r := WebInterface.api_alert_action
             (WebInterface.mkActionRequest (Some 7) (Some "resolve")) w in
  fst r = Ok (WebInterface.mkActionResponse true "Alert resolved successfully"
                (Some "Resolved"))
  /\ alerts (committed (snd r)) = [a].
Proof.
  intros a w r.
  apply (alert_action_on_missing_alert
           (WebInterface.mkActionRequest (Some 7) (Some "resolve")) w).
  - split; reflexivity.
  - reflexivity.
  - intros i E. injection E as <-. lia.
  - intros x [<-|[]]. discriminate.
Defined.
